(** * Starlight Hypervisor: the tabbed remote-console bridge

    A shallow embedding of the browser-side console subsystem:
    - [var/www/html/js/console-manager.js]  (session registry, tab controller,
      control-action dispatchers),
    - [var/www/html/js/vnc-viewer.js]       (graphical transport bridge:
      [launchVncInContainer], [getRfbClient], [cleanupSession]),
    - [var/www/html/js/terminal.js]         (text transport bridge:
      [launchTerminalInContainer], [getTermInstance], [cleanupSession]),
    - [var/www/html/js/api.js]              ([apiCall], as the value it
      resolves to).

    Left out, because nothing here depends on them: the single-viewer
    functions of the two transport modules ([launchVnc], [launchTerminal] and
    their companions), the clipboard and credentials listeners of an RFB
    client, terminal resizing, and console logging.

    The JavaScript runs on a single-threaded event loop.  Every function is
    embedded as a function on an explicit [State]; an [async] function is cut
    at each [await] whose promise is settled by the outside world, the part
    behind the [await] being a continuation ([Cont]) kept in the state until
    the world resumes it.  [setTimeout] records a timer; the world fires it. *)

From stdpp Require Import base option list gmap strings pretty.

Local Open Scope Z_scope.
Local Open Scope nat_scope.

(** ** JavaScript values that reach the console code as arguments *)

(** [port] and [icon] come from the inventory JSON ([vm.vnc_port], [vm.icon])
    or are left out by the caller. *)
Inductive JsVal :=
  | JUndefined
  | JNull
  | JNum (n : Z)
  | JStr (s : string).

Global Instance JsVal_eq_dec : EqDecision JsVal.
Proof. solve_decision. Defined.

(** JavaScript truthiness, as used by [if (x)] and [!x]. *)
Definition truthy (v : JsVal) : bool :=
  match v with
  | JUndefined | JNull => false
  | JNum n => negb (n =? 0)%Z
  | JStr s => negb (String.eqb s "")
  end.

(** A default parameter ([port = null]) replaces [undefined] only. *)
Definition default_null (v : JsVal) : JsVal :=
  match v with JUndefined => JNull | _ => v end.

(** Truthiness of a string-or-null result such as [findSessionByName]'s. *)
Definition truthy_id (o : option string) : bool :=
  match o with
  | None => false
  | Some s => negb (String.eqb s "")
  end.

(** ** A JavaScript [Map] with string keys

    Iteration order is insertion order, [set] on a present key keeps the key's
    place, and [keys().next().value] is the oldest key: the order is observable
    in [closeTab], so the map is an association list. *)
Module JsMap.
Section ops.
Context {V : Type}.

Fixpoint get (k : string) (m : list (string * V)) : option V :=
  match m with
  | [] => None
  | (k', v) :: r => if decide (k = k') then Some v else get k r
  end.

Fixpoint set (k : string) (v : V) (m : list (string * V)) : list (string * V) :=
  match m with
  | [] => [(k, v)]
  | (k', v') :: r =>
      if decide (k = k') then (k, v) :: r else (k', v') :: set k v r
  end.

Fixpoint delete (k : string) (m : list (string * V)) : list (string * V) :=
  match m with
  | [] => []
  | (k', v') :: r =>
      if decide (k = k') then r else (k', v') :: delete k r
  end.

Definition keys (m : list (string * V)) : list string := m.*1.

Definition size (m : list (string * V)) : nat := length m.

(** [m.keys().next().value] *)
Definition first_key (m : list (string * V)) : option string := head (keys m).
End ops.
End JsMap.

(** ** console-manager.js: the session object *)

(** [instance] holds what [getRfbClient] / [getTermInstance] returned: a
    reference to an RFB client or to an xterm terminal ([null] and [undefined]
    are both [None]; the code only tests [!session.instance]). *)
Inductive Instance :=
  | InstRfb (h : nat)
  | InstTerm (h : nat).

Global Instance Instance_eq_dec : EqDecision Instance.
Proof. solve_decision. Defined.

Record Session := mkSession {
  id : string;
  name : string;
  type : string;
  port : JsVal;
  icon : JsVal;
  instance : option Instance
}.

Global Instance Session_eq_dec : EqDecision Session.
Proof. solve_decision. Defined.

Definition set_instance (i : option Instance) (s : Session) : Session :=
  mkSession (id s) (name s) (type s) (port s) (icon s) i.

(** [const CONTROL_ACTION_DELAY = 2000] (console-manager.js),
    [CONNECTION_ERROR_DELAY] and [CONNECTION_CLOSE_DELAY] (terminal.js). *)
Definition CONTROL_ACTION_DELAY : Z := 2000.
Definition CONNECTION_ERROR_DELAY : Z := 2000.
Definition CONNECTION_CLOSE_DELAY : Z := 2000.

(** ** The document

    Only the elements the console code creates or looks up.  [viewer] is
    [#console-viewer] ([None]: not in the page; [Some h]: present, [h] says
    whether it carries the class [hidden]); [tabBar] is [#console-tabs] with
    its [.console-tab] children; [consoleArea] is [#console-area] with its
    [.console-content] children, both in document order.  A container owns
    the [#status-<sessionId>] span and the [#canvas-<sessionId>] or
    [#terminal-<sessionId>] surface created with it, so a lookup of one of
    these ids is a lookup of the first container of that session.  Closures
    keep elements, not ids: [c_node] is the identity of the container. *)
Record Tab := mkTab {
  tab_session : string;       (* data-session-id; the element id is tab-<it> *)
  tab_name : string;          (* label: Console: <name> *)
  tab_type : string;
  tab_icon : JsVal;
  tab_active : bool           (* class active *)
}.

Record Container := mkContainer {
  c_node : nat;
  c_session : string;         (* data-session-id *)
  c_kind : string;            (* vnc-content or terminal-content *)
  c_name : string;
  c_hidden : bool;            (* class hidden *)
  c_status_text : string;     (* textContent of the status span *)
  c_status_class : string;    (* className of the status span *)
  c_has_status : bool;        (* the markup has given the status span *)
  c_has_surface : bool        (* the markup has given the canvas or terminal div *)
}.

Record Dom := mkDom {
  viewer : option bool;
  tabBar : option (list Tab);
  consoleArea : option (list Container);
  nextNode : nat
}.

Global Instance Tab_eq_dec : EqDecision Tab.
Proof. solve_decision. Defined.
Global Instance Container_eq_dec : EqDecision Container.
Proof. solve_decision. Defined.
Global Instance Dom_eq_dec : EqDecision Dom.
Proof. solve_decision. Defined.

(** ** vnc-viewer.js: module state *)

(** An RFB client made by [new window.RFB(canvasContainer, wsUrl, ...)] in
    [launchVncInContainer].  Its event listeners close over [sessionId],
    [vmName] and [statusEl]; these are kept with the object.  The proxy URL is
    determined by [vncPort] and the ambient location and token. *)
Record RfbClient := mkRfb {
  rfb_session : string;
  rfb_vmName : string;
  rfb_port : JsVal;
  rfb_canvas : nat;
  rfb_statusEl : option nat;
  rfb_disconnected : bool     (* disconnect() has been called *)
}.

Record VncInfo := mkVncInfo {
  vi_vmName : string;
  vi_port : JsVal;
  vi_canvasContainerId : string;
  vi_statusElementId : string
}.

(** [rfbClients] and [vncSessions] are [Map]s that are never iterated. *)
Record Vnc := mkVnc {
  rfbClients : gmap string nat;
  vncSessions : gmap string VncInfo;
  rfbs : list RfbClient       (* every RFB object constructed so far *)
}.

(** ** terminal.js: module state *)

(** An xterm terminal: the calls of [write] and [writeln] it received, in
    order, each as the bytes handed to the renderer. *)
Record Terminal := mkTerminal {
  term_writes : list string;
  term_disposed : bool;
  term_socket : option nat    (* the socket the onData listener closes over *)
}.

Inductive ReadyState := CONNECTING | OPEN | CLOSING | CLOSED.

(** A [WebSocket]; its handlers close over [sessionId], [containerName],
    [terminal] and [statusEl]. *)
Record WebSocket := mkWs {
  ws_session : string;
  ws_containerName : string;
  ws_terminal : nat;
  ws_statusEl : option nat;
  ws_readyState : ReadyState;
  ws_sent : list string
}.

Record TermInfo := mkTermInfo {
  ti_containerName : string;
  ti_terminalContainerId : string;
  ti_statusElementId : string;
  ti_resizeHandler : bool
}.

Record Term := mkTerm {
  termInstances : gmap string nat;
  termSockets : gmap string nat;
  termFitAddons : gmap string nat;
  termSessions : gmap string TermInfo;
  terminals : list Terminal;  (* every xterm terminal constructed so far *)
  sockets : list WebSocket;   (* every WebSocket constructed so far *)
  xtermLoaded : bool;         (* typeof Terminal !== 'undefined' *)
  fitAddonLoaded : bool       (* typeof FitAddon !== 'undefined' *)
}.

(** ** The event loop's bookkeeping *)

Inductive TimerAction :=
  | TCloseTab (sessionId : string)  (* () => window.ConsoleManager.closeTab(sessionId) *)
  | TFit (terminal : nat).          (* () => fitAddon.fit() *)

(** A suspended [async] function. *)
Inductive Cont :=
  | KLaunchVnc (sessionId vmName : string) (vncPort : JsVal)
               (canvasContainer : nat) (statusEl : option nat)
      (* launchVncInContainer at [await requestClipboardPermissions()], with
         initVncSession waiting for it *)
  | KVncControl (sessionId action : string)
      (* vncControl at [await window.API.apiCall(endpoint, 'POST')] *)
  | KTerminalControl (sessionId action : string).

Record Env := mkEnv {
  timers : list (Z * TimerAction);    (* setTimeout(action, delay), pending *)
  toasts : list (string * string);    (* window.UI.showStatus(message, type) *)
  apiCalls : list (string * string);  (* window.API.apiCall(endpoint, method) *)
  pending : list Cont;
  localStorage : gmap string string   (* window.localStorage *)
}.

Global Instance TimerAction_eq_dec : EqDecision TimerAction.
Proof. solve_decision. Defined.
Global Instance Cont_eq_dec : EqDecision Cont.
Proof. solve_decision. Defined.

(** ** The whole state *)

Record ConsoleManager := mkCM {
  consoleSessions : list (string * Session);
  activeSessionId : option string
}.

Record State := mkState {
  cm : ConsoleManager;
  dom : Dom;
  vnc : Vnc;
  term : Term;
  env : Env
}.

Definition sessions (s : State) : list (string * Session) := consoleSessions (cm s).
Definition active (s : State) : option string := activeSessionId (cm s).

(** Field updates. *)
Definition with_sessions (f : list (string * Session) → list (string * Session))
    (s : State) : State :=
  mkState (mkCM (f (sessions s)) (active s)) (dom s) (vnc s) (term s) (env s).

Definition with_active (a : option string) (s : State) : State :=
  mkState (mkCM (sessions s) a) (dom s) (vnc s) (term s) (env s).

Definition with_dom (f : Dom → Dom) (s : State) : State :=
  mkState (cm s) (f (dom s)) (vnc s) (term s) (env s).

Definition with_vnc (f : Vnc → Vnc) (s : State) : State :=
  mkState (cm s) (dom s) (f (vnc s)) (term s) (env s).

Definition with_term (f : Term → Term) (s : State) : State :=
  mkState (cm s) (dom s) (vnc s) (f (term s)) (env s).

Definition with_env (f : Env → Env) (s : State) : State :=
  mkState (cm s) (dom s) (vnc s) (term s) (f (env s)).

Definition set_viewer (v : option bool) (d : Dom) : Dom :=
  mkDom v (tabBar d) (consoleArea d) (nextNode d).

Definition map_tabs (f : list Tab → list Tab) (d : Dom) : Dom :=
  mkDom (viewer d) (f <$> tabBar d) (consoleArea d) (nextNode d).

Definition map_containers (f : list Container → list Container) (d : Dom) : Dom :=
  mkDom (viewer d) (tabBar d) (f <$> consoleArea d) (nextNode d).

Definition setTimeout (a : TimerAction) (delay : Z) : State → State :=
  with_env (λ e, mkEnv (timers e ++ [(delay, a)]) (toasts e) (apiCalls e) (pending e)
                 (localStorage e)).

(** [window.UI.showStatus(message, type)] *)
Definition showStatus (message type : string) : State → State :=
  with_env (λ e, mkEnv (timers e) (toasts e ++ [(message, type)]) (apiCalls e) (pending e)
                 (localStorage e)).

Definition apiCall (endpoint method : string) : State → State :=
  with_env (λ e, mkEnv (timers e) (toasts e) (apiCalls e ++ [(endpoint, method)]) (pending e)
                 (localStorage e)).

Definition suspend (k : Cont) : State → State :=
  with_env (λ e, mkEnv (timers e) (toasts e) (apiCalls e) (pending e ++ [k])
                 (localStorage e)).

(** Remove the [i]-th element of a list (a fired timer, a resumed
    continuation). *)
Definition drop_nth {A} (i : nat) (l : list A) : list A := take i l ++ drop (S i) l.

Definition drop_timer (i : nat) : State → State :=
  with_env (λ e, mkEnv (drop_nth i (timers e)) (toasts e) (apiCalls e) (pending e)
                 (localStorage e)).

Definition drop_pending (i : nat) : State → State :=
  with_env (λ e, mkEnv (timers e) (toasts e) (apiCalls e) (drop_nth i (pending e))
                 (localStorage e)).

(** ** DOM lookups and updates *)

(** Remove the first element satisfying [p] ([getElementById] or
    [querySelector] followed by [remove()]). *)
Fixpoint remove_first {A} (p : A → bool) (l : list A) : list A :=
  match l with
  | [] => []
  | x :: r => if p x then r else x :: remove_first p r
  end.

Fixpoint find_first {A} (p : A → bool) (l : list A) : option A :=
  match l with
  | [] => None
  | x :: r => if p x then Some x else find_first p r
  end.

Definition is_session (sid : string) (x : string) : bool := bool_decide (x = sid).

(** [document.getElementById(`status-${sessionId}`)] and the like: the element
    id is given as a string, as in the source. *)
Definition getStatusEl (elementId : string) (d : Dom) : option nat :=
  cs ← consoleArea d;
  c_node <$> find_first (λ c, c_has_status c
                              && bool_decide ("status-" +:+ c_session c = elementId)) cs.

Definition getCanvasEl (elementId : string) (d : Dom) : option nat :=
  cs ← consoleArea d;
  c_node <$> find_first (λ c, c_has_surface c && bool_decide (c_kind c = "vnc-content")
                              && bool_decide ("canvas-" +:+ c_session c = elementId)) cs.

Definition getTerminalEl (elementId : string) (d : Dom) : option nat :=
  cs ← consoleArea d;
  c_node <$> find_first (λ c, c_has_surface c && bool_decide (c_kind c = "terminal-content")
                              && bool_decide ("terminal-" +:+ c_session c = elementId)) cs.

(** [statusEl.textContent = text; statusEl.className = cls], guarded by
    [if (statusEl)].  An element removed from the document keeps no
    observable state here: writing to it changes nothing. *)
Definition set_status_of (node : nat) (text cls : string) (c : Container) : Container :=
  if decide (c_node c = node)
  then mkContainer (c_node c) (c_session c) (c_kind c) (c_name c) (c_hidden c) text cls
                   (c_has_status c) (c_has_surface c)
  else c.

Definition setStatus (statusEl : option nat) (text cls : string) : State → State :=
  match statusEl with
  | None => λ s, s
  | Some node => with_dom (map_containers (fmap (set_status_of node text cls)))
  end.

(** The status span shown for a session: text and class of the element
    [status-<sid>]. *)
Definition status_of (sid : string) (s : State) : option (string * string) :=
  cs ← consoleArea (dom s);
  (λ c, (c_status_text c, c_status_class c)) <$>
    find_first (λ c, c_has_status c && is_session sid (c_session c)) cs.

(** ** vnc-viewer.js: [getRfbClient], [cleanupSession] *)
Module VNCViewer.

Definition getRfbClient (sessionId : string) (s : State) : option nat :=
  rfbClients (vnc s) !! sessionId.

(** [client.disconnect()] inside [try ... catch]. *)
Definition disconnect (client : nat) (v : Vnc) : Vnc :=
  mkVnc (rfbClients v) (vncSessions v)
    (alter (λ c, mkRfb (rfb_session c) (rfb_vmName c) (rfb_port c)
                       (rfb_canvas c) (rfb_statusEl c) true) client (rfbs v)).

Definition cleanupSession (sessionId : string) : State → State :=
  with_vnc (λ v,
    let v1 :=
      match rfbClients v !! sessionId with
      | Some client =>
          let v' := disconnect client v in
          mkVnc (delete sessionId (rfbClients v')) (vncSessions v') (rfbs v')
      | None => v
      end in
    mkVnc (rfbClients v1) (delete sessionId (vncSessions v1)) (rfbs v1)).

End VNCViewer.

(** ** terminal.js: [getTermInstance], [cleanupSession] *)
Module TerminalManager.

Definition getTermInstance (sessionId : string) (s : State) : option nat :=
  termInstances (term s) !! sessionId.

(** [socket.close()]: a socket that is connecting or open starts closing. *)
Definition close_socket (w : WebSocket) : WebSocket :=
  mkWs (ws_session w) (ws_containerName w) (ws_terminal w) (ws_statusEl w)
    (match ws_readyState w with
     | CONNECTING | OPEN => CLOSING
     | st => st
     end) (ws_sent w).

(** [terminal.dispose()] *)
Definition dispose (t : Terminal) : Terminal :=
  mkTerminal (term_writes t) true (term_socket t).

Definition cleanupSession (sessionId : string) : State → State :=
  with_term (λ t,
    let '(socks, sockMap) :=
      match termSockets t !! sessionId with
      | Some socket => (alter close_socket socket (sockets t),
                        delete sessionId (termSockets t))
      | None => (sockets t, termSockets t)
      end in
    let '(ts, instMap) :=
      match termInstances t !! sessionId with
      | Some terminal => (alter dispose terminal (terminals t),
                          delete sessionId (termInstances t))
      | None => (terminals t, termInstances t)
      end in
    mkTerm instMap sockMap (delete sessionId (termFitAddons t))
           (delete sessionId (termSessions t)) ts socks
           (xtermLoaded t) (fitAddonLoaded t)).

End TerminalManager.

(** ** console-manager.js *)

Fixpoint findSessionByName (n : string) (m : list (string * Session)) : option string :=
  match m with
  | [] => None
  | (sessionId, session) :: r =>
      if decide (name session = n) then Some sessionId else findSessionByName n r
  end.

Definition createTab (sessionId n ty : string) (ic : JsVal) : State → State :=
  with_dom (map_tabs (λ tabs, tabs ++ [mkTab sessionId n ty ic false])).

Definition activate_tab (sessionId : string) (t : Tab) : Tab :=
  mkTab (tab_session t) (tab_name t) (tab_type t) (tab_icon t)
        (is_session sessionId (tab_session t)).

Definition show_container (sessionId : string) (c : Container) : Container :=
  mkContainer (c_node c) (c_session c) (c_kind c) (c_name c)
              (negb (is_session sessionId (c_session c)))
              (c_status_text c) (c_status_class c) (c_has_status c) (c_has_surface c).

Definition switchToTab (sessionId : string) (s : State) : State :=
  with_dom (λ d, map_containers (fmap (show_container sessionId))
                   (map_tabs (fmap (activate_tab sessionId)) d))
    (with_active (Some sessionId) s).

Definition cleanupVncSession := VNCViewer.cleanupSession.
Definition cleanupTerminalSession := TerminalManager.cleanupSession.

Definition hide_viewer (d : Dom) : Dom :=
  set_viewer (match viewer d with Some _ => Some true | None => None end) d.

Definition show_viewer (d : Dom) : Dom :=
  set_viewer (match viewer d with Some _ => Some false | None => None end) d.

Definition closeTab (sessionId : string) (s : State) : State :=
  match JsMap.get sessionId (sessions s) with
  | None => s
  | Some session =>
      let s1 :=
        if decide (type session = "vnc") then cleanupVncSession sessionId s
        else if decide (type session = "terminal") then cleanupTerminalSession sessionId s
        else s in
      let s2 := with_dom (map_tabs (remove_first (λ t, is_session sessionId (tab_session t)))) s1 in
      let s3 := with_dom (map_containers
                  (remove_first (λ c, is_session sessionId (c_session c)))) s2 in
      let s4 := with_sessions (JsMap.delete sessionId) s3 in
      if decide (active s4 = Some sessionId) then
        if bool_decide (0 < JsMap.size (sessions s4)) then
          match JsMap.first_key (sessions s4) with
          | Some firstSessionId => switchToTab firstSessionId s4
          | None => s4
          end
        else with_active None (with_dom hide_viewer s4)
      else s4
  end.

(** *** RFB event listeners registered by [launchVncInContainer] *)

Definition onRfbConnect (vmName : string) (statusEl : option nat) (s : State) : State :=
  showStatus ("VNC connected to " +:+ vmName) "success"
    (setStatus statusEl "Connected" "console-status console-status-connected" s).

(** [e.detail.clean] is [clean]. *)
Definition onRfbDisconnect (sessionId : string) (statusEl : option nat) (clean : bool)
    (s : State) : State :=
  let statusMsg := if clean then "Clean Disconnect" else "Disconnected" in
  let s1 := setStatus statusEl statusMsg "console-status console-status-error" s in
  if clean then closeTab sessionId s1 else s1.

(** [e.detail.status] is [status]. *)
Definition onRfbSecurityFailure (statusEl : option nat) (status : string) (s : State) : State :=
  showStatus ("VNC Security Failure: " +:+ status) "error"
    (setStatus statusEl "Security Error" "console-status console-status-error" s).

(** *** xterm and WebSocket handlers registered by [launchTerminalInContainer] *)

Definition CRLF : string := String (Ascii.ascii_of_nat 13) (String (Ascii.ascii_of_nat 10) EmptyString).
Definition ESC : string := String (Ascii.ascii_of_nat 27) EmptyString.

Definition write (terminal : nat) (data : string) : State → State :=
  with_term (λ t,
    mkTerm (termInstances t) (termSockets t) (termFitAddons t) (termSessions t)
      (alter (λ x, mkTerminal (term_writes x ++ [data]) (term_disposed x) (term_socket x))
             terminal (terminals t))
      (sockets t) (xtermLoaded t) (fitAddonLoaded t)).

Definition writeln (terminal : nat) (data : string) : State → State :=
  write terminal (data +:+ CRLF).

Definition onSocketOpen (containerName : string) (terminal : nat) (statusEl : option nat)
    (s : State) : State :=
  writeln terminal ""
    (writeln terminal ("Connected to " +:+ containerName)
       (setStatus statusEl "Connected" "console-status console-status-connected" s)).

Definition onSocketMessage (terminal : nat) (data : string) (s : State) : State :=
  write terminal data s.

Definition onSocketError (sessionId : string) (terminal : nat) (statusEl : option nat)
    (s : State) : State :=
  setTimeout (TCloseTab sessionId) CONNECTION_ERROR_DELAY
    (writeln terminal (CRLF +:+ ESC +:+ "[1;31mConnection error" +:+ ESC +:+ "[0m" +:+ CRLF)
       (setStatus statusEl "Connection Error" "console-status console-status-error" s)).

Definition onSocketClose (sessionId : string) (terminal : nat) (statusEl : option nat)
    (s : State) : State :=
  setTimeout (TCloseTab sessionId) CONNECTION_CLOSE_DELAY
    (writeln terminal (CRLF +:+ ESC +:+ "[1;33mConnection closed" +:+ ESC +:+ "[0m" +:+ CRLF)
       (setStatus statusEl "Disconnected" "console-status console-status-error" s)).

Definition set_readyState (st : ReadyState) (w : WebSocket) : WebSocket :=
  mkWs (ws_session w) (ws_containerName w) (ws_terminal w) (ws_statusEl w) st (ws_sent w).

Definition send (data : string) (w : WebSocket) : WebSocket :=
  mkWs (ws_session w) (ws_containerName w) (ws_terminal w) (ws_statusEl w)
       (ws_readyState w) (ws_sent w ++ [data]).

Definition with_sockets (f : list WebSocket → list WebSocket) : State → State :=
  with_term (λ t,
    mkTerm (termInstances t) (termSockets t) (termFitAddons t) (termSessions t)
      (terminals t) (f (sockets t)) (xtermLoaded t) (fitAddonLoaded t)).

(** [terminal.onData(data => { if (socket && socket.readyState === WebSocket.OPEN)
    socket.send(data) })] *)
Definition onData (socket : nat) (data : string) (s : State) : State :=
  match sockets (term s) !! socket with
  | Some w =>
      match ws_readyState w with
      | OPEN => with_sockets (alter (send data) socket) s
      | _ => s
      end
  | None => s
  end.

(** ** vnc-viewer.js: the clipboard probe *)

(** How [navigator.clipboard] answers the probe. *)
Inductive Clipboard :=
  | NoClipboardApi                 (* [navigator.clipboard] is missing *)
  | ReadResolves (text : string)   (* [readText()] resolves *)
  | ReadRejects.                   (* [readText()] rejects *)

Global Instance Clipboard_eq_dec : EqDecision Clipboard.
Proof. solve_decision. Defined.

(** A page together with the [localStorage] the probe works on. *)
Record Browser := mkBrowser {
  br_page : State;
  br_localStorage : gmap string string
}.

Definition notificationKey : string := "clipboard_notification_shown".

Definition clipboard_tip : string :=
  "💡 Tip: Allow clipboard access when prompted to enable copy/paste between your computer and VNC".

(** [requestClipboardPermissions()], with what it returns.  All it does to
    the page and to [localStorage] happens once [readText()] has settled. *)
Definition requestClipboardPermissions (c : Clipboard) (b : Browser) : Browser * bool :=
  match c with
  | NoClipboardApi => (b, false)
  | ReadResolves _ => (b, true)
  | ReadRejects =>
      if negb (truthy_id (br_localStorage b !! notificationKey)) then
        (mkBrowser (showStatus clipboard_tip "info" (br_page b))
                   (<[notificationKey := "true"]> (br_localStorage b)),
         false)
      else (b, false)
  end.

(** Whether a probe that ends as [c] shows the tip: [readText()] was rejected
    and the notification key is not set. *)
Definition shows_tip (c : Clipboard) (s : State) : bool :=
  bool_decide (c = ReadRejects)
  && negb (truthy_id (localStorage (env s) !! notificationKey)).

(** [await requestClipboardPermissions()] inside a launch: the probe, on the
    page's own [localStorage]. *)
Definition clipboard_probe (c : Clipboard) (s : State) : State :=
  let b := (requestClipboardPermissions c (mkBrowser s (localStorage (env s)))).1 in
  with_env (λ e, mkEnv (timers e) (toasts e) (apiCalls e) (pending e) (br_localStorage b))
           (br_page b).

Global Arguments clipboard_probe : simpl never.

(** *** Launching the transports *)

(** How a call of an [async] function stands when control comes back: it
    threw (its promise is rejected with [message]), it is suspended at an
    [await], or it ran to its end. *)
Inductive Launch :=
  | Threw (message : string)
  | Awaiting
  | Resolved.

(** [launchVncInContainer], up to [await requestClipboardPermissions()]. *)
Definition launchVncInContainer (sessionId vmName : string) (vncPort : JsVal)
    (canvasContainerId statusElementId : string) (s : State) : State * Launch :=
  if negb (truthy vncPort) then (s, Threw "VNC port not available for this VM")
  else
    match getCanvasEl canvasContainerId (dom s) with
    | None => (s, Threw "VNC canvas container element not found")
    | Some canvasContainer =>
        let statusEl := getStatusEl statusElementId (dom s) in
        let s1 := with_vnc (λ v,
                    mkVnc (rfbClients v)
                          (<[sessionId := mkVncInfo vmName vncPort canvasContainerId
                                                    statusElementId]> (vncSessions v))
                          (rfbs v)) s in
        let s2 := setStatus statusEl "Connecting..."
                    "console-status console-status-connecting" s1 in
        (suspend (KLaunchVnc sessionId vmName vncPort canvasContainer statusEl) s2,
         Awaiting)
    end.

(** The rest of [launchVncInContainer], inside its [try], once the clipboard
    probe is over ([resume] runs [clipboard_probe] first, in the same turn);
    [ctor] is [Some message] when [new window.RFB(...)] throws [message]. *)
Definition launchVncInContainer_resume (sessionId vmName : string) (vncPort : JsVal)
    (canvasContainer : nat) (statusEl : option nat) (ctor : option string)
    (s : State) : State * Launch :=
  match ctor with
  | Some message =>
      (setStatus statusEl "Error" "console-status console-status-error" s, Threw message)
  | None =>
      let client := length (rfbs (vnc s)) in
      (with_vnc (λ v,
         mkVnc (<[sessionId := client]> (rfbClients v)) (vncSessions v)
               (rfbs v ++ [mkRfb sessionId vmName vncPort canvasContainer statusEl false])) s,
       Resolved)
  end.

(** [session.instance = ...] on the session object [initVncSession] or
    [initTerminalSession] took from the registry.  Session ids are generated
    fresh, so the entry under [sessionId], while there is one, is that object;
    once it is closed nobody reads the object again. *)
Definition assign_instance (sessionId : string) (i : option Instance) : State → State :=
  with_sessions (λ m,
    match JsMap.get sessionId m with
    | Some session => JsMap.set sessionId (set_instance i session) m
    | None => m
    end).

(** The part of [initVncSession] behind its [await]. *)
Definition initVncSession_settle (sessionId : string) (r : State * Launch) : State :=
  match r with
  | (s, Threw message) => showStatus ("VNC connection failed: " +:+ message) "error" s
  | (s, Awaiting) => s
  | (s, Resolved) =>
      assign_instance sessionId (InstRfb <$> VNCViewer.getRfbClient sessionId s) s
  end.

(** What the parse of a container's markup gives.  [initVncSession] and
    [initTerminalSession] paste the name into [innerHTML] as it is; the session
    id, made of [console-], digits and base-36 digits, is harmless there.  Of
    the parse only this is kept: whether the two elements the launch looks up
    by id are in the tree.  (A name can swallow them, as [lxc<!--] does; a name
    that forges the id of some other element is not modelled.) *)
Record Markup := mkMarkup {
  m_status : bool;     (* the span [status-<id>] is in the tree *)
  m_surface : bool     (* the div [canvas-<id>] or [terminal-<id>] is in the tree *)
}.

Global Instance Markup_eq_dec : EqDecision Markup.
Proof. solve_decision. Defined.

(** The markup as it is written. *)
Definition intact : Markup := mkMarkup true true.

(** A name without [<] (code 60) is text wherever the markup has it: no
    tag, end tag or comment can start inside it. *)
Fixpoint plain (n : string) : bool :=
  match n with
  | EmptyString => true
  | String c r => negb (Ascii.eqb c (Ascii.ascii_of_nat 60)) && plain r
  end.

(** [container.innerHTML = ...; consoleArea.appendChild(container)].  The
    container element itself is made by [createElement]; [m] tells which of the
    two elements looked up later its markup has given. *)
Definition append_container (sessionId kind n : string) (m : Markup) (d : Dom) : Dom :=
  mkDom (viewer d) (tabBar d)
        ((λ cs, cs ++ [mkContainer (nextNode d) sessionId kind n false "Connecting..."
                                   "console-status console-status-info"
                                   (m_status m) (m_surface m)]) <$> consoleArea d)
        (S (nextNode d)).

Definition initVncSession (sessionId n : string) (p : JsVal) (m : Markup) (s : State) : State :=
  match JsMap.get sessionId (sessions s) with
  | None => s
  | Some _ =>
      match consoleArea (dom s) with
      | None => s
      | Some _ =>
          let s1 := with_dom (append_container sessionId "vnc-content" n m) s in
          initVncSession_settle sessionId
            (launchVncInContainer sessionId n p ("canvas-" +:+ sessionId)
                                  ("status-" +:+ sessionId) s1)
      end
  end.

Definition with_termSessions (f : gmap string TermInfo → gmap string TermInfo) : State → State :=
  with_term (λ t,
    mkTerm (termInstances t) (termSockets t) (termFitAddons t) (f (termSessions t))
      (terminals t) (sockets t) (xtermLoaded t) (fitAddonLoaded t)).

Definition with_terminals (f : list Terminal → list Terminal) : State → State :=
  with_term (λ t,
    mkTerm (termInstances t) (termSockets t) (termFitAddons t) (termSessions t)
      (f (terminals t)) (sockets t) (xtermLoaded t) (fitAddonLoaded t)).

(** [launchTerminalInContainer] has no [await]: it runs to its end or throws.
    [wsCtor] is [Some message] when [new WebSocket(url)] throws [message]. *)
Definition launchTerminalInContainer (sessionId containerName : string)
    (terminalContainerId statusElementId : string) (wsCtor : option string)
    (s : State) : State * Launch :=
  if negb (xtermLoaded (term s)) then (s, Threw "xterm.js Terminal class not found")
  else if negb (fitAddonLoaded (term s)) then (s, Threw "FitAddon not found")
  else
    match getTerminalEl terminalContainerId (dom s) with
    | None => (s, Threw "Terminal container not found")
    | Some termContainer =>
        let statusEl := getStatusEl statusElementId (dom s) in
        let s1 := with_termSessions
                    (<[sessionId := mkTermInfo containerName terminalContainerId
                                               statusElementId false]>) s in
        let s2 := setStatus statusEl "Connecting..."
                    "console-status console-status-connecting" s1 in
        let terminal := length (terminals (term s2)) in
        let socket := length (sockets (term s2)) in
        let s3 := with_terminals (λ ts, ts ++ [mkTerminal [] false None]) s2 in
        let s4 := setTimeout (TFit terminal) 100%Z s3 in
        let s5 := with_termSessions
                    (alter (λ i, mkTermInfo (ti_containerName i) (ti_terminalContainerId i)
                                            (ti_statusElementId i) true) sessionId) s4 in
        match wsCtor with
        | Some message =>
            (setStatus statusEl "Error" "console-status console-status-error" s5,
             Threw message)
        | None =>
            let s6 := with_sockets
                        (λ ws, ws ++ [mkWs sessionId containerName terminal statusEl
                                           CONNECTING []]) s5 in
            let s7 := with_terminals
                        (alter (λ x, mkTerminal (term_writes x) (term_disposed x)
                                                (Some socket)) terminal) s6 in
            (with_term (λ t,
               mkTerm (<[sessionId := terminal]> (termInstances t))
                      (<[sessionId := socket]> (termSockets t))
                      (<[sessionId := terminal]> (termFitAddons t))
                      (termSessions t) (terminals t) (sockets t)
                      (xtermLoaded t) (fitAddonLoaded t)) s7,
             Resolved)
        end
    end.

Definition initTerminalSession_settle (sessionId : string) (r : State * Launch) : State :=
  match r with
  | (s, Threw message) => showStatus ("Terminal connection failed: " +:+ message) "error" s
  | (s, Awaiting) => s
  | (s, Resolved) =>
      assign_instance sessionId (InstTerm <$> TerminalManager.getTermInstance sessionId s) s
  end.

Definition initTerminalSession (sessionId n : string) (wsCtor : option string)
    (m : Markup) (s : State) : State :=
  match JsMap.get sessionId (sessions s) with
  | None => s
  | Some _ =>
      match consoleArea (dom s) with
      | None => s
      | Some _ =>
          let s1 := with_dom (append_container sessionId "terminal-content" n m) s in
          initTerminalSession_settle sessionId
            (launchTerminalInContainer sessionId n ("terminal-" +:+ sessionId)
                                       ("status-" +:+ sessionId) wsCtor s1)
      end
  end.

(** What the outside world decides during one [openConsole]: the clock and
    the random digits of the session id, whether the WebSocket constructor
    throws, and what the HTML parser makes of the container's markup when the
    name is not plain text. *)
Record World := mkWorld {
  now : N;                    (* Date.now() *)
  random36 : string;          (* Math.random().toString(36).substring(2, 11) *)
  wsCtor : option string;
  markup : Markup
}.

(** What the parse of the container's markup gives for the name [n].  The
    parse is a function of the name; for a name with [<] it is left to the
    world, so what is proved of [openConsole] holds whatever it gives. *)
Definition markup_of (w : World) (n : string) : Markup :=
  if plain n then intact else markup w.

Definition newSessionId (w : World) : string :=
  "console-" +:+ pretty (now w) +:+ "-" +:+ random36 w.

(** [openConsole(name, type, port = null, icon = null)].  The two [async]
    initialisers are called without [await]; what they do before their first
    suspension, and the microtask that follows a launch that has already
    settled, happen within this call. *)
Definition openConsole (w : World) (n ty : string) (port0 icon0 : JsVal) (s : State) : State :=
  let p := default_null port0 in
  let ic := default_null icon0 in
  let existingSessionId := findSessionByName n (sessions s) in
  if truthy_id existingSessionId then
    match existingSessionId with
    | Some e => switchToTab e s
    | None => s
    end
  else
    let sessionId := newSessionId w in
    let session := mkSession sessionId n ty p ic None in
    let s1 := with_sessions (JsMap.set sessionId session) s in
    let s2 := with_dom show_viewer s1 in
    let s3 := createTab sessionId n ty ic s2 in
    let s4 := switchToTab sessionId s3 in
    if decide (ty = "vnc") then initVncSession sessionId n p (markup_of w n) s4
    else if decide (ty = "terminal")
    then initTerminalSession sessionId n (wsCtor w) (markup_of w n) s4
    else s4.

(** *** Control actions *)

(** What [await window.API.apiCall(endpoint, 'POST')] yields: [apiCall]
    catches every failure itself and resolves to [null], or to the parsed JSON
    body, of which the dispatchers read the [status] member only. *)
Inductive ApiResult :=
  | ApiNull
  | ApiJson (status : JsVal).

(** [result && result.status === 'success'] *)
Definition reports_success (result : ApiResult) : bool :=
  match result with
  | ApiNull => false
  | ApiJson status => bool_decide (status = JStr "success")
  end.

(** [vncControl], up to its [await]. *)
Definition vncControl (sessionId action : string) (s : State) : State :=
  match JsMap.get sessionId (sessions s) with
  | None => s
  | Some session =>
      if negb (bool_decide (type session = "vnc")) then s
      else
        let endpoint := "/vm/" +:+ name session +:+ "/" +:+ action in
        suspend (KVncControl sessionId action) (apiCall endpoint "POST" s)
  end.

(** [vncControl], behind its [await]. *)
Definition vncControl_resume (sessionId action : string) (result : ApiResult)
    (s : State) : State :=
  if reports_success result then
    let s1 := showStatus ("VM " +:+ action +:+ " command sent") "success" s in
    if bool_decide (action = "stop") || bool_decide (action = "destroy")
    then setTimeout (TCloseTab sessionId) CONTROL_ACTION_DELAY s1
    else s1
  else s.

Definition terminalControl (sessionId action : string) (s : State) : State :=
  match JsMap.get sessionId (sessions s) with
  | None => s
  | Some session =>
      if negb (bool_decide (type session = "terminal")) then s
      else
        let endpoint := "/vm/" +:+ name session +:+ "/" +:+ action in
        suspend (KTerminalControl sessionId action) (apiCall endpoint "POST" s)
  end.

Definition terminalControl_resume (sessionId action : string) (result : ApiResult)
    (s : State) : State :=
  if reports_success result then
    let s1 := showStatus ("Container " +:+ action +:+ " command sent") "success" s in
    if bool_decide (action = "stop") || bool_decide (action = "destroy")
    then setTimeout (TCloseTab sessionId) CONTROL_ACTION_DELAY s1
    else s1
  else s.

(** ** The event loop *)

(** What settles an awaited promise. *)
Inductive Settled :=
  | RfbCtor (probe : Clipboard) (throws : option string)
      (* how the clipboard probe ends; then new RFB *)
  | ApiReturned (result : ApiResult).

(** One turn of the event loop: a call from the page (the exported functions
    of [window.ConsoleManager], a click on a tab), a continuation resumed, a
    timer fired, or an event of a transport object. *)
Inductive Event :=
  | EOpenConsole (w : World) (n ty : string) (port0 icon0 : JsVal)
  | ECloseTab (sessionId : string)
  | ETabClick (sessionId : string)
  | EVncControl (sessionId action : string)
  | ETerminalControl (sessionId action : string)
  | EResume (i : nat) (v : Settled)
  | ETimer (i : nat)
  | ERfbConnect (client : nat)
  | ERfbDisconnect (client : nat) (clean : bool)
  | ERfbSecurityFailure (client : nat) (status : string)
  | ESocketOpen (socket : nat)
  | ESocketMessage (socket : nat) (data : string)
  | ESocketError (socket : nat)
  | ESocketClose (socket : nat)
  | ETerminalData (terminal : nat) (data : string).

Definition resume (k : Cont) (v : Settled) (s : State) : State :=
  match k, v with
  | KLaunchVnc sessionId vmName vncPort canvasContainer statusEl, RfbCtor probe ctor =>
      initVncSession_settle sessionId
        (launchVncInContainer_resume sessionId vmName vncPort canvasContainer statusEl ctor
           (clipboard_probe probe s))
  | KVncControl sessionId action, ApiReturned result =>
      vncControl_resume sessionId action result s
  | KTerminalControl sessionId action, ApiReturned result =>
      terminalControl_resume sessionId action result s
  | _, _ => s
  end.

Definition settles (k : Cont) (v : Settled) : bool :=
  match k, v with
  | KLaunchVnc _ _ _ _ _, RfbCtor _ _ => true
  | KVncControl _ _, ApiReturned _ => true
  | KTerminalControl _ _, ApiReturned _ => true
  | _, _ => false
  end.

Definition fire (a : TimerAction) (s : State) : State :=
  match a with
  | TCloseTab sessionId => closeTab sessionId s
  | TFit _ => s
  end.

Definition step (e : Event) (s : State) : State :=
  match e with
  | EOpenConsole w n ty port0 icon0 => openConsole w n ty port0 icon0 s
  | ECloseTab sessionId => closeTab sessionId s
  | ETabClick sessionId => switchToTab sessionId s
  | EVncControl sessionId action => vncControl sessionId action s
  | ETerminalControl sessionId action => terminalControl sessionId action s
  | EResume i v =>
      match pending (env s) !! i with
      | Some k => if settles k v then resume k v (drop_pending i s) else s
      | None => s
      end
  | ETimer i =>
      match timers (env s) !! i with
      | Some (_, a) => fire a (drop_timer i s)
      | None => s
      end
  | ERfbConnect client =>
      match rfbs (vnc s) !! client with
      | Some c => onRfbConnect (rfb_vmName c) (rfb_statusEl c) s
      | None => s
      end
  | ERfbDisconnect client clean =>
      match rfbs (vnc s) !! client with
      | Some c => onRfbDisconnect (rfb_session c) (rfb_statusEl c) clean s
      | None => s
      end
  | ERfbSecurityFailure client status =>
      match rfbs (vnc s) !! client with
      | Some c => onRfbSecurityFailure (rfb_statusEl c) status s
      | None => s
      end
  | ESocketOpen socket =>
      match sockets (term s) !! socket with
      | Some w => onSocketOpen (ws_containerName w) (ws_terminal w) (ws_statusEl w)
                    (with_sockets (alter (set_readyState OPEN) socket) s)
      | None => s
      end
  | ESocketMessage socket data =>
      match sockets (term s) !! socket with
      | Some w => onSocketMessage (ws_terminal w) data s
      | None => s
      end
  | ESocketError socket =>
      match sockets (term s) !! socket with
      | Some w => onSocketError (ws_session w) (ws_terminal w) (ws_statusEl w) s
      | None => s
      end
  | ESocketClose socket =>
      match sockets (term s) !! socket with
      | Some w => onSocketClose (ws_session w) (ws_terminal w) (ws_statusEl w)
                    (with_sockets (alter (set_readyState CLOSED) socket) s)
      | None => s
      end
  | ETerminalData terminal data =>
      match terminals (term s) !! terminal with
      | Some t =>
          match term_socket t with
          | Some socket => onData socket data s
          | None => s
          end
      | None => s
      end
  end.

(** When the world may produce an event.  A fresh session id is drawn from
    the clock and the random generator, so it is not the id of a session in
    the registry; [switchToTab] is not exported, so a switch from outside is a
    click on a tab that is in the tab bar.  Everything else may happen at any
    time (an event for an object that does not exist changes nothing). *)
Definition has_tab (sessionId : string) (s : State) : Prop :=
  ∃ tabs, tabBar (dom s) = Some tabs ∧ sessionId ∈ tab_session <$> tabs.

Definition enabled (e : Event) (s : State) : Prop :=
  match e with
  | EOpenConsole w _ _ _ _ => JsMap.get (newSessionId w) (sessions s) = None
  | ETabClick sessionId => has_tab sessionId s
  | _ => True
  end.

(** The page as loaded: which of the three anchor elements exist, whether the
    viewer starts hidden, which libraries are loaded, and what [localStorage]
    holds. *)
Record Page := mkPage {
  page_viewer : option bool;
  page_tabBar : bool;
  page_consoleArea : bool;
  page_xterm : bool;
  page_fitAddon : bool;
  page_localStorage : gmap string string
}.

Definition initial (p : Page) : State :=
  mkState (mkCM [] None)
          (mkDom (page_viewer p)
                 (if page_tabBar p then Some [] else None)
                 (if page_consoleArea p then Some [] else None) 0)
          (mkVnc ∅ ∅ [])
          (mkTerm ∅ ∅ ∅ ∅ [] [] (page_xterm p) (page_fitAddon p))
          (mkEnv [] [] [] [] (page_localStorage p)).

Inductive reachable : State → Prop :=
  | reachable_initial p : reachable (initial p)
  | reachable_step e s : reachable s → enabled e s → reachable (step e s).

(** Running a list of events, oldest first. *)
Definition run (es : list Event) (s : State) : State :=
  foldl (λ st e, step e st) s es.

(** The usual page: all anchors present, the viewer hidden, libraries loaded. *)
Definition page0 : Page := mkPage (Some true) true true true true ∅.

(** ** The registry invariant *)

Definition names (m : list (string * Session)) : list string :=
  (λ kv, name kv.2) <$> m.

Definition tab_key (t : Tab) : string * string := (tab_session t, tab_name t).

(** The tabs in the tab bar, as pairs of session id and label. *)
Definition tab_keys (s : State) : list (string * string) :=
  tab_key <$> default [] (tabBar (dom s)).

Definition session_count (T : string) (s : State) : nat :=
  length (filter (λ kv, name kv.2 = T) (sessions s)).

Definition tab_count (T : string) (s : State) : nat :=
  length (filter (λ t, tab_name t = T) (default [] (tabBar (dom s)))).

(** A registry entry as the tab made for it shows it: session id and name. *)
Definition session_key (kv : string * Session) : string * string := (kv.1, name kv.2).

(** Whether the page has the tab bar [console-tabs]. *)
Definition has_bar (s : State) : bool := if tabBar (dom s) is Some _ then true else false.

(** On a page with a tab bar, the tabs are the sessions of the registry: one
    tab per session, in registry order, with the session's id and name. *)
Definition tabbed (s : State) : Prop :=
  has_bar s = true → tab_keys s = session_key <$> sessions s.

Record Inv (s : State) : Prop := mkInv {
  inv_keys : NoDup (JsMap.keys (sessions s));
  inv_truthy : ∀ k, k ∈ JsMap.keys (sessions s) → k ≠ "";
  inv_names : NoDup (names (sessions s));
  inv_tab_ids : NoDup (tab_keys s).*1;
  inv_tab_names : NoDup (tab_keys s).*2;
  inv_tab_session : ∀ sid nm, (sid, nm) ∈ tab_keys s →
      ∃ session, JsMap.get sid (sessions s) = Some session ∧ name session = nm;
  inv_active : match active s with
               | None => sessions s = []
               | Some a => a ∈ JsMap.keys (sessions s)
               end
}.

(** What the invariant reads of a state. *)
Definition core (s : State) : list (string * Session) * option string * list (string * string) :=
  (sessions s, active s, tab_keys s).

(** The state of [openConsole] once the new session is registered, its tab
    created and made foreground. *)
Definition registered (w : World) (n ty : string) (p ic : JsVal) (s : State) : State :=
  let sessionId := newSessionId w in
  switchToTab sessionId
    (createTab sessionId n ty ic
       (with_dom show_viewer
          (with_sessions (JsMap.set sessionId (mkSession sessionId n ty p ic None)) s))).

(** ** The two halves of [closeTab], and a well-formed registry *)

(** The kind-specific cleanup at the head of [closeTab]. *)
Definition closeTab_cleanup (session : Session) (sessionId : string) (s : State) : State :=
  if decide (type session = "vnc") then cleanupVncSession sessionId s
  else if decide (type session = "terminal") then cleanupTerminalSession sessionId s
  else s.

(** What [closeTab] does after the cleanup: it removes the tab, the container
    and the registry entry, then picks the foreground. *)
Definition closeTab_rest (sessionId : string) (s1 : State) : State :=
  let s2 := with_dom (map_tabs (remove_first (λ t, is_session sessionId (tab_session t)))) s1 in
  let s3 := with_dom (map_containers
              (remove_first (λ c, is_session sessionId (c_session c)))) s2 in
  let s4 := with_sessions (JsMap.delete sessionId) s3 in
  if decide (active s4 = Some sessionId) then
    if bool_decide (0 < JsMap.size (sessions s4)) then
      match JsMap.first_key (sessions s4) with
      | Some firstSessionId => switchToTab firstSessionId s4
      | None => s4
      end
    else with_active None (with_dom hide_viewer s4)
  else s4.

(** A [Map] holds each key once. *)
Definition wf_registry (s : State) : Prop := NoDup (JsMap.keys (sessions s)).

(** ** Inbound traffic of the text sessions *)

(** The bytes a terminal has been handed: its writes, concatenated. *)
Definition rendered (t : Terminal) : string := foldr String.append "" (term_writes t).

(** Messages arriving on sockets, as events, in arrival order. *)
Definition arrivals (evs : list (nat * string)) : list Event :=
  (λ e, ESocketMessage e.1 e.2) <$> evs.

(** Whether an arrival is on a socket whose handler writes to [terminal]. *)
Definition addressed_to (socks : list WebSocket) (terminal : nat) (e : nat * string) : Prop :=
  ws_terminal <$> socks !! e.1 = Some terminal.

Global Instance addressed_to_dec socks terminal e : Decision (addressed_to socks terminal e).
Proof. unfold addressed_to. apply _. Defined.

(** ** What a tab shows and what is scheduled *)

Definition error_class : string := "console-status console-status-error".

(** The status indicator of the session is in the error style. *)
Definition shows_error (sid : string) (s : State) : Prop :=
  ∃ text, status_of sid s = Some (text, error_class).

(** Some timer will call [closeTab(sid)]. *)
Definition close_scheduled (sid : string) (s : State) : Prop :=
  ∃ delay, (delay, TCloseTab sid) ∈ timers (env s).

(** ** Checking a trace, and some concrete runs *)

(** [enabled], as a test. *)
Definition enabledb (e : Event) (s : State) : bool :=
  match e with
  | EOpenConsole w _ _ _ _ => bool_decide (JsMap.get (newSessionId w) (sessions s) = None)
  | ETabClick sessionId =>
      match tabBar (dom s) with
      | Some tabs => bool_decide (sessionId ∈ tab_session <$> tabs)
      | None => false
      end
  | _ => true
  end.

(** Every event of the trace is enabled when its turn comes. *)
Fixpoint run_ok (es : list Event) (s : State) : bool :=
  match es with
  | [] => true
  | e :: r => enabledb e s && run_ok r (step e s)
  end.

Definition world1 : World := mkWorld 1700000000000 "k3j9x2a" None intact.
Definition world2 : World := mkWorld 1700000000500 "p0q8z1m" None intact.
Definition world3 : World := mkWorld 1700000000900 "c7d2e5f" None intact.

Definition sid1 : string := "console-1700000000000-k3j9x2a".
Definition sid2 : string := "console-1700000000500-p0q8z1m".

(** A graphical session for [vm1] on port 5901, connected. *)
Definition trace_vm1 : list Event :=
  [EOpenConsole world1 "vm1" "vnc" (JNum 5901) JNull;
   EResume 0 (RfbCtor NoClipboardApi None);
   ERfbConnect 0].

Definition state_vm1 : State := run trace_vm1 (initial page0).

(** Then a text session for [lxc1], its socket open. *)
Definition trace_vm1_lxc1 : list Event :=
  trace_vm1 ++ [EOpenConsole world2 "lxc1" "terminal" JUndefined JNull; ESocketOpen 0].

Definition state_vm1_lxc1 : State := run trace_vm1_lxc1 (initial page0).

(** A graphical session for [vm1] whose launch is still suspended. *)
Definition state_vm1_launching : State :=
  run [EOpenConsole world1 "vm1" "vnc" (JNum 5901) JNull] (initial page0).

(** ** Keystrokes *)

(** Keystrokes typed into a terminal, as events, in the order typed. *)
Definition typed (terminal : nat) (keys : list string) : list Event :=
  ETerminalData terminal <$> keys.

(** ** The status indicators in the console area *)

(** Session id and status (text, class) of each container, in document
    order. *)
Definition status_list (s : State) : list ((string * bool) * (string * string)) :=
  (λ c, ((c_session c, c_has_status c), (c_status_text c, c_status_class c)))
    <$> default [] (consoleArea (dom s)).

(** ** The banners of terminal.js *)

(** ['\r\n\x1b[1;31mConnection error\x1b[0m\r\n'], as [writeln] hands it to
    the renderer. *)
Definition error_banner : string :=
  (CRLF +:+ ESC +:+ "[1;31mConnection error" +:+ ESC +:+ "[0m" +:+ CRLF) +:+ CRLF.

(** ['\r\n\x1b[1;33mConnection closed\x1b[0m\r\n'], likewise. *)
Definition closed_banner : string :=
  (CRLF +:+ ESC +:+ "[1;33mConnection closed" +:+ ESC +:+ "[0m" +:+ CRLF) +:+ CRLF.

(** ** What the page shows *)

(** Session id and [active] class of each tab, in document order. *)
Definition tab_flags (s : State) : list (string * bool) :=
  (λ t, (tab_session t, tab_active t)) <$> default [] (tabBar (dom s)).

(** Session id and [hidden] class of each container, in document order. *)
Definition container_flags (s : State) : list (string * bool) :=
  (λ c, (c_session c, c_hidden c)) <$> default [] (consoleArea (dom s)).

(** The page agrees with the registry: one container per session at most,
    none without a session, and the [active] and [hidden] classes follow
    [activeSessionId]. *)
Record View (s : State) : Prop := mkView {
  view_container_ids : NoDup (container_flags s).*1;
  view_container_reg : ∀ sid, sid ∈ (container_flags s).*1 → sid ∈ JsMap.keys (sessions s);
  view_tabs : ∀ sid a, (sid, a) ∈ tab_flags s → a = bool_decide (active s = Some sid);
  view_containers : ∀ sid h, (sid, h) ∈ container_flags s →
      h = negb (bool_decide (active s = Some sid))
}.

(** What [View] reads of a state. *)
Definition vcore (s : State)
    : list string * option string * list (string * bool) * list (string * bool) :=
  (JsMap.keys (sessions s), active s, tab_flags s, container_flags s).

(** ** Who owns which transport object *)

(** Of every RFB client: the session id its listeners hold, and whether
    [disconnect()] has been called on it. *)
Definition rfb_view (s : State) : list (string * bool) :=
  (λ c, (rfb_session c, rfb_disconnected c)) <$> rfbs (vnc s).

(** Of every socket: the session id and the terminal its handlers hold. *)
Definition socket_view (s : State) : list (string * nat) :=
  (λ w, (ws_session w, ws_terminal w)) <$> sockets (term s).

(** Of every terminal: whether it is disposed, and the socket its [onData]
    listener holds. *)
Definition terminal_view (s : State) : list (bool * option nat) :=
  (λ t, (term_disposed t, term_socket t)) <$> terminals (term s).

(** Every handle in [rfbClients], [termSockets] and [termInstances] is the
    object that was made for the session it is registered under, and that
    object has not been released. *)
Record Owned (s : State) : Prop := mkOwned {
  own_rfb : ∀ sid h, rfbClients (vnc s) !! sid = Some h →
      rfb_view s !! h = Some (sid, false);
  own_socket : ∀ sid h, termSockets (term s) !! sid = Some h →
      ∃ th, socket_view s !! h = Some (sid, th);
  own_terminal : ∀ sid h, termInstances (term s) !! sid = Some h →
      ∃ sh, terminal_view s !! h = Some (false, Some sh) ∧
            termSockets (term s) !! sid = Some sh ∧
            socket_view s !! sh = Some (sid, h)
}.

(** What [Owned] reads of a state. *)
Definition ocore (s : State)
    : gmap string nat * list (string * bool) * gmap string nat * gmap string nat
      * list (string * nat) * list (bool * option nat) :=
  (rfbClients (vnc s), rfb_view s, termSockets (term s), termInstances (term s),
   socket_view s, terminal_view s).

(** ** More concrete pages and runs *)

(** A page on which xterm.js was not loaded. *)
Definition page_no_xterm : Page := mkPage (Some true) true true false true ∅.

(** A page without the viewer, the tab bar and the console area. *)
Definition page_bare : Page := mkPage None false false true true ∅.

(** The graphical session for [vm1] closed while its launch is suspended. *)
Definition state_vm1_closed_early : State :=
  run [EOpenConsole world1 "vm1" "vnc" (JNum 5901) JNull; ECloseTab sid1] (initial page0).

(** The text session of [state_vm1_lxc1], its terminal and its socket. *)
Definition session_lxc1 : Session :=
  mkSession sid2 "lxc1" "terminal" JNull JNull (Some (InstTerm 0)).

Definition terminal_lxc1 : Terminal :=
  mkTerminal ["Connected to lxc1" +:+ CRLF; CRLF] false (Some 0).

Definition socket_lxc1 : WebSocket := mkWs sid2 "lxc1" 0 (Some 1) OPEN [].

(** ** api.js: what is behind [window.API.apiCall] *)

Module API.

(** [window.CONFIG.API_BASE] (config.js) *)
Definition API_BASE : string := "/api".

(** [s.includes(needle)] *)
Fixpoint includes (needle s : string) : bool :=
  String.prefix needle s ||
  match s with
  | EmptyString => false
  | String _ r => includes needle r
  end.

(** The [options] handed to [fetch], with the URL. *)
Record Request := mkRequest {
  req_url : string;
  req_method : string;
  req_headers : list (string * string);
  req_body : option string
}.

(** What [JSON.stringify(data)] does with a truthy [data]: it throws, or it
    returns a string, or [undefined]. *)
Inductive Stringify :=
  | StringifyThrows (message : string)
  | StringifyGives (text : option string).

(** [apiCall], up to its [fetch]: the request built, or the message of what
    was thrown on the way.  [authToken] is what [window.AUTH.getAuthToken()]
    returns, [null] or a string; [data] is [None] for a falsy argument. *)
Definition request (authToken : option string) (endpoint method : string)
    (data : option Stringify) : string + Request :=
  let headers :=
    ("Content-Type", "application/json") ::
    (if truthy_id authToken && negb (bool_decide (endpoint = "/auth/login"))
     then [("Authorization", "Bearer " +:+ default "" authToken)]
     else []) in
  match data with
  | None => inr (mkRequest (API_BASE +:+ endpoint) method headers None)
  | Some (StringifyThrows message) => inl message
  | Some (StringifyGives text) => inr (mkRequest (API_BASE +:+ endpoint) method headers text)
  end.

(** What [apiCall] reads of a parsed body.  [JSON.parse] can give [null], and
    reading a member of [null] throws a [TypeError] with the engine's
    [typeError] message; of any other value [apiCall] reads [message]
    ([Some text] when it is truthy, [text] being its string conversion) and
    the caller reads [status]. *)
Inductive Parsed :=
  | PNull (typeError : string)
  | PValue (message : option string) (status : JsVal).

(** [await response.text()] and [JSON.parse(text)]. *)
Inductive Body :=
  | BodyRejects                (* [response.text()] rejects *)
  | BodyEmpty                  (* the text is empty *)
  | BodyInvalid                (* [JSON.parse] throws *)
  | BodyParsed (p : Parsed).

Record Response := mkResponse {
  r_status : N;
  r_ok : bool;
  r_body : Body
}.

Inductive Fetch :=
  | FetchRejects (message : string)
  | FetchResponds (r : Response).

(** What a call leaves behind: the page, whether
    [window.AUTH.showLoginModal()] was called, and the value the promise
    resolves to. *)
Record Reply := mkReply {
  reply_state : State;
  reply_login : bool;
  reply_result : ApiResult
}.

(** [{}] *)
Definition empty_object : Parsed := PValue None JUndefined.

(** The value returned, as the dispatchers of console-manager.js read it. *)
Definition to_result (p : Parsed) : ApiResult :=
  match p with
  | PNull _ => ApiNull
  | PValue _ status => ApiJson status
  end.

(** [response.status !== 404 || !endpoint.includes('download-progress')] *)
Definition reported (endpoint : string) (r : Response) : bool :=
  negb (N.eqb (r_status r) 404) || negb (includes "download-progress" endpoint).

(** The outer [catch]. *)
Definition caught (message : string) (s : State) : Reply :=
  mkReply (showStatus ("Network Error: Could not reach the API server. (" +:+ message +:+ ")")
                      "error" s)
          false ApiNull.

(** [apiCall] from [if (!response.ok)] on, [result] being parsed. *)
Definition finish (endpoint : string) (r : Response) (result : Parsed) (s : State) : Reply :=
  if negb (r_ok r) then
    if reported endpoint r then
      match result with
      | PNull typeError => caught typeError s
      | PValue message _ =>
          mkReply (showStatus ("API Error: " +:+ default "An unknown error occurred" message)
                              "error" s)
                  false ApiNull
      end
    else mkReply s false ApiNull
  else mkReply s false (to_result result).

(** [apiCall], behind its [fetch]. *)
Definition settle (endpoint : string) (f : Fetch) (s : State) : Reply :=
  match f with
  | FetchRejects message => caught message s
  | FetchResponds r =>
      if N.eqb (r_status r) 401 then mkReply s true ApiNull
      else
        match r_body r with
        | BodyRejects | BodyInvalid =>
            if negb (r_ok r) then
              mkReply (if reported endpoint r
                       then showStatus ("API Error: Server returned non-JSON response ("
                                        +:+ pretty (r_status r) +:+ ")") "error" s
                       else s)
                      false ApiNull
            else finish endpoint r empty_object s
        | BodyEmpty => finish endpoint r empty_object s
        | BodyParsed p => finish endpoint r p s
        end
  end.

(** [apiCall(endpoint, method, data)]: what is fetched, if anything is, and
    what the call leaves behind once [fetch] has settled with [f]. *)
Definition apiCall (authToken : option string) (endpoint method : string)
    (data : option Stringify) (f : Fetch) (s : State) : option Request * Reply :=
  match request authToken endpoint method data with
  | inl message => (None, caught message s)
  | inr q => (Some q, settle endpoint f s)
  end.

End API.

(** [apiCall] settles with [f] while a dispatcher waits for it as the [i]-th
    continuation, which is then resumed with what [apiCall] returned. *)
Definition answered (i : nat) (endpoint : string) (f : API.Fetch) (s : State) : State :=
  let r := API.settle endpoint f s in
  step (EResume i (ApiReturned (API.reply_result r))) (API.reply_state r).

(** The endpoint of a control action on the machine [n]. *)
Definition control_endpoint (n action : string) : string := "/vm/" +:+ n +:+ "/" +:+ action.

(** What [apiCall] can leave behind: the page as it was, or with one more
    toast, of the error kind. *)
Definition at_most_error_toast (s s' : State) : Prop :=
  s' = s ∨ ∃ message, s' = showStatus message "error" s.

(** ** vnc-viewer.js: repeated probes, and the wait for noVNC *)

(** Probes one after the other, as successive launches make them. *)
Definition probes (cs : list Clipboard) (b : Browser) : Browser :=
  foldl (λ b c, (requestClipboardPermissions c b).1) b cs.

Definition VNC_LOAD_MAX_ATTEMPTS : nat := 50.
Definition VNC_LOAD_RETRY_DELAY_MS : Z := 100.

(** The loop of [checkNoVNCLoaded]: [rfb k] is whether [window.RFB] is set
    when the condition is tested after [k] waits; [remaining] is
    [VNC_LOAD_MAX_ATTEMPTS - attempts].  It gives the number of waits made and
    whether [window.RFB] is set at the end (if not, the failure is logged). *)
Fixpoint poll (rfb : nat → bool) (remaining attempts : nat) : nat * bool :=
  if rfb attempts then (attempts, true)
  else
    match remaining with
    | 0 => (attempts, false)
    | S remaining' => poll rfb remaining' (S attempts)
    end.

Definition checkNoVNCLoaded (rfb : nat → bool) : nat * bool :=
  poll rfb VNC_LOAD_MAX_ATTEMPTS 0.

(** The time spent waiting, in milliseconds. *)
Definition waited (attempts : nat) : Z := (Z.of_nat attempts * VNC_LOAD_RETRY_DELAY_MS)%Z.

(** ** vm-manager.js: the Take Over button *)

(** What the button's handler reads of the machine it was rendered for. *)
Record Vm := mkVm {
  vm_name : string;
  vm_type : JsVal;
  vm_vnc_port : JsVal;
  vm_icon : JsVal
}.

(** The click handler of [Take Over], [window.ConsoleManager] being loaded. *)
Definition takeOver (w : World) (vm : Vm) : State → State :=
  if decide (vm_type vm = JStr "lxc")
  then openConsole w (vm_name vm) "terminal" JNull (vm_icon vm)
  else openConsole w (vm_name vm) "vnc" (vm_vnc_port vm) (vm_icon vm).

(** ** console-manager.js: the registry's [instance] and the Paste button *)

(** A session's [instance], when set, is the object its transport module
    holds for the session id. *)
Definition linked (s : State) : Prop :=
  ∀ sid session, JsMap.get sid (sessions s) = Some session →
    match instance session with
    | Some (InstRfb h) => rfbClients (vnc s) !! sid = Some h
    | Some (InstTerm h) =>
        type session = "terminal" ∧ termInstances (term s) !! sid = Some h
    | None => True
    end.

Definition lcore (s : State) :
    list (string * Session) * gmap string nat * gmap string nat :=
  (sessions s, rfbClients (vnc s), termInstances (term s)).

(** [handleVncPaste], up to [await navigator.clipboard.readText()]: [None]
    when the guard returns, else the [instance] of the session object the
    continuation holds.  (An [instance] is assigned once, and is falsy until
    then: what the continuation reads of it is what the guard saw.) *)
Definition handleVncPaste (sessionId : string) (s : State) : option Instance :=
  match JsMap.get sessionId (sessions s) with
  | None => None
  | Some session =>
      if negb (bool_decide (type session = "vnc")) then None else instance session
  end.

(** The page together with the calls of [clipboardPasteFrom(text)] made on RFB
    clients, oldest first. *)
Record Pasting := mkPasting {
  pa_page : State;
  pa_pasted : list (nat * string)
}.

Definition paste_failed (b : Pasting) : Pasting :=
  mkPasting (showStatus "Failed to read clipboard. Please grant permission." "error" (pa_page b))
            (pa_pasted b).

(** [handleVncPaste] from [readText()] on.  Without [navigator.clipboard] the
    call throws, and a terminal has no [clipboardPasteFrom]: both end in the
    [catch]. *)
Definition handleVncPaste_resume (inst : Instance) (c : Clipboard) (b : Pasting) : Pasting :=
  match c with
  | ReadResolves text =>
      if String.eqb text "" then b
      else
        match inst with
        | InstRfb client =>
            mkPasting (showStatus "Text pasted to VNC" "success" (pa_page b))
                      (pa_pasted b ++ [(client, text)])
        | InstTerm _ => paste_failed b
        end
  | ReadRejects | NoClipboardApi => paste_failed b
  end.

(** What happens between the guard of [handleVncPaste] and its continuation
    can change the page, but not which object the continuation holds: every
    RFB client of [s] is still a client of [s'], with listeners holding the
    same session id, and a client on which [disconnect()] was called stays
    so. *)
Definition clients_kept (s s' : State) : Prop :=
  ∀ h sid d, rfb_view s !! h = Some (sid, d) →
    ∃ d', rfb_view s' !! h = Some (sid, d') ∧ (d = true → d' = true).

(** ** Concrete inputs for the calls behind the buttons *)

(** [openConsole('lxc<!--', 'terminal')]: the comment opened in the title
    runs to the [-->] inside the terminal's own div, taking the status span
    and that div's start tag with it. *)
Definition world_comment : World :=
  mkWorld 1700000000500 "p0q8z1m" None (mkMarkup false false).


(** The graphical session of [state_vm1] with its Stop button pressed. *)
Definition state_vm1_stopping : State := step (EVncControl sid1 "stop") state_vm1.

Definition session_vm1 : Session :=
  mkSession sid1 "vm1" "vnc" (JNum 5901) JNull (Some (InstRfb 0)).

(** The server refuses, with a message. *)
Definition response_refused : API.Response :=
  API.mkResponse 500 false (API.BodyParsed (API.PValue (Some "domain is not running") JUndefined)).

(** The server accepts. *)
Definition response_accepted : API.Response :=
  API.mkResponse 200 true (API.BodyParsed (API.PValue None (JStr "success"))).

(** No progress file: a 404 without a JSON body. *)
Definition response_no_progress : API.Response := API.mkResponse 404 false API.BodyInvalid.

(** noVNC arrives between the third and the fourth test. *)
Definition rfb_after_three (k : nat) : bool := 3 <=? k.

Definition vm_lxc1 : Vm := mkVm "lxc1" (JStr "lxc") JUndefined JNull.

(** * Properties *)

(** ** The insertion-ordered map *)
Module JsMapFacts.
Import JsMap.
Section facts.
Context {V : Type}.
Implicit Types (m : list (string * V)) (k : string) (v : V).

Lemma get_Some_elem k v m : get k m = Some v → (k, v) ∈ m.
Proof.
  induction m as [|[k' v'] m IH]; simpl; [done|].
  destruct (decide (k = k')) as [->|Hne]; intros E.
  - simplify_eq. left.
  - right. auto.
Qed.

Lemma get_None_keys k m : get k m = None ↔ k ∉ keys m.
Proof.
  unfold keys. induction m as [|[k' v'] m IH]; simpl.
  - split; [intros _; apply not_elem_of_nil | done].
  - rewrite not_elem_of_cons.
    destruct (decide (k = k')) as [->|Hne].
    + split; [done | intros [? _]; done].
    + rewrite IH. split; [intros; split; done | intros [_ ?]; done].
Qed.

Lemma get_Some_keys k m : is_Some (get k m) ↔ k ∈ keys m.
Proof.
  destruct (get k m) eqn:E.
  - split; [intros _ | eauto].
    destruct (decide (k ∈ keys m)) as [|N]; [done|].
    apply get_None_keys in N. congruence.
  - split; [intros [? ?]; done|]. intros Hin. apply get_None_keys in E. done.
Qed.

Lemma set_fresh k v m : get k m = None → set k v m = m ++ [(k, v)].
Proof.
  induction m as [|[k' v'] m IH]; simpl; [done|].
  destruct (decide (k = k')) as [->|Hne]; [done|]. intros E. by rewrite IH.
Qed.

Lemma get_set k k' v m :
  get k' (set k v m) = if decide (k = k') then Some v else get k' m.
Proof.
  induction m as [|[k0 v0] m IH]; simpl.
  - destruct (decide (k' = k)), (decide (k = k')); congruence.
  - destruct (decide (k = k0)) as [->|N0]; simpl.
    + destruct (decide (k' = k0)) as [->|N1]; [by rewrite decide_True|].
      by rewrite decide_False.
    + destruct (decide (k' = k0)) as [->|N1]; [by rewrite decide_False|].
      apply IH.
Qed.

Lemma keys_set_present k v m : is_Some (get k m) → keys (set k v m) = keys m.
Proof.
  unfold keys. induction m as [|[k0 v0] m IH]; simpl.
  - by intros [? ?].
  - destruct (decide (k = k0)) as [->|N0]; simpl; [done|].
    intros E. f_equal. by apply IH.
Qed.

Lemma get_delete_ne k k' m : k ≠ k' → get k' (delete k m) = get k' m.
Proof.
  intros Hne. induction m as [|[k0 v0] m IH]; simpl; [done|].
  destruct (decide (k = k0)) as [->|N0]; simpl.
  - by rewrite decide_False.
  - by rewrite IH.
Qed.

Lemma delete_sublist k m : delete k m `sublist_of` m.
Proof.
  induction m as [|[k0 v0] m IH]; simpl; [done|].
  destruct (decide (k = k0)); [by apply sublist_cons | by apply sublist_skip].
Qed.

Lemma delete_absent k m : get k m = None → delete k m = m.
Proof.
  induction m as [|[k0 v0] m IH]; simpl; [done|].
  destruct (decide (k = k0)); [done|]. intros E. by rewrite IH.
Qed.

Lemma keys_delete_sublist k m : keys (delete k m) `sublist_of` keys m.
Proof. unfold keys. apply fmap_sublist, delete_sublist. Qed.

Lemma get_delete_eq k m : NoDup (keys m) → get k (delete k m) = None.
Proof.
  unfold keys. induction m as [|[k0 v0] m IH]; simpl; [done|].
  rewrite NoDup_cons. intros [Hk0 Hm].
  destruct (decide (k = k0)) as [->|N0]; simpl.
  - by apply get_None_keys.
  - rewrite decide_False; auto.
Qed.

Lemma keys_delete k k' m : k' ∈ keys m → k ≠ k' → k' ∈ keys (delete k m).
Proof.
  intros Hin Hne. apply get_Some_keys. rewrite get_delete_ne; [|done].
  by apply get_Some_keys.
Qed.

Lemma first_key_elem k m : first_key m = Some k → k ∈ keys m.
Proof.
  unfold first_key. destruct (keys m) as [|k0 ks]; simpl; [done|].
  intros; simplify_eq. left.
Qed.

Lemma first_key_is_Some m : 0 < size m → is_Some (first_key m).
Proof. destruct m as [|[k0 v0] m]; unfold size; simpl; [lia | eauto]. Qed.

Lemma size_0_nil m : ¬ 0 < size m → m = [].
Proof. destruct m; unfold size; simpl; [done | lia]. Qed.
End facts.
End JsMapFacts.

(** ** Lists: removing the first match, counting *)
Section list_facts.
Context {A : Type}.
Implicit Types (p : A → bool) (l : list A).

Lemma remove_first_sublist p l : remove_first p l `sublist_of` l.
Proof.
  induction l as [|x l IH]; simpl; [done|].
  destruct (p x); [by apply sublist_cons | by apply sublist_skip].
Qed.

Lemma remove_first_fmap {B} (f : A → B) (q : B → bool) l :
  f <$> remove_first (λ x, q (f x)) l = remove_first q (f <$> l).
Proof.
  induction l as [|x l IH]; simpl; [done|].
  destruct (q (f x)); simpl; [done | by f_equal].
Qed.

Lemma remove_first_none p l : (∀ x, x ∈ l → p x = false) → remove_first p l = l.
Proof.
  induction l as [|x l IH]; simpl; [done|]. intros Hall.
  rewrite (Hall x) by left. f_equal. apply IH. intros y Hy. apply Hall. by right.
Qed.

Lemma find_first_Some p l x : find_first p l = Some x → x ∈ l ∧ p x = true.
Proof.
  induction l as [|y l IH]; simpl; [done|].
  destruct (p y) eqn:E; intros Hf.
  - simplify_eq. split; [left | done].
  - destruct (IH Hf). split; [by right | done].
Qed.

Lemma find_first_None p l : find_first p l = None → ∀ x, x ∈ l → p x = false.
Proof.
  induction l as [|y l IH]; simpl; intros Hf x Hx.
  - by apply elem_of_nil in Hx.
  - destruct (p y) eqn:E; [done|].
    apply elem_of_cons in Hx as [->|Hx]; auto.
Qed.
End list_facts.

(** In a list without duplicates, at most one element equals a given one. *)
Lemma NoDup_count_le_1 (T : string) (l : list string) :
  NoDup l → length (filter (λ x, x = T) l) ≤ 1.
Proof.
  induction 1 as [|x l Hx Hl IH]; simpl; [lia|].
  rewrite filter_cons. case_decide as E; simpl; [|done].
  subst x. assert (filter (λ x, x = T) l = []) as ->; [|simpl; lia].
  apply elem_of_nil_inv. intros y Hy%list_elem_of_filter. destruct Hy as [-> ?]. done.
Qed.

Lemma count_fmap {A} (f : A → string) (T : string) (l : list A) :
  length (filter (λ x, f x = T) l) = length (filter (λ y, y = T) (f <$> l)).
Proof.
  induction l as [|x l IH]; simpl; [done|].
  rewrite !filter_cons. simpl. case_decide; simpl; by rewrite IH.
Qed.

(** When the first element of a duplicate-free key list is removed by key,
    no remaining element carries that key. *)
Lemma remove_first_key_gone {B} (k : string) (l : list (string * B)) :
  NoDup l.*1 → k ∉ (remove_first (λ p, is_session k p.1) l).*1.
Proof.
  induction l as [|[k0 b0] l IH]; simpl; [intros _; apply not_elem_of_nil|].
  rewrite NoDup_cons. intros [Hk0 Hl]. unfold is_session at 1. simpl.
  case_bool_decide as E; simplify_eq; [done|].
  simpl. rewrite not_elem_of_cons. split; [congruence | auto].
Qed.

(** ** The registry invariant holds *)

Lemma Inv_core s s' : core s' = core s → Inv s → Inv s'.
Proof.
  unfold core. intros E [H1 H2 H3 H4 H5 H6 H7].
  injection E as E1 E2 E3.
  split; rewrite ?E1, ?E2, ?E3; assumption.
Qed.

Lemma findSessionByName_None n m : findSessionByName n m = None ↔ n ∉ names m.
Proof.
  unfold names. induction m as [|[k sess] m IH]; simpl.
  - split; [intros _; apply not_elem_of_nil | done].
  - rewrite not_elem_of_cons. destruct (decide (name sess = n)) as [E|N].
    + split; [done | intros [Hn _]; by destruct Hn].
    + rewrite IH. split; [intros Hn; split; [by intros -> | done] | intros [_ ?]; done].
Qed.

Lemma findSessionByName_Some n m k :
  findSessionByName n m = Some k →
  ∃ session, (k, session) ∈ m ∧ name session = n.
Proof.
  induction m as [|[k0 sess] m IH]; simpl; [done|].
  destruct (decide (name sess = n)) as [E|N]; intros Hf.
  - simplify_eq. exists sess. split; [left | done].
  - destruct (IH Hf) as (x & Hx & Hn). exists x. split; [by right | done].
Qed.

Lemma elem_keys (k : string) (session : Session) m : (k, session) ∈ m → k ∈ JsMap.keys m.
Proof. intros H. unfold JsMap.keys. apply list_elem_of_fmap. by exists (k, session). Qed.

(** On a registry whose ids are truthy, the test [if (existingSessionId)] is
    the test whether a session of that name exists. *)
Lemma truthy_find s n :
  Inv s → truthy_id (findSessionByName n (sessions s)) = false →
  findSessionByName n (sessions s) = None.
Proof.
  intros HI. destruct (findSessionByName n (sessions s)) as [k|] eqn:E; [|done].
  destruct (findSessionByName_Some _ _ _ E) as (x & Hx & _).
  apply elem_keys, (inv_truthy _ HI) in Hx. simpl.
  destruct (String.eqb_spec k ""); [done | discriminate].
Qed.

(** *** What each operation does to the registry, the foreground and the tabs *)

Lemma core_with_env f s : core (with_env f s) = core s.
Proof. reflexivity. Qed.
Lemma core_with_vnc f s : core (with_vnc f s) = core s.
Proof. reflexivity. Qed.
Lemma core_with_term f s : core (with_term f s) = core s.
Proof. reflexivity. Qed.
Lemma core_map_containers f s : core (with_dom (map_containers f) s) = core s.
Proof. reflexivity. Qed.
Lemma core_set_viewer v s : core (with_dom (set_viewer v) s) = core s.
Proof. reflexivity. Qed.
Lemma core_append_container sid kind n m s :
  core (with_dom (append_container sid kind n m) s) = core s.
Proof. reflexivity. Qed.

Lemma core_setStatus el text cls s : core (setStatus el text cls s) = core s.
Proof. destruct el; reflexivity. Qed.

Lemma core_cleanupVncSession sid s : core (cleanupVncSession sid s) = core s.
Proof. reflexivity. Qed.

Lemma core_cleanupTerminalSession sid s : core (cleanupTerminalSession sid s) = core s.
Proof. reflexivity. Qed.

Lemma tab_key_activate sid (tabs : list Tab) :
  tab_key <$> (activate_tab sid <$> tabs) = tab_key <$> tabs.
Proof. rewrite <- list_fmap_compose. by apply list_fmap_ext. Qed.

Lemma core_switchToTab sid s : core (switchToTab sid s) = (sessions s, Some sid, tab_keys s).
Proof.
  unfold core, switchToTab, tab_keys. simpl. f_equal.
  destruct (tabBar (dom s)) as [tabs|]; simpl; [apply tab_key_activate | done].
Qed.

Lemma core_createTab sid n ty ic s :
  core (createTab sid n ty ic s) =
  (sessions s, active s,
   if tabBar (dom s) is Some _ then tab_keys s ++ [(sid, n)] else tab_keys s).
Proof.
  unfold core, createTab, tab_keys. simpl. f_equal.
  destruct (tabBar (dom s)) as [tabs|]; simpl; [|done].
  by rewrite fmap_app.
Qed.

Lemma core_closeTab sid session s :
  JsMap.get sid (sessions s) = Some session →
  core (closeTab sid s) =
  (JsMap.delete sid (sessions s),
   (if decide (active s = Some sid)
    then JsMap.first_key (JsMap.delete sid (sessions s)) else active s),
   remove_first (λ p, is_session sid p.1) (tab_keys s)).
Proof.
  intros Hget. unfold closeTab. rewrite Hget.
  assert (∀ s1, core s1 = core s →
    core
      (let s2 := with_dom (map_tabs (remove_first (λ t, is_session sid (tab_session t)))) s1 in
       let s3 := with_dom (map_containers
                   (remove_first (λ c, is_session sid (c_session c)))) s2 in
       let s4 := with_sessions (JsMap.delete sid) s3 in
       if decide (active s4 = Some sid) then
         if bool_decide (0 < JsMap.size (sessions s4)) then
           match JsMap.first_key (sessions s4) with
           | Some firstSessionId => switchToTab firstSessionId s4
           | None => s4
           end
         else with_active None (with_dom hide_viewer s4)
       else s4) =
    (JsMap.delete sid (sessions s),
     (if decide (active s = Some sid)
      then JsMap.first_key (JsMap.delete sid (sessions s)) else active s),
     remove_first (λ p, is_session sid p.1) (tab_keys s))) as Hmain.
  { intros s1 E. unfold core in E. injection E as E1 E2 E3. cbv zeta.
    set (s4 := with_sessions _ _).
    assert (sessions s4 = JsMap.delete sid (sessions s)) as F1
      by (rewrite <- E1; reflexivity).
    assert (active s4 = active s) as F2 by (rewrite <- E2; reflexivity).
    assert (tab_keys s4 = remove_first (λ p, is_session sid p.1) (tab_keys s)) as F3.
    { rewrite <- E3. unfold s4, tab_keys. simpl.
      destruct (tabBar (dom s1)) as [tabs|]; simpl; [|done].
      apply (remove_first_fmap tab_key (λ p, is_session sid p.1)). }
    clearbody s4. rewrite F1, F2.
    destruct (decide (active s = Some sid)) as [Ea|Na].
    - case_bool_decide as Hsz.
      + destruct (JsMapFacts.first_key_is_Some _ Hsz) as [k Hk]. rewrite Hk.
        rewrite core_switchToTab. by rewrite F1, F3.
      + apply JsMapFacts.size_0_nil in Hsz.
        transitivity (sessions s4, @None string, tab_keys s4); [reflexivity|].
        rewrite F1, F3, Hsz. reflexivity.
    - unfold core. by rewrite F1, F2, F3. }
  destruct (decide (type session = "vnc"));
    [|destruct (decide (type session = "terminal"))]; apply Hmain; reflexivity.
Qed.

Lemma names_set_instance sid session i m :
  JsMap.get sid m = Some session →
  names (JsMap.set sid (set_instance i session) m) = names m.
Proof.
  unfold names. induction m as [|[k0 x0] m IH]; simpl; [done|].
  destruct (decide (sid = k0)) as [->|N]; simpl.
  - intros; simplify_eq. done.
  - intros E. f_equal. by apply IH.
Qed.

(** *** The operations keep the invariant *)

Lemma core_proj s m a tk :
  core s = (m, a, tk) → sessions s = m ∧ active s = a ∧ tab_keys s = tk.
Proof. unfold core. intros E. by injection E. Qed.

Lemma names_elem k (session : Session) m : (k, session) ∈ m → name session ∈ names m.
Proof. intros H. unfold names. apply list_elem_of_fmap. by exists (k, session). Qed.

Lemma first_key_None {V} (m : list (string * V)) : JsMap.first_key m = None → m = [].
Proof. by destruct m as [|[??] ?]. Qed.

Lemma Inv_switchToTab sid s :
  Inv s → sid ∈ JsMap.keys (sessions s) → Inv (switchToTab sid s).
Proof.
  intros [H1 H2 H3 H4 H5 H6 H7] Hin.
  destruct (core_proj _ _ _ _ (core_switchToTab sid s)) as (E1 & E2 & E3).
  split; rewrite ?E1, ?E2, ?E3; assumption.
Qed.

Lemma Inv_closeTab sid s : Inv s → Inv (closeTab sid s).
Proof.
  intros HI. destruct (JsMap.get sid (sessions s)) as [session|] eqn:Hget;
    [|by unfold closeTab; rewrite Hget].
  destruct (core_proj _ _ _ _ (core_closeTab sid session s Hget)) as (E1 & E2 & E3).
  destruct HI as [H1 H2 H3 H4 H5 H6 H7].
  split; rewrite ?E1, ?E2, ?E3.
  - eapply sublist_NoDup; [exact H1 | apply JsMapFacts.keys_delete_sublist].
  - intros k Hk. apply H2. eapply elem_of_sublist; [exact Hk|].
    apply JsMapFacts.keys_delete_sublist.
  - eapply sublist_NoDup; [exact H3|]. apply fmap_sublist, JsMapFacts.delete_sublist.
  - eapply sublist_NoDup; [exact H4|]. apply fmap_sublist, remove_first_sublist.
  - eapply sublist_NoDup; [exact H5|]. apply fmap_sublist, remove_first_sublist.
  - intros sid' nm Hin.
    assert (sid' ≠ sid) as Hne.
    { intros ->. apply (remove_first_key_gone sid (tab_keys s) H4).
      apply list_elem_of_fmap. by exists (sid, nm). }
    destruct (H6 sid' nm) as (x & Hx & Hn).
    { eapply elem_of_sublist; [exact Hin | apply remove_first_sublist]. }
    exists x. split; [|done]. rewrite JsMapFacts.get_delete_ne; [done | congruence].
  - destruct (decide (active s = Some sid)) as [Ea|Na].
    + destruct (JsMap.first_key (JsMap.delete sid (sessions s))) as [k|] eqn:Hk.
      * by apply JsMapFacts.first_key_elem.
      * by apply first_key_None.
    + destruct (active s) as [a|].
      * apply JsMapFacts.keys_delete; [done | congruence].
      * by rewrite H7.
Qed.

Lemma Inv_assign_instance sid i s : Inv s → Inv (assign_instance sid i s).
Proof.
  intros HI.
  assert (sessions (assign_instance sid i s)
          = match JsMap.get sid (sessions s) with
            | Some session => JsMap.set sid (set_instance i session) (sessions s)
            | None => sessions s
            end) as E1 by reflexivity.
  destruct (JsMap.get sid (sessions s)) as [session|] eqn:Hget.
  2:{ apply (Inv_core s); [|done]. unfold core. by rewrite E1. }
  destruct HI as [H1 H2 H3 H4 H5 H6 H7].
  assert (JsMap.keys (sessions (assign_instance sid i s)) = JsMap.keys (sessions s)) as Ek.
  { rewrite E1. apply JsMapFacts.keys_set_present. eauto. }
  split.
  - by rewrite Ek.
  - by rewrite Ek.
  - rewrite E1. by rewrite names_set_instance.
  - exact H4.
  - exact H5.
  - intros sid' nm Hin. destruct (H6 sid' nm Hin) as (x & Hx & Hn).
    rewrite E1, JsMapFacts.get_set.
    destruct (decide (sid = sid')) as [->|N]; [|eauto].
    exists (set_instance i session). split; [done|]. simpl. congruence.
  - change (active (assign_instance sid i s)) with (active s).
    destruct (active s) as [a|]; [by rewrite Ek|].
    rewrite H7 in Hget. done.
Qed.

Lemma newSessionId_truthy w : newSessionId w ≠ "".
Proof. unfold newSessionId. simpl. discriminate. Qed.

Lemma core_registered w n ty p ic s :
  core (registered w n ty p ic s) =
  (JsMap.set (newSessionId w) (mkSession (newSessionId w) n ty p ic None) (sessions s),
   Some (newSessionId w),
   if tabBar (dom s) is Some _ then tab_keys s ++ [(newSessionId w, n)] else tab_keys s).
Proof.
  unfold registered. rewrite core_switchToTab.
  set (s2 := with_dom show_viewer _).
  destruct (core_proj _ _ _ _ (core_createTab (newSessionId w) n ty ic s2)) as (E1 & E2 & E3).
  rewrite E1, E3. reflexivity.
Qed.

Lemma Inv_registered w n ty p ic s :
  Inv s →
  JsMap.get (newSessionId w) (sessions s) = None →
  findSessionByName n (sessions s) = None →
  Inv (registered w n ty p ic s).
Proof.
  intros [H1 H2 H3 H4 H5 H6 H7] Hfresh Hname.
  destruct (core_proj _ _ _ _ (core_registered w n ty p ic s)) as (E1 & E2 & E3).
  rewrite JsMapFacts.set_fresh in E1 by done.
  apply JsMapFacts.get_None_keys in Hfresh.
  apply findSessionByName_None in Hname.
  assert (∀ sid nm, (sid, nm) ∈ tab_keys s → sid ≠ newSessionId w ∧ nm ≠ n) as Hold.
  { intros sid nm Hin. destruct (H6 sid nm Hin) as (x & Hx & Hn). split.
    - intros ->. apply Hfresh. apply JsMapFacts.get_Some_keys. eauto.
    - intros ->. apply Hname. rewrite <- Hn.
      eapply names_elem, JsMapFacts.get_Some_elem, Hx. }
  assert (NoDup (tab_keys (registered w n ty p ic s)).*1
          ∧ NoDup (tab_keys (registered w n ty p ic s)).*2
          ∧ ∀ sid nm, (sid, nm) ∈ tab_keys (registered w n ty p ic s) →
              (sid, nm) ∈ tab_keys s ∨ (sid = newSessionId w ∧ nm = n)) as (T1 & T2 & T3).
  { rewrite E3. destruct (tabBar (dom s)); [|by eauto].
    rewrite !fmap_app. simpl. split_and!.
    - apply NoDup_app. split_and!; [done| |apply NoDup_singleton].
      intros x Hx Hx'. apply list_elem_of_singleton in Hx' as ->.
      apply list_elem_of_fmap in Hx as ([sid nm] & ? & Hin). simpl in *. subst.
      by destruct (Hold _ _ Hin).
    - apply NoDup_app. split_and!; [done| |apply NoDup_singleton].
      intros x Hx Hx'. apply list_elem_of_singleton in Hx' as ->.
      apply list_elem_of_fmap in Hx as ([sid nm] & ? & Hin). simpl in *. subst.
      by destruct (Hold _ _ Hin).
    - intros sid nm Hin. apply elem_of_app in Hin as [Hin|Hin]; [by left|].
      apply list_elem_of_singleton in Hin. simplify_eq. by right. }
  split; rewrite ?E1, ?E2; try assumption.
  - unfold JsMap.keys. rewrite fmap_app. apply NoDup_app. split_and!; [done| |apply NoDup_singleton].
    intros x Hx Hx'. apply list_elem_of_singleton in Hx' as ->. done.
  - unfold JsMap.keys. rewrite fmap_app. intros k Hk.
    apply elem_of_app in Hk as [Hk|Hk]; [by apply H2|].
    apply list_elem_of_singleton in Hk as ->. apply newSessionId_truthy.
  - unfold names. rewrite fmap_app. apply NoDup_app. split_and!; [done| |apply NoDup_singleton].
    intros x Hx Hx'. apply list_elem_of_singleton in Hx'. simpl in Hx'. by subst.
  - intros sid nm Hin. apply T3 in Hin as [Hin|[-> ->]].
    + destruct (H6 sid nm Hin) as (x & Hx & Hn). exists x. split; [|done].
      rewrite <- (JsMapFacts.set_fresh (newSessionId w)
                    (mkSession (newSessionId w) n ty p ic None))
        by (by apply JsMapFacts.get_None_keys).
      rewrite JsMapFacts.get_set. destruct (Hold _ _ Hin) as [Hne _].
      by rewrite decide_False by congruence.
    + exists (mkSession (newSessionId w) n ty p ic None). split; [|done].
      rewrite <- (JsMapFacts.set_fresh (newSessionId w)
                    (mkSession (newSessionId w) n ty p ic None))
        by (by apply JsMapFacts.get_None_keys).
      rewrite JsMapFacts.get_set. by rewrite decide_True.
  - unfold JsMap.keys. rewrite fmap_app. apply elem_of_app. right. simpl. left.
Qed.

Lemma core_launchVncInContainer sid vm p cid stid s :
  core (launchVncInContainer sid vm p cid stid s).1 = core s.
Proof.
  unfold launchVncInContainer. destruct (truthy p); simpl; [|done].
  destruct (getCanvasEl cid (dom s)); simpl; [|done].
  unfold suspend. rewrite core_with_env, core_setStatus. reflexivity.
Qed.

Lemma core_launchVncInContainer_resume sid vm p canvas el ctor s :
  core (launchVncInContainer_resume sid vm p canvas el ctor s).1 = core s.
Proof. destruct ctor; simpl; [apply core_setStatus | reflexivity]. Qed.

Lemma core_launchTerminalInContainer sid cn tid stid ctor s :
  core (launchTerminalInContainer sid cn tid stid ctor s).1 = core s.
Proof.
  unfold launchTerminalInContainer.
  destruct (xtermLoaded (term s)); simpl; [|done].
  destruct (fitAddonLoaded (term s)); simpl; [|done].
  destruct (getTerminalEl tid (dom s)); simpl; [|done].
  destruct ctor; simpl.
  - rewrite core_setStatus.
    unfold with_termSessions, setTimeout, with_terminals.
    rewrite !core_with_term, core_with_env, core_with_term, core_setStatus. reflexivity.
  - unfold with_terminals, with_sockets, with_termSessions, setTimeout.
    rewrite !core_with_term, core_with_env, core_with_term, core_setStatus. reflexivity.
Qed.

Lemma Inv_initVncSession_settle sid r : Inv r.1 → Inv (initVncSession_settle sid r).
Proof.
  destruct r as [s [msg| |]]; simpl; intros HI; [|done|].
  - eapply Inv_core; [|exact HI]. apply core_with_env.
  - by apply Inv_assign_instance.
Qed.

Lemma Inv_initTerminalSession_settle sid r :
  Inv r.1 → Inv (initTerminalSession_settle sid r).
Proof.
  destruct r as [s [msg| |]]; simpl; intros HI; [|done|].
  - eapply Inv_core; [|exact HI]. apply core_with_env.
  - by apply Inv_assign_instance.
Qed.

Lemma Inv_initVncSession sid n p m s : Inv s → Inv (initVncSession sid n p m s).
Proof.
  intros HI. unfold initVncSession.
  destruct (JsMap.get sid (sessions s)); [|done].
  destruct (consoleArea (dom s)); [|done].
  apply Inv_initVncSession_settle. eapply Inv_core; [|exact HI].
  rewrite core_launchVncInContainer. apply core_append_container.
Qed.

Lemma Inv_initTerminalSession sid n ctor m s : Inv s → Inv (initTerminalSession sid n ctor m s).
Proof.
  intros HI. unfold initTerminalSession.
  destruct (JsMap.get sid (sessions s)); [|done].
  destruct (consoleArea (dom s)); [|done].
  apply Inv_initTerminalSession_settle. eapply Inv_core; [|exact HI].
  rewrite core_launchTerminalInContainer. apply core_append_container.
Qed.

(** [openConsole] on a target that has no session. *)
Lemma openConsole_new w n ty p ic s :
  truthy_id (findSessionByName n (sessions s)) = false →
  openConsole w n ty p ic s =
  let s4 := registered w n ty (default_null p) (default_null ic) s in
  if decide (ty = "vnc")
  then initVncSession (newSessionId w) n (default_null p) (markup_of w n) s4
  else if decide (ty = "terminal")
  then initTerminalSession (newSessionId w) n (wsCtor w) (markup_of w n) s4
  else s4.
Proof. intros E. unfold openConsole. rewrite E. reflexivity. Qed.

(** [openConsole] on a target that has a session. *)
Lemma openConsole_existing w n ty p ic s e :
  findSessionByName n (sessions s) = Some e → e ≠ "" →
  openConsole w n ty p ic s = switchToTab e s.
Proof.
  intros E Hne. unfold openConsole. rewrite E. simpl.
  destruct (String.eqb_spec e ""); [done | reflexivity].
Qed.

Lemma Inv_openConsole w n ty p ic s :
  Inv s → JsMap.get (newSessionId w) (sessions s) = None →
  Inv (openConsole w n ty p ic s).
Proof.
  intros HI Hfresh.
  destruct (truthy_id (findSessionByName n (sessions s))) eqn:Ht.
  - destruct (findSessionByName n (sessions s)) as [e|] eqn:E; [|done].
    rewrite (openConsole_existing _ _ _ _ _ _ e E).
    + apply Inv_switchToTab; [done|].
      destruct (findSessionByName_Some _ _ _ E) as (x & Hx & _). by eapply elem_keys.
    + simpl in Ht. by destruct (String.eqb_spec e "").
  - rewrite openConsole_new by done. cbv zeta.
    assert (Inv (registered w n ty (default_null p) (default_null ic) s)) as HR.
    { apply Inv_registered; [done..|]. by apply truthy_find. }
    repeat case_decide;
      [by apply Inv_initVncSession | by apply Inv_initTerminalSession | done].
Qed.

Lemma core_vncControl sid action s : core (vncControl sid action s) = core s.
Proof.
  unfold vncControl. destruct (JsMap.get sid (sessions s)); [|done].
  destruct (negb _); reflexivity.
Qed.

Lemma core_terminalControl sid action s : core (terminalControl sid action s) = core s.
Proof.
  unfold terminalControl. destruct (JsMap.get sid (sessions s)); [|done].
  destruct (negb _); reflexivity.
Qed.

Lemma core_vncControl_resume sid action r s : core (vncControl_resume sid action r s) = core s.
Proof.
  unfold vncControl_resume. destruct (reports_success r); [|done].
  destruct (_ || _); reflexivity.
Qed.

Lemma core_terminalControl_resume sid action r s :
  core (terminalControl_resume sid action r s) = core s.
Proof.
  unfold terminalControl_resume. destruct (reports_success r); [|done].
  destruct (_ || _); reflexivity.
Qed.

(** The clipboard probe can only add its tip to the toasts and set its key in
    [localStorage]. *)
Lemma clipboard_probe_frame c s :
  cm (clipboard_probe c s) = cm s ∧ dom (clipboard_probe c s) = dom s ∧
  vnc (clipboard_probe c s) = vnc s ∧ term (clipboard_probe c s) = term s ∧
  timers (env (clipboard_probe c s)) = timers (env s) ∧
  pending (env (clipboard_probe c s)) = pending (env s) ∧
  apiCalls (env (clipboard_probe c s)) = apiCalls (env s).
Proof.
  unfold clipboard_probe, requestClipboardPermissions.
  destruct c; simpl; try done. by destruct (negb _).
Qed.

Lemma clipboard_probe_toasts c s :
  toasts (env (clipboard_probe c s)) =
  toasts (env s) ++ (if shows_tip c s then [(clipboard_tip, "info")] else []).
Proof.
  unfold clipboard_probe, requestClipboardPermissions, shows_tip.
  destruct c; simpl; try (by rewrite app_nil_r).
  destruct (negb _); simpl; [done | by rewrite app_nil_r].
Qed.

Lemma clipboard_probe_key c s :
  shows_tip c s = true →
  localStorage (env (clipboard_probe c s)) !! notificationKey = Some "true".
Proof.
  unfold clipboard_probe, requestClipboardPermissions, shows_tip.
  destruct c; simpl; try done.
  destruct (negb _); simpl; [|done]. intros _. apply lookup_insert_eq.
Qed.

Lemma core_clipboard_probe c s : core (clipboard_probe c s) = core s.
Proof.
  destruct (clipboard_probe_frame c s) as (C & D & _).
  unfold core, sessions, active, tab_keys. by rewrite C, D.
Qed.

Lemma Inv_resume k v s : Inv s → Inv (resume k v s).
Proof.
  intros HI. destruct k, v; simpl; try done.
  - apply Inv_initVncSession_settle. eapply Inv_core; [|exact HI].
    rewrite core_launchVncInContainer_resume. apply core_clipboard_probe.
  - eapply Inv_core; [|exact HI]. apply core_vncControl_resume.
  - eapply Inv_core; [|exact HI]. apply core_terminalControl_resume.
Qed.

Lemma Inv_onRfbDisconnect sid el clean s : Inv s → Inv (onRfbDisconnect sid el clean s).
Proof.
  intros HI. unfold onRfbDisconnect.
  assert (Inv (setStatus el (if clean then "Clean Disconnect" else "Disconnected")
                 "console-status console-status-error" s)) as H1.
  { eapply Inv_core; [|exact HI]. apply core_setStatus. }
  destruct clean; [by apply Inv_closeTab | done].
Qed.

Lemma has_tab_keys sid s : has_tab sid s → sid ∈ (tab_keys s).*1.
Proof.
  intros (tabs & E & Hin). unfold tab_keys. rewrite E. simpl.
  rewrite <- list_fmap_compose. exact Hin.
Qed.

Lemma Inv_step e s : Inv s → enabled e s → Inv (step e s).
Proof.
  intros HI Hen. destruct e; simpl in *.
  - by apply Inv_openConsole.
  - by apply Inv_closeTab.
  - apply Inv_switchToTab; [done|].
    apply has_tab_keys, list_elem_of_fmap in Hen as ([sid nm] & ? & Hin). simpl in *. subst.
    destruct (inv_tab_session _ HI _ _ Hin) as (x & Hx & _).
    apply JsMapFacts.get_Some_keys. eauto.
  - eapply Inv_core; [|exact HI]. apply core_vncControl.
  - eapply Inv_core; [|exact HI]. apply core_terminalControl.
  - destruct (pending (env s) !! i); [|done]. destruct (settles c v); [|done].
    apply Inv_resume. eapply Inv_core; [|exact HI]. reflexivity.
  - destruct (timers (env s) !! i) as [[d a]|]; [|done].
    destruct a; simpl; [|eapply Inv_core; [|exact HI]; reflexivity].
    apply Inv_closeTab. eapply Inv_core; [|exact HI]. reflexivity.
  - destruct (rfbs (vnc s) !! client); [|done].
    eapply Inv_core; [|exact HI]. unfold onRfbConnect, showStatus.
    rewrite core_with_env. apply core_setStatus.
  - destruct (rfbs (vnc s) !! client); [|done]. by apply Inv_onRfbDisconnect.
  - destruct (rfbs (vnc s) !! client); [|done].
    eapply Inv_core; [|exact HI]. unfold onRfbSecurityFailure, showStatus.
    rewrite core_with_env. apply core_setStatus.
  - destruct (sockets (term s) !! socket); [|done].
    eapply Inv_core; [|exact HI]. unfold onSocketOpen, writeln, write.
    rewrite !core_with_term, core_setStatus. reflexivity.
  - destruct (sockets (term s) !! socket); [|done].
    eapply Inv_core; [|exact HI]. reflexivity.
  - destruct (sockets (term s) !! socket); [|done].
    eapply Inv_core; [|exact HI]. unfold onSocketError, setTimeout, writeln, write.
    rewrite core_with_env, core_with_term. apply core_setStatus.
  - destruct (sockets (term s) !! socket); [|done].
    eapply Inv_core; [|exact HI]. unfold onSocketClose, setTimeout, writeln, write.
    rewrite core_with_env, core_with_term, core_setStatus. reflexivity.
  - destruct (terminals (term s) !! terminal) as [t|]; [|done].
    destruct (term_socket t); [|done]. unfold onData.
    destruct (sockets (term s) !! n); [|done].
    destruct (ws_readyState w); try done.
    eapply Inv_core; [|exact HI]. reflexivity.
Qed.

Lemma Inv_initial p : Inv (initial p).
Proof.
  split; simpl; try by constructor.
  - intros k Hk. by apply elem_of_nil in Hk.
  - unfold tab_keys. simpl. destruct (page_tabBar p); simpl; constructor.
  - unfold tab_keys. simpl. destruct (page_tabBar p); simpl; constructor.
  - unfold tab_keys. simpl. intros sid nm Hin.
    destruct (page_tabBar p); simpl in Hin; by apply elem_of_nil in Hin.
Qed.

(** Every state the event loop can reach satisfies the invariant. *)
Lemma reachable_Inv s : reachable s → Inv s.
Proof.
  induction 1 as [p | e s Hs IH Hen]; [apply Inv_initial | by apply Inv_step].
Qed.

(** ** Session names through [openConsole] *)

Lemma names_assign_instance sid i s :
  names (sessions (assign_instance sid i s)) = names (sessions s).
Proof.
  change (sessions (assign_instance sid i s))
    with (match JsMap.get sid (sessions s) with
          | Some session => JsMap.set sid (set_instance i session) (sessions s)
          | None => sessions s
          end).
  destruct (JsMap.get sid (sessions s)) eqn:E; [by apply names_set_instance | done].
Qed.

Lemma names_initVncSession sid n p m s :
  names (sessions (initVncSession sid n p m s)) = names (sessions s).
Proof.
  unfold initVncSession.
  destruct (JsMap.get sid (sessions s)); [|done].
  destruct (consoleArea (dom s)); [|done].
  set (s1 := with_dom _ s).
  pose proof (core_launchVncInContainer sid n p ("canvas-" +:+ sid) ("status-" +:+ sid) s1) as E.
  destruct (launchVncInContainer _ _ _ _ _ s1) as [s2 [msg| |]];
    simpl in E; apply core_proj in E as (E & _ & _);
    unfold initVncSession_settle; rewrite ?names_assign_instance;
    (transitivity (names (sessions s2)); [reflexivity | by rewrite E]).
Qed.

Lemma names_initTerminalSession sid n ctor m s :
  names (sessions (initTerminalSession sid n ctor m s)) = names (sessions s).
Proof.
  unfold initTerminalSession.
  destruct (JsMap.get sid (sessions s)); [|done].
  destruct (consoleArea (dom s)); [|done].
  set (s1 := with_dom _ s).
  pose proof (core_launchTerminalInContainer sid n ("terminal-" +:+ sid)
                ("status-" +:+ sid) ctor s1) as E.
  destruct (launchTerminalInContainer _ _ _ _ _ s1) as [s2 [msg| |]];
    simpl in E; apply core_proj in E as (E & _ & _);
    unfold initTerminalSession_settle; rewrite ?names_assign_instance;
    (transitivity (names (sessions s2)); [reflexivity | by rewrite E]).
Qed.

(** After [openConsole(T, ...)] the registry holds a session named [T]. *)
Lemma openConsole_has_session w T ty p ic s :
  T ∈ names (sessions (openConsole w T ty p ic s)).
Proof.
  destruct (truthy_id (findSessionByName T (sessions s))) eqn:Ht.
  - destruct (findSessionByName T (sessions s)) as [e|] eqn:E; [|done].
    rewrite (openConsole_existing _ _ _ _ _ _ e E).
    + destruct (findSessionByName_Some _ _ _ E) as (x & Hx & <-).
      destruct (core_proj _ _ _ _ (core_switchToTab e s)) as (-> & _ & _).
      by eapply names_elem.
    + simpl in Ht. by destruct (String.eqb_spec e "").
  - rewrite openConsole_new by done. cbv zeta.
    assert (T ∈ names (sessions (registered w T ty (default_null p) (default_null ic) s))) as HR.
    { destruct (core_proj _ _ _ _ (core_registered w T ty (default_null p) (default_null ic) s))
        as (-> & _ & _).
      set (session := mkSession _ _ _ _ _ _).
      change T with (name session).
      eapply names_elem, JsMapFacts.get_Some_elem.
      rewrite JsMapFacts.get_set. by rewrite decide_True. }
    repeat case_decide;
      [by rewrite names_initVncSession | by rewrite names_initTerminalSession | done].
Qed.

Lemma session_count_names T s :
  session_count T s = length (filter (λ x, x = T) (names (sessions s))).
Proof. unfold session_count, names. apply (count_fmap (λ kv, name kv.2)). Qed.

Lemma tab_count_keys T s :
  tab_count T s = length (filter (λ x, x = T) (tab_keys s).*2).
Proof.
  unfold tab_count, tab_keys. rewrite <- list_fmap_compose.
  apply (count_fmap tab_name).
Qed.

Lemma count_elem (T : string) (l : list string) :
  T ∈ l → 1 ≤ length (filter (λ x, x = T) l).
Proof.
  intros Hin. assert (T ∈ filter (λ x, x = T) l) as Hf by by apply list_elem_of_filter.
  destruct (filter (λ x, x = T) l); [by apply elem_of_nil in Hf | simpl; lia].
Qed.

Lemma elem_get {V} (k : string) (v : V) m :
  NoDup (JsMap.keys m) → (k, v) ∈ m → JsMap.get k m = Some v.
Proof.
  unfold JsMap.keys. induction m as [|[k0 v0] m IH]; simpl; intros Hnd Hin.
  - by apply elem_of_nil in Hin.
  - apply NoDup_cons in Hnd as [Hk0 Hm].
    apply elem_of_cons in Hin as [E|Hin].
    + simplify_eq. by rewrite decide_True.
    + rewrite decide_False; [by apply IH|].
      intros ->. apply Hk0. apply list_elem_of_fmap. by exists (k0, v).
Qed.

(** ** [closeTab] in two halves *)

Lemma closeTab_split sid s :
  closeTab sid s =
  match JsMap.get sid (sessions s) with
  | None => s
  | Some session => closeTab_rest sid (closeTab_cleanup session sid s)
  end.
Proof. reflexivity. Qed.

Lemma closeTab_absent sid s : JsMap.get sid (sessions s) = None → closeTab sid s = s.
Proof. intros E. rewrite closeTab_split. by rewrite E. Qed.

Lemma cleanup_cm session sid s : cm (closeTab_cleanup session sid s) = cm s.
Proof. unfold closeTab_cleanup. repeat case_decide; reflexivity. Qed.

Lemma cleanup_dom session sid s : dom (closeTab_cleanup session sid s) = dom s.
Proof. unfold closeTab_cleanup. repeat case_decide; reflexivity. Qed.

Lemma cleanup_env session sid s : env (closeTab_cleanup session sid s) = env s.
Proof. unfold closeTab_cleanup. repeat case_decide; reflexivity. Qed.

Lemma rest_vnc sid s : vnc (closeTab_rest sid s) = vnc s.
Proof.
  unfold closeTab_rest. cbv zeta. case_decide; [|done].
  case_bool_decide; [|done]. by destruct (JsMap.first_key _).
Qed.

Lemma rest_term sid s : term (closeTab_rest sid s) = term s.
Proof.
  unfold closeTab_rest. cbv zeta. case_decide; [|done].
  case_bool_decide; [|done]. by destruct (JsMap.first_key _).
Qed.

Lemma rest_env sid s : env (closeTab_rest sid s) = env s.
Proof.
  unfold closeTab_rest. cbv zeta. case_decide; [|done].
  case_bool_decide; [|done]. by destruct (JsMap.first_key _).
Qed.

Lemma rest_viewer sid s :
  viewer (dom (closeTab_rest sid s)) =
  if decide (active s = Some sid)
  then if bool_decide (0 < JsMap.size (JsMap.delete sid (sessions s)))
       then viewer (dom s) else viewer (hide_viewer (dom s))
  else viewer (dom s).
Proof.
  unfold closeTab_rest. cbv zeta.
  change (active (with_sessions _ _)) with (active s).
  change (sessions (with_sessions _ _)) with (JsMap.delete sid (sessions s)).
  case_decide; [|done]. case_bool_decide; [|done]. by destruct (JsMap.first_key _).
Qed.

Lemma closeTab_env sid s : env (closeTab sid s) = env s.
Proof.
  rewrite closeTab_split. destruct (JsMap.get sid (sessions s)); [|done].
  by rewrite rest_env, cleanup_env.
Qed.

Lemma closeTab_sessions sid s :
  sessions (closeTab sid s) = JsMap.delete sid (sessions s).
Proof.
  destruct (JsMap.get sid (sessions s)) as [session|] eqn:E.
  - by destruct (core_proj _ _ _ _ (core_closeTab sid session s E)) as (-> & _ & _).
  - rewrite closeTab_absent by done. by rewrite JsMapFacts.delete_absent.
Qed.

Lemma closeTab_removes sid s :
  wf_registry s → JsMap.get sid (sessions (closeTab sid s)) = None.
Proof. intros Hwf. rewrite closeTab_sessions. by apply JsMapFacts.get_delete_eq. Qed.

Lemma size_delete {V} sid (v : V) m :
  JsMap.get sid m = Some v → JsMap.size m = S (JsMap.size (JsMap.delete sid m)).
Proof.
  unfold JsMap.size. induction m as [|[k0 v0] m IH]; simpl; [done|].
  destruct (decide (sid = k0)); [done|]. intros E. simpl. by rewrite <- IH.
Qed.

(** ** The registry keeps the order of opening *)

Lemma keys_assign_instance sid i s :
  JsMap.keys (sessions (assign_instance sid i s)) = JsMap.keys (sessions s).
Proof.
  change (sessions (assign_instance sid i s))
    with (match JsMap.get sid (sessions s) with
          | Some session => JsMap.set sid (set_instance i session) (sessions s)
          | None => sessions s
          end).
  destruct (JsMap.get sid (sessions s)) eqn:E; [|done].
  apply JsMapFacts.keys_set_present. eauto.
Qed.

Lemma keys_initVncSession sid n p m s :
  JsMap.keys (sessions (initVncSession sid n p m s)) = JsMap.keys (sessions s).
Proof.
  unfold initVncSession.
  destruct (JsMap.get sid (sessions s)); [|done].
  destruct (consoleArea (dom s)); [|done].
  set (s1 := with_dom _ s).
  pose proof (core_launchVncInContainer sid n p ("canvas-" +:+ sid) ("status-" +:+ sid) s1) as E.
  destruct (launchVncInContainer _ _ _ _ _ s1) as [s2 [msg| |]];
    simpl in E; apply core_proj in E as (E & _ & _);
    unfold initVncSession_settle; rewrite ?keys_assign_instance;
    (transitivity (JsMap.keys (sessions s2)); [reflexivity | by rewrite E]).
Qed.

Lemma keys_initTerminalSession sid n ctor m s :
  JsMap.keys (sessions (initTerminalSession sid n ctor m s)) = JsMap.keys (sessions s).
Proof.
  unfold initTerminalSession.
  destruct (JsMap.get sid (sessions s)); [|done].
  destruct (consoleArea (dom s)); [|done].
  set (s1 := with_dom _ s).
  pose proof (core_launchTerminalInContainer sid n ("terminal-" +:+ sid)
                ("status-" +:+ sid) ctor s1) as E.
  destruct (launchTerminalInContainer _ _ _ _ _ s1) as [s2 [msg| |]];
    simpl in E; apply core_proj in E as (E & _ & _);
    unfold initTerminalSession_settle; rewrite ?keys_assign_instance;
    (transitivity (JsMap.keys (sessions s2)); [reflexivity | by rewrite E]).
Qed.

(** A new session goes to the end of the registry, so the registry lists the
    open sessions from the oldest to the newest. *)
Lemma openConsole_appends w T ty p ic s :
  reachable s → enabled (EOpenConsole w T ty p ic) s →
  findSessionByName T (sessions s) = None →
  JsMap.keys (sessions (openConsole w T ty p ic s)) =
  JsMap.keys (sessions s) ++ [newSessionId w].
Proof.
  intros Hs Hen Hf. simpl in Hen.
  rewrite openConsole_new by (by rewrite Hf). cbv zeta.
  assert (JsMap.keys (sessions (registered w T ty (default_null p) (default_null ic) s))
          = JsMap.keys (sessions s) ++ [newSessionId w]) as HR.
  { destruct (core_proj _ _ _ _ (core_registered w T ty (default_null p) (default_null ic) s))
      as (-> & _ & _).
    rewrite JsMapFacts.set_fresh by done. unfold JsMap.keys. by rewrite fmap_app. }
  repeat case_decide;
    [by rewrite keys_initVncSession | by rewrite keys_initTerminalSession | done].
Qed.

(** ** C1: one session, and one tab, per target *)

(** *** The tab bar stays, or stays away *)

Lemma has_bar_dom s s' : dom s' = dom s → has_bar s' = has_bar s.
Proof. unfold has_bar. by intros ->. Qed.

Lemma has_bar_setStatus el text cls s : has_bar (setStatus el text cls s) = has_bar s.
Proof. by destruct el. Qed.

Lemma has_bar_switchToTab sid s : has_bar (switchToTab sid s) = has_bar s.
Proof. unfold has_bar, switchToTab. simpl. by destruct (tabBar (dom s)). Qed.

Lemma has_bar_closeTab sid s : has_bar (closeTab sid s) = has_bar s.
Proof.
  rewrite closeTab_split. destruct (JsMap.get sid (sessions s)) as [session|]; [|done].
  transitivity (has_bar (closeTab_cleanup session sid s)); [|apply has_bar_dom, cleanup_dom].
  set (s1 := closeTab_cleanup session sid s). clearbody s1.
  unfold closeTab_rest. cbv zeta.
  destruct (decide _); [|unfold has_bar; simpl; by destruct (tabBar (dom s1))].
  destruct (bool_decide _); [|unfold has_bar; simpl; by destruct (tabBar (dom s1))].
  destruct (JsMap.first_key _); unfold has_bar; simpl; by destruct (tabBar (dom s1)).
Qed.

Lemma has_bar_launchVncInContainer sid vm p cid stid s :
  has_bar (launchVncInContainer sid vm p cid stid s).1 = has_bar s.
Proof.
  unfold launchVncInContainer. destruct (truthy p); simpl; [|done].
  destruct (getCanvasEl cid (dom s)); simpl; [|done].
  by destruct (getStatusEl stid (dom s)).
Qed.

Lemma has_bar_launchVncInContainer_resume sid vm p canvas el ctor s :
  has_bar (launchVncInContainer_resume sid vm p canvas el ctor s).1 = has_bar s.
Proof. destruct ctor; [by destruct el | done]. Qed.

Lemma has_bar_launchTerminalInContainer sid cn tid stid ctor s :
  has_bar (launchTerminalInContainer sid cn tid stid ctor s).1 = has_bar s.
Proof.
  unfold launchTerminalInContainer.
  destruct (xtermLoaded (term s)); simpl; [|done].
  destruct (fitAddonLoaded (term s)); simpl; [|done].
  destruct (getTerminalEl tid (dom s)); simpl; [|done].
  destruct (getStatusEl stid (dom s)); destruct ctor; reflexivity.
Qed.

Lemma has_bar_initVncSession sid n p m s : has_bar (initVncSession sid n p m s) = has_bar s.
Proof.
  unfold initVncSession.
  destruct (JsMap.get sid (sessions s)); [|done].
  destruct (consoleArea (dom s)); [|done].
  set (s1 := with_dom _ s).
  pose proof (has_bar_launchVncInContainer sid n p ("canvas-" +:+ sid) ("status-" +:+ sid) s1)
    as C.
  destruct (launchVncInContainer _ _ _ _ _ s1) as [s2 [msg| |]]; simpl in C;
    unfold initVncSession_settle; exact C.
Qed.

Lemma has_bar_initTerminalSession sid n ctor m s :
  has_bar (initTerminalSession sid n ctor m s) = has_bar s.
Proof.
  unfold initTerminalSession.
  destruct (JsMap.get sid (sessions s)); [|done].
  destruct (consoleArea (dom s)); [|done].
  set (s1 := with_dom _ s).
  pose proof (has_bar_launchTerminalInContainer sid n ("terminal-" +:+ sid)
                ("status-" +:+ sid) ctor s1) as C.
  destruct (launchTerminalInContainer _ _ _ _ _ s1) as [s2 [msg| |]]; simpl in C;
    unfold initTerminalSession_settle; exact C.
Qed.

Lemma has_bar_registered w n ty p ic s : has_bar (registered w n ty p ic s) = has_bar s.
Proof.
  unfold registered. cbv zeta. rewrite has_bar_switchToTab.
  unfold has_bar, createTab. simpl. by destruct (tabBar (dom s)).
Qed.

Lemma has_bar_openConsole w n ty p ic s : has_bar (openConsole w n ty p ic s) = has_bar s.
Proof.
  destruct (truthy_id (findSessionByName n (sessions s))) eqn:Ht.
  - unfold openConsole. rewrite Ht.
    destruct (findSessionByName n (sessions s)); [apply has_bar_switchToTab | done].
  - rewrite openConsole_new by done. cbv zeta.
    repeat case_decide;
      rewrite ?has_bar_initVncSession, ?has_bar_initTerminalSession; apply has_bar_registered.
Qed.

Lemma has_bar_step e s : has_bar (step e s) = has_bar s.
Proof.
  destruct e; simpl.
  - apply has_bar_openConsole.
  - apply has_bar_closeTab.
  - apply has_bar_switchToTab.
  - unfold vncControl. destruct (JsMap.get _ _); [|done]. by destruct (negb _).
  - unfold terminalControl. destruct (JsMap.get _ _); [|done]. by destruct (negb _).
  - destruct (pending (env s) !! i) as [k|]; [|done]. destruct (settles k v); [|done].
    destruct k, v; simpl; try done.
    + transitivity (has_bar (clipboard_probe probe (drop_pending i s))).
      * pose proof (has_bar_launchVncInContainer_resume sessionId vmName vncPort
                      canvasContainer statusEl throws
                      (clipboard_probe probe (drop_pending i s))) as C.
        destruct (launchVncInContainer_resume _ _ _ _ _ _ _) as [s2 [msg| |]];
          simpl in C; unfold initVncSession_settle; exact C.
      * apply has_bar_dom. by destruct (clipboard_probe_frame probe (drop_pending i s))
          as (_ & -> & _).
    + unfold vncControl_resume. destruct (reports_success result); [|done].
      by destruct (_ || _).
    + unfold terminalControl_resume. destruct (reports_success result); [|done].
      by destruct (_ || _).
  - destruct (timers (env s) !! i) as [[d a]|]; [|done].
    destruct a; simpl; [|done]. by rewrite has_bar_closeTab.
  - destruct (rfbs (vnc s) !! client) as [c|]; [|done]. unfold onRfbConnect.
    by destruct (rfb_statusEl c).
  - destruct (rfbs (vnc s) !! client) as [c|]; [|done]. unfold onRfbDisconnect.
    destruct clean; [rewrite has_bar_closeTab|]; apply has_bar_setStatus.
  - destruct (rfbs (vnc s) !! client) as [c|]; [|done]. unfold onRfbSecurityFailure.
    by destruct (rfb_statusEl c).
  - destruct (sockets (term s) !! socket) as [w|]; [|done]. unfold onSocketOpen.
    by destruct (ws_statusEl w).
  - by destruct (sockets (term s) !! socket).
  - destruct (sockets (term s) !! socket) as [w|]; [|done]. unfold onSocketError.
    by destruct (ws_statusEl w).
  - destruct (sockets (term s) !! socket) as [w|]; [|done]. unfold onSocketClose.
    by destruct (ws_statusEl w).
  - destruct (terminals (term s) !! terminal) as [t|]; [|done].
    destruct (term_socket t); [|done]. unfold onData.
    destruct (sockets (term s) !! n) as [w|]; [|done]. by destruct (ws_readyState w).
Qed.

(** *** One tab per session *)

Lemma session_key_zip (m : list (string * Session)) :
  session_key <$> m = zip (JsMap.keys m) (names m).
Proof.
  unfold JsMap.keys, names. induction m as [|[k x] m IH]; [done|].
  rewrite !fmap_cons. simpl. f_equal. exact IH.
Qed.

Lemma tabbed_frame s s' :
  JsMap.keys (sessions s') = JsMap.keys (sessions s) →
  names (sessions s') = names (sessions s) →
  tab_keys s' = tab_keys s → has_bar s' = has_bar s → tabbed s → tabbed s'.
Proof.
  unfold tabbed. intros Ek En Et Eb HT. rewrite Eb, Et, !session_key_zip, Ek, En.
  by rewrite <- session_key_zip.
Qed.

Lemma tabbed_core s s' : core s' = core s → has_bar s' = has_bar s → tabbed s → tabbed s'.
Proof.
  intros E. apply core_proj in E as (E1 & _ & E3).
  apply tabbed_frame; by rewrite ?E1, ?E3.
Qed.

Lemma remove_first_session_key sid (m : list (string * Session)) :
  remove_first (λ p, is_session sid p.1) (session_key <$> m)
  = session_key <$> JsMap.delete sid m.
Proof.
  induction m as [|[k x] m IH]; [done|]. rewrite fmap_cons.
  change (remove_first (λ p, is_session sid p.1) (session_key (k, x) :: (session_key <$> m)))
    with (if is_session sid k then session_key <$> m
          else session_key (k, x)
               :: remove_first (λ p, is_session sid p.1) (session_key <$> m)).
  change (JsMap.delete sid ((k, x) :: m))
    with (if decide (sid = k) then m else (k, x) :: JsMap.delete sid m).
  unfold is_session in *. destruct (decide (sid = k)) as [->|Hne].
  - by rewrite bool_decide_eq_true_2.
  - rewrite bool_decide_eq_false_2 by congruence. by rewrite IH.
Qed.

Lemma tabbed_closeTab sid s : tabbed s → tabbed (closeTab sid s).
Proof.
  intros HT. destruct (JsMap.get sid (sessions s)) as [session|] eqn:Hget.
  - destruct (core_proj _ _ _ _ (core_closeTab sid session s Hget)) as (E1 & _ & E3).
    unfold tabbed. rewrite has_bar_closeTab, E1, E3. intros Hb.
    rewrite (HT Hb). apply remove_first_session_key.
  - by rewrite closeTab_absent.
Qed.

Lemma tabbed_registered w n ty p ic s :
  JsMap.get (newSessionId w) (sessions s) = None →
  tabbed s → tabbed (registered w n ty p ic s).
Proof.
  intros Hfresh HT.
  destruct (core_proj _ _ _ _ (core_registered w n ty p ic s)) as (E1 & _ & E3).
  unfold tabbed. rewrite has_bar_registered, E1, E3. intros Hb.
  rewrite JsMapFacts.set_fresh by done. rewrite fmap_app, <- (HT Hb).
  unfold has_bar in Hb. by destruct (tabBar (dom s)).
Qed.

Lemma tabbed_assign_instance sid i s : tabbed s → tabbed (assign_instance sid i s).
Proof.
  apply tabbed_frame; [apply keys_assign_instance | apply names_assign_instance | done..].
Qed.

Lemma tabbed_switchToTab sid s : tabbed s → tabbed (switchToTab sid s).
Proof.
  destruct (core_proj _ _ _ _ (core_switchToTab sid s)) as (E1 & _ & E3).
  apply tabbed_frame; [by rewrite E1 | by rewrite E1 | done | apply has_bar_switchToTab].
Qed.

Lemma tabbed_initVncSession sid n p m s : tabbed s → tabbed (initVncSession sid n p m s).
Proof.
  intros HT. unfold initVncSession.
  destruct (JsMap.get sid (sessions s)); [|done].
  destruct (consoleArea (dom s)); [|done].
  set (s1 := with_dom _ s).
  assert (tabbed (launchVncInContainer sid n p ("canvas-" +:+ sid) ("status-" +:+ sid) s1).1)
    as H2.
  { eapply tabbed_core; [| |exact HT].
    - rewrite core_launchVncInContainer. apply core_append_container.
    - by rewrite has_bar_launchVncInContainer. }
  destruct (launchVncInContainer _ _ _ _ _ s1) as [s2 [msg| |]]; simpl in H2;
    unfold initVncSession_settle; [|done|by apply tabbed_assign_instance].
  eapply tabbed_core; [apply core_with_env | done | done].
Qed.

Lemma tabbed_initTerminalSession sid n ctor m s :
  tabbed s → tabbed (initTerminalSession sid n ctor m s).
Proof.
  intros HT. unfold initTerminalSession.
  destruct (JsMap.get sid (sessions s)); [|done].
  destruct (consoleArea (dom s)); [|done].
  set (s1 := with_dom _ s).
  assert (tabbed (launchTerminalInContainer sid n ("terminal-" +:+ sid)
                    ("status-" +:+ sid) ctor s1).1) as H2.
  { eapply tabbed_core; [| |exact HT].
    - rewrite core_launchTerminalInContainer. apply core_append_container.
    - by rewrite has_bar_launchTerminalInContainer. }
  destruct (launchTerminalInContainer _ _ _ _ _ s1) as [s2 [msg| |]]; simpl in H2;
    unfold initTerminalSession_settle; [|done|by apply tabbed_assign_instance].
  eapply tabbed_core; [apply core_with_env | done | done].
Qed.

Lemma tabbed_openConsole w n ty p ic s :
  JsMap.get (newSessionId w) (sessions s) = None →
  tabbed s → tabbed (openConsole w n ty p ic s).
Proof.
  intros Hfresh HT.
  destruct (truthy_id (findSessionByName n (sessions s))) eqn:Ht.
  - unfold openConsole. rewrite Ht.
    destruct (findSessionByName n (sessions s)) as [e|]; [|done].
    by apply tabbed_switchToTab.
  - rewrite openConsole_new by done. cbv zeta.
    pose proof (tabbed_registered w n ty (default_null p) (default_null ic) s Hfresh HT) as H4.
    set (s4 := registered _ _ _ _ _ _) in *. clearbody s4.
    repeat case_decide;
      [by apply tabbed_initVncSession | by apply tabbed_initTerminalSession | done].
Qed.

Lemma tabbed_step e s : enabled e s → tabbed s → tabbed (step e s).
Proof.
  intros Hen HT.
  assert (∀ s', core s' = core s → has_bar s' = has_bar s → tabbed s') as Hframe
    by (intros s' E B; by apply (tabbed_core s)).
  destruct e; simpl in *.
  - by apply tabbed_openConsole.
  - by apply tabbed_closeTab.
  - by apply tabbed_switchToTab.
  - apply Hframe; [apply core_vncControl | apply (has_bar_step (EVncControl _ _))].
  - apply Hframe; [apply core_terminalControl | apply (has_bar_step (ETerminalControl _ _))].
  - destruct (pending (env s) !! i) as [k|]; [|done]. destruct (settles k v); [|done].
    assert (tabbed (drop_pending i s)) as HT' by (by apply Hframe).
    destruct k, v; simpl; try done.
    + assert (tabbed (launchVncInContainer_resume sessionId vmName vncPort canvasContainer
                        statusEl throws (clipboard_probe probe (drop_pending i s))).1) as H2.
      { apply Hframe.
        - rewrite core_launchVncInContainer_resume, core_clipboard_probe. reflexivity.
        - rewrite has_bar_launchVncInContainer_resume.
          transitivity (has_bar (drop_pending i s)); [|reflexivity]. apply has_bar_dom.
          by destruct (clipboard_probe_frame probe (drop_pending i s)) as (_ & -> & _). }
      destruct (launchVncInContainer_resume _ _ _ _ _ _ _) as [s2 [msg| |]]; simpl in H2;
        unfold initVncSession_settle; [|done|by apply tabbed_assign_instance].
      eapply tabbed_core; [apply core_with_env | done | done].
    + apply Hframe; [rewrite core_vncControl_resume; reflexivity|].
      unfold vncControl_resume. destruct (reports_success result); [|done].
      by destruct (_ || _).
    + apply Hframe; [rewrite core_terminalControl_resume; reflexivity|].
      unfold terminalControl_resume. destruct (reports_success result); [|done].
      by destruct (_ || _).
  - destruct (timers (env s) !! i) as [[d a]|]; [|done].
    assert (tabbed (drop_timer i s)) as HT' by (by apply Hframe).
    destruct a; simpl; [by apply tabbed_closeTab | done].
  - destruct (rfbs (vnc s) !! client) as [c|] eqn:Ec; [|done].
    apply Hframe.
    + unfold onRfbConnect, showStatus. rewrite core_with_env. apply core_setStatus.
    + unfold onRfbConnect. by destruct (rfb_statusEl c).
  - destruct (rfbs (vnc s) !! client) as [c|] eqn:Ec; [|done]. unfold onRfbDisconnect.
    assert (tabbed (setStatus (rfb_statusEl c)
                      (if clean then "Clean Disconnect" else "Disconnected")
                      "console-status console-status-error" s)) as H1
      by (apply Hframe; [apply core_setStatus | apply has_bar_setStatus]).
    destruct clean; [by apply tabbed_closeTab | done].
  - destruct (rfbs (vnc s) !! client) as [c|] eqn:Ec; [|done].
    apply Hframe.
    + unfold onRfbSecurityFailure, showStatus. rewrite core_with_env. apply core_setStatus.
    + unfold onRfbSecurityFailure. by destruct (rfb_statusEl c).
  - destruct (sockets (term s) !! socket) as [w|] eqn:Ew; [|done].
    apply Hframe.
    + unfold onSocketOpen, writeln, write. rewrite !core_with_term, core_setStatus.
      reflexivity.
    + unfold onSocketOpen. by destruct (ws_statusEl w).
  - destruct (sockets (term s) !! socket) as [w|] eqn:Ew; [|done]. by apply Hframe.
  - destruct (sockets (term s) !! socket) as [w|] eqn:Ew; [|done].
    apply Hframe.
    + unfold onSocketError, setTimeout, writeln, write.
      rewrite core_with_env, core_with_term. apply core_setStatus.
    + unfold onSocketError. by destruct (ws_statusEl w).
  - destruct (sockets (term s) !! socket) as [w|] eqn:Ew; [|done].
    apply Hframe.
    + unfold onSocketClose, setTimeout, writeln, write.
      rewrite core_with_env, core_with_term, core_setStatus. reflexivity.
    + unfold onSocketClose. by destruct (ws_statusEl w).
  - destruct (terminals (term s) !! terminal) as [t|]; [|done].
    destruct (term_socket t); [|done]. unfold onData.
    destruct (sockets (term s) !! n) as [w|]; [|done].
    by destruct (ws_readyState w).
Qed.

Lemma tabbed_initial p : tabbed (initial p).
Proof. unfold tabbed, tab_keys. simpl. by destruct (page_tabBar p). Qed.

Lemma reachable_tabbed s : reachable s → tabbed s.
Proof.
  induction 1 as [p | e s Hs IH Hen]; [apply tabbed_initial | by apply tabbed_step].
Qed.

Lemma has_bar_is_Some s : is_Some (tabBar (dom s)) → has_bar s = true.
Proof. unfold has_bar. by intros [tabs ->]. Qed.

Lemma tab_count_session_count T s :
  tab_keys s = session_key <$> sessions s → tab_count T s = session_count T s.
Proof.
  intros E. rewrite tab_count_keys, session_count_names, E.
  unfold names. by rewrite <- !list_fmap_compose.
Qed.

Lemma has_bar_true s : has_bar s = true → is_Some (tabBar (dom s)).
Proof. unfold has_bar. destruct (tabBar (dom s)); [eauto | done]. Qed.

(** C1.  In every reachable state, and for every target name [T], the
    registry holds at most one session named [T] and the tab bar at most one
    tab for [T]; on a page with a tab bar the tabs are exactly the sessions of
    the registry, each with its id and name, so [T] has a tab exactly when it
    has a session.  After [openConsole(T, ...)] there is exactly one session
    for [T] and, on a page with a tab bar, exactly one tab for [T], the tab of
    that session; a second [openConsole(T, ...)], whatever its other
    arguments, is [switchToTab] of that session: it allocates nothing, leaves
    the registry and the tabs as they are and makes the existing session the
    foreground. *)
Theorem C1_one_session_per_target (s : State) (T : string) :
  reachable s →
  session_count T s ≤ 1 ∧ tab_count T s ≤ 1 ∧
  (is_Some (tabBar (dom s)) →
     tab_keys s = session_key <$> sessions s ∧ tab_count T s = session_count T s) ∧
  ∀ w ty p ic, enabled (EOpenConsole w T ty p ic) s →
    let s1 := openConsole w T ty p ic s in
    session_count T s1 = 1 ∧
    (is_Some (tabBar (dom s)) → is_Some (tabBar (dom s1)) ∧ tab_count T s1 = 1) ∧
    ∀ w' ty' p' ic',
      let s2 := openConsole w' T ty' p' ic' s1 in
      ∃ sid session,
        findSessionByName T (sessions s1) = Some sid ∧
        JsMap.get sid (sessions s1) = Some session ∧ name session = T ∧
        (is_Some (tabBar (dom s)) → (sid, T) ∈ tab_keys s1) ∧
        s2 = switchToTab sid s1 ∧
        sessions s2 = sessions s1 ∧ tab_keys s2 = tab_keys s1 ∧
        active s2 = Some sid ∧
        session_count T s2 = 1 ∧ tab_count T s2 ≤ 1 ∧
        (is_Some (tabBar (dom s)) → tab_count T s2 = 1).
Proof.
  intros Hs. pose proof (reachable_Inv s Hs) as HI.
  assert (∀ s0, Inv s0 → session_count T s0 ≤ 1 ∧ tab_count T s0 ≤ 1) as Hle.
  { intros s0 H0. rewrite session_count_names, tab_count_keys.
    split; apply NoDup_count_le_1; [apply (inv_names _ H0) | apply (inv_tab_names _ H0)]. }
  split_and!; [by apply Hle.. | |].
  { intros Hb. pose proof (reachable_tabbed s Hs (has_bar_is_Some s Hb)) as E.
    split; [done | by apply tab_count_session_count]. }
  intros w ty p ic Hen s1.
  assert (reachable s1) as Hs1 by exact (reachable_step (EOpenConsole w T ty p ic) s Hs Hen).
  pose proof (reachable_Inv s1 Hs1) as HI1.
  assert (session_count T s1 = 1) as Hc1.
  { destruct (Hle s1 HI1) as [Hle1 _].
    pose proof (count_elem T _ (openConsole_has_session w T ty p ic s)) as Hge.
    rewrite <- session_count_names in Hge. fold s1 in Hge. lia. }
  assert (is_Some (tabBar (dom s)) → tab_keys s1 = session_key <$> sessions s1) as Hk1.
  { intros Hb. apply (reachable_tabbed s1 Hs1). unfold s1.
    rewrite has_bar_openConsole. by apply has_bar_is_Some. }
  split; [done|]. split.
  { intros Hb. split.
    - apply has_bar_true. unfold s1. rewrite has_bar_openConsole. by apply has_bar_is_Some.
    - rewrite (tab_count_session_count T s1 (Hk1 Hb)). exact Hc1. }
  intros w' ty' p' ic' s2.
  destruct (findSessionByName T (sessions s1)) as [sid|] eqn:Hf.
  2:{ apply findSessionByName_None in Hf. destruct Hf.
      apply openConsole_has_session. }
  destruct (findSessionByName_Some _ _ _ Hf) as (session & Hin & Hn).
  assert (sid ≠ "") as Hne by (eapply (inv_truthy _ HI1), elem_keys, Hin).
  assert (s2 = switchToTab sid s1) as E2 by by eapply openConsole_existing.
  destruct (core_proj _ _ _ _ (core_switchToTab sid s1)) as (E3 & E4 & E5).
  exists sid, session. rewrite E2. split_and!; try done.
  - apply elem_get; [apply (inv_keys _ HI1) | done].
  - intros Hb. rewrite (Hk1 Hb). apply list_elem_of_fmap. exists (sid, session).
    split; [|done]. unfold session_key. simpl. by rewrite Hn.
  - rewrite tab_count_keys, E5, <- tab_count_keys. by apply Hle.
  - intros Hb. rewrite tab_count_keys, E5, <- tab_count_keys.
    rewrite (tab_count_session_count T s1 (Hk1 Hb)). exact Hc1.
Qed.

(** ** C5: the foreground after a close *)

(** C5.  In every reachable state, closing a session that is in the
    registry removes exactly its entry, the others keeping their order.  If it
    was the foreground and other sessions remain, the new foreground is the
    first key of what remains, that is the oldest remaining session (new
    sessions go to the end: [openConsole_appends]).  If it
    was the only session, the registry is empty, no session is foreground and
    the console viewer, when the page has one, carries [hidden].  If it was
    not the foreground, the foreground is unchanged. *)
Theorem C5_close_picks_foreground (s : State) (sid : string) :
  reachable s → is_Some (JsMap.get sid (sessions s)) →
  let s' := closeTab sid s in
  sessions s' = JsMap.delete sid (sessions s) ∧
  (active s = Some sid → 1 < JsMap.size (sessions s) →
     ∃ k, head (JsMap.keys (sessions s')) = Some k ∧ active s' = Some k) ∧
  (JsMap.size (sessions s) = 1 →
     sessions s' = [] ∧ active s' = None ∧
     viewer (dom s') = (λ _, true) <$> viewer (dom s)) ∧
  (active s ≠ Some sid → active s' = active s).
Proof.
  intros Hs [session Hget] s'. pose proof (reachable_Inv s Hs) as HI.
  destruct (core_proj _ _ _ _ (core_closeTab sid session s Hget)) as (E1 & E2 & E3).
  fold s' in E1, E2, E3. pose proof (size_delete _ _ _ Hget) as Hsz.
  split_and!; [done| | |].
  - intros Ha Hn. rewrite E2, E1, decide_True by done.
    destruct (JsMapFacts.first_key_is_Some (JsMap.delete sid (sessions s))) as [k Hk]; [lia|].
    exists k. split; exact Hk.
  - intros H1.
    assert (JsMap.delete sid (sessions s) = []) as Hnil.
    { apply JsMapFacts.size_0_nil. lia. }
    assert (active s = Some sid) as Ha.
    { pose proof (inv_active _ HI) as Hact. destruct (active s) as [a|].
      - f_equal. apply JsMapFacts.get_Some_keys in Hact as [x Hx].
        destruct (decide (a = sid)) as [|N]; [done|].
        rewrite <- (JsMapFacts.get_delete_ne sid a) in Hx by done.
        by rewrite Hnil in Hx.
      - by rewrite Hact in Hget. }
    rewrite E1, E2, decide_True, Hnil by done. split_and!; [done..|].
    unfold s'. rewrite closeTab_split, Hget, rest_viewer.
    change (active (closeTab_cleanup session sid s))
      with (activeSessionId (cm (closeTab_cleanup session sid s))).
    change (sessions (closeTab_cleanup session sid s))
      with (consoleSessions (cm (closeTab_cleanup session sid s))).
    rewrite cleanup_cm, cleanup_dom.
    change (activeSessionId (cm s)) with (active s).
    change (consoleSessions (cm s)) with (sessions s).
    rewrite decide_True, Hnil by done. simpl. by destruct (viewer (dom s)).
  - intros Hna. by rewrite E2, decide_False.
Qed.

(** ** C6: closing twice *)

(** C6.  On a well-formed registry, a second [closeTab(sessionId)] changes
    nothing at all: the state after two closes is the state after one. *)
Theorem C6_close_idempotent (s : State) (sid : string) :
  wf_registry s → closeTab sid (closeTab sid s) = closeTab sid s.
Proof. intros Hwf. apply closeTab_absent. by apply closeTab_removes. Qed.

(** ** C9: a dispatcher of the wrong kind *)

(** C9.  [vncControl] on a session id that is not in the registry, or on a
    session whose type is not [vnc] (a text session), returns the state it
    was given: no API call is recorded, nothing is suspended or scheduled and
    no session, registry or foreground changes.  Likewise [terminalControl]
    on an unknown id or on a session whose type is not [terminal]. *)
Theorem C9_wrong_kind_is_noop (s : State) (sid action : string) :
  (JsMap.get sid (sessions s) = None →
     vncControl sid action s = s ∧ terminalControl sid action s = s) ∧
  (∀ session, JsMap.get sid (sessions s) = Some session →
     (type session ≠ "vnc" → vncControl sid action s = s) ∧
     (type session ≠ "terminal" → terminalControl sid action s = s)).
Proof.
  unfold vncControl, terminalControl. split.
  - intros E. by rewrite E.
  - intros session E. rewrite E. split; intros Hty; by rewrite bool_decide_false.
Qed.

(** ** C10: a second open leaves the session alone *)

(** C10.  In every reachable state in which target [T] has a session, a
    further [openConsole(T, type', port', icon')] is [switchToTab] of that
    session: the registry (hence every field of every session, the instance
    included), the transports, the timers, toasts and suspended calls are
    unchanged, and the existing session is the foreground. *)
Theorem C10_second_open_changes_nothing (s : State) (T sid : string)
    (w : World) (ty' : string) (p' ic' : JsVal) :
  reachable s → findSessionByName T (sessions s) = Some sid →
  let s' := openConsole w T ty' p' ic' s in
  (∃ session, JsMap.get sid (sessions s) = Some session ∧ name session = T) ∧
  s' = switchToTab sid s ∧
  sessions s' = sessions s ∧ vnc s' = vnc s ∧ term s' = term s ∧ env s' = env s ∧
  active s' = Some sid.
Proof.
  intros Hs Hf s'. pose proof (reachable_Inv s Hs) as HI.
  destruct (findSessionByName_Some _ _ _ Hf) as (session & Hin & Hn).
  assert (sid ≠ "") as Hne by (eapply (inv_truthy _ HI), elem_keys, Hin).
  assert (s' = switchToTab sid s) as -> by by eapply openConsole_existing.
  split_and!; try reflexivity.
  exists session. split; [|done]. apply elem_get; [apply (inv_keys _ HI) | done].
Qed.

(** ** C4: teardown after a control action *)

(** C4.  For a graphical session, [vncControl] sends the management command
    and suspends, touching neither the registry nor the timers.  When the
    command returns, for the verbs [stop] and [destroy] (the Force Stop
    button), the timer [closeTab(sessionId)] with delay [CONTROL_ACTION_DELAY]
    = 2000 is added exactly when the result reports success; the registry,
    the document and the transports are as before, so the session stays until
    the timer fires; and when the result is [null] or its status is not
    [success] the state is unchanged altogether.  The same holds for
    [terminalControl] on a text session. *)
Theorem C4_teardown_iff_success (s : State) (sid action : string) (result : ApiResult) :
  action = "stop" ∨ action = "destroy" →
  (∀ session, JsMap.get sid (sessions s) = Some session → type session = "vnc" →
     vncControl sid action s =
     suspend (KVncControl sid action)
       (apiCall ("/vm/" +:+ name session +:+ "/" +:+ action) "POST" s)) ∧
  (∀ session, JsMap.get sid (sessions s) = Some session → type session = "terminal" →
     terminalControl sid action s =
     suspend (KTerminalControl sid action)
       (apiCall ("/vm/" +:+ name session +:+ "/" +:+ action) "POST" s)) ∧
  (∀ resumed, resumed = vncControl_resume ∨ resumed = terminalControl_resume →
     let s' := resumed sid action result s in
     timers (env s') =
       timers (env s) ++
       (if reports_success result then [(2000%Z, TCloseTab sid)] else []) ∧
     cm s' = cm s ∧ dom s' = dom s ∧ vnc s' = vnc s ∧ term s' = term s ∧
     pending (env s') = pending (env s) ∧
     (reports_success result = false → s' = s) ∧
     ((2000%Z, TCloseTab sid) ∈ timers (env s') ∧ (2000%Z, TCloseTab sid) ∉ timers (env s)
      → reports_success result = true)).
Proof.
  intros Hverb. split_and!.
  - intros session E Hty. unfold vncControl. by rewrite E, bool_decide_true.
  - intros session E Hty. unfold terminalControl. by rewrite E, bool_decide_true.
  - assert (bool_decide (action = "stop") || bool_decide (action = "destroy") = true) as Hb.
    { destruct Hverb as [->| ->]; reflexivity. }
    intros resumed [-> | ->]; cbv zeta;
      unfold vncControl_resume, terminalControl_resume; rewrite Hb;
      (destruct (reports_success result);
       [ split_and!; try reflexivity; done
       | split_and!; try reflexivity; try done;
         [by rewrite app_nil_r | by intros [? ?]] ]).
Qed.

(** ** C7: no port, no transport *)

Lemma launchVncInContainer_no_port sid vm p cid stid s :
  truthy p = false →
  launchVncInContainer sid vm p cid stid s = (s, Threw "VNC port not available for this VM").
Proof. intros Hp. unfold launchVncInContainer. by rewrite Hp. Qed.

(** An [openConsole] of type [vnc] whose port is falsy. *)
Lemma openConsole_vnc_no_port w n p ic s :
  truthy (default_null p) = false →
  let s' := openConsole w n "vnc" p ic s in
  vnc s' = vnc s ∧ pending (env s') = pending (env s) ∧ timers (env s') = timers (env s) ∧
  (truthy_id (findSessionByName n (sessions s)) = false →
   is_Some (consoleArea (dom s)) →
   toasts (env s') =
     toasts (env s) ++ [("VNC connection failed: VNC port not available for this VM", "error")]).
Proof.
  intros Hfalsy. cbv zeta.
  destruct (truthy_id (findSessionByName n (sessions s))) eqn:Ht.
  - unfold openConsole. rewrite Ht.
    destruct (findSessionByName n (sessions s)); split_and!; done.
  - rewrite openConsole_new by done. cbv zeta. rewrite decide_True by done.
    set (s4 := registered _ _ _ _ _ _).
    assert (vnc s4 = vnc s ∧ env s4 = env s ∧
            consoleArea (dom s4) =
              fmap (M:=list) (show_container (newSessionId w)) <$> consoleArea (dom s))
      as (V4 & E4 & A4).
    { unfold s4, registered, switchToTab, createTab. simpl. split_and!; done. }
    unfold initVncSession.
    assert (is_Some (JsMap.get (newSessionId w) (sessions s4))) as [x Hx].
    { destruct (core_proj _ _ _ _ (core_registered w n "vnc" (default_null p)
                                      (default_null ic) s)) as (E & _ & _).
      fold s4 in E. rewrite E, JsMapFacts.get_set, decide_True by done. eauto. }
    rewrite Hx, A4. destruct (consoleArea (dom s)) as [cs|]; simpl.
    + rewrite launchVncInContainer_no_port by done. simpl. split_and!; done.
    + rewrite ?V4, ?E4. split_and!; done.
Qed.

(** C7.  When the port handed to [launchVncInContainer] is absent ([null]
    after defaulting) or zero, the call throws [VNC port not available for
    this VM] and the state is untouched.  Through [openConsole]: whatever the
    state, an open of type [vnc] with such a port leaves the VNC module as it
    was (no RFB object is constructed, [rfbClients] and [vncSessions] gain
    nothing) and suspends nothing, so no later turn constructs one either; and
    when the target had no session and the page has a console area, the
    failure is reported as the toast [VNC connection failed: ...]. *)
Theorem C7_no_port_no_transport (s : State) (w : World) (n : string) (p ic : JsVal)
    (sid vm cid stid : string) :
  p = JUndefined ∨ p = JNull ∨ p = JNum 0 →
  launchVncInContainer sid vm (default_null p) cid stid s
    = (s, Threw "VNC port not available for this VM") ∧
  let s' := openConsole w n "vnc" p ic s in
  vnc s' = vnc s ∧ pending (env s') = pending (env s) ∧ timers (env s') = timers (env s) ∧
  (truthy_id (findSessionByName n (sessions s)) = false →
   is_Some (consoleArea (dom s)) →
   toasts (env s') =
     toasts (env s) ++ [("VNC connection failed: VNC port not available for this VM", "error")]).
Proof.
  intros Hp.
  assert (truthy (default_null p) = false) as Hfalsy
    by (destruct Hp as [->|[->| ->]]; reflexivity).
  split; [by apply launchVncInContainer_no_port | by apply openConsole_vnc_no_port].
Qed.

(** ** C8: inbound messages reach the terminal in arrival order *)

Lemma write_sockets th d s : sockets (term (write th d s)) = sockets (term s).
Proof. reflexivity. Qed.

Lemma write_terminals th d s :
  terminals (term (write th d s)) =
  alter (λ x, mkTerminal (term_writes x ++ [d]) (term_disposed x) (term_socket x))
        th (terminals (term s)).
Proof. reflexivity. Qed.

(** Messages of several sessions may interleave: each terminal receives
    exactly the messages of the sockets that write to it, in arrival order. *)
Lemma arrivals_interleaved (evs : list (nat * string)) (s : State) (terminal : nat)
    (t : Terminal) :
  terminals (term s) !! terminal = Some t →
  let s' := run (arrivals evs) s in
  sockets (term s') = sockets (term s) ∧
  ∃ t', terminals (term s') !! terminal = Some t' ∧
        term_writes t' =
          term_writes t ++ (filter (addressed_to (sockets (term s)) terminal) evs).*2.
Proof.
  revert s t. induction evs as [|[k d] evs IH]; intros s t Ht; simpl.
  - split; [done|]. exists t. by rewrite app_nil_r.
  - unfold run, arrivals in *. simpl.
    destruct (sockets (term s) !! k) as [w|] eqn:Hk.
    + set (s1 := onSocketMessage (ws_terminal w) d s).
      assert (sockets (term s1) = sockets (term s)) as Hsock by reflexivity.
      destruct (decide (ws_terminal w = terminal)) as [E|N].
      * destruct (IH s1 (mkTerminal (term_writes t ++ [d]) (term_disposed t) (term_socket t)))
          as (Hs & t' & Ht' & Hw).
        { unfold s1, onSocketMessage. rewrite write_terminals, E.
          rewrite list_lookup_alter_eq. by rewrite Ht. }
        split; [congruence|]. exists t'. split; [done|].
        rewrite Hw, Hsock. simpl.
        rewrite filter_cons_True
          by (unfold addressed_to; simpl; rewrite Hk; simpl; by rewrite E).
        simpl. by rewrite <- app_assoc.
      * destruct (IH s1 t) as (Hs & t' & Ht' & Hw).
        { unfold s1, onSocketMessage. rewrite write_terminals.
          by rewrite list_lookup_alter_ne. }
        split; [congruence|]. exists t'. split; [done|].
        rewrite Hw, Hsock. rewrite filter_cons_False; [done|].
        unfold addressed_to. simpl. rewrite Hk. simpl. congruence.
    + destruct (IH s t Ht) as (Hs & t' & Ht' & Hw).
      split; [done|]. exists t'. split; [done|].
      rewrite Hw. rewrite filter_cons_False; [done|].
      unfold addressed_to. simpl. by rewrite Hk.
Qed.

Lemma string_append_assoc (a b c : string) : (a +:+ b) +:+ c = a +:+ (b +:+ c).
Proof.
  induction a as [|x a IH]; [reflexivity|].
  change (String x ((a +:+ b) +:+ c) = String x (a +:+ b +:+ c)). by f_equal.
Qed.

Lemma foldr_append_app (l k : list string) :
  foldr String.append "" (l ++ k) = foldr String.append "" l +:+ foldr String.append "" k.
Proof.
  induction l as [|x l IH]; simpl; [done|].
  rewrite IH. by rewrite string_append_assoc.
Qed.

(** C8.  For a socket of a text session and the terminal its handlers write
    to, after any finite sequence of messages arriving on that socket the
    terminal has received its earlier writes followed by one write per
    message, in arrival order, so that the bytes rendered are the earlier
    bytes followed by the concatenation of the messages. *)
Theorem C8_messages_in_arrival_order (s : State) (socket : nat) (w : WebSocket)
    (t : Terminal) (msgs : list string) :
  sockets (term s) !! socket = Some w →
  terminals (term s) !! ws_terminal w = Some t →
  let s' := run (ESocketMessage socket <$> msgs) s in
  ∃ t', terminals (term s') !! ws_terminal w = Some t' ∧
        term_writes t' = term_writes t ++ msgs ∧
        rendered t' = rendered t +:+ foldr String.append "" msgs.
Proof.
  intros Hw Ht s'.
  destruct (arrivals_interleaved ((λ d, (socket, d)) <$> msgs) s (ws_terminal w) t Ht)
    as (_ & t' & Ht' & Hwr).
  assert (arrivals ((λ d, (socket, d)) <$> msgs) = ESocketMessage socket <$> msgs) as Ea.
  { unfold arrivals. rewrite <- list_fmap_compose. by apply list_fmap_ext. }
  rewrite Ea in Ht'. exists t'. split; [done|].
  assert (term_writes t' = term_writes t ++ msgs) as E.
  { rewrite Hwr. f_equal. clear -Hw. induction msgs as [|d msgs IH]; [done|].
    rewrite fmap_cons, filter_cons_True, fmap_cons, IH; [done|].
    unfold addressed_to. simpl. by rewrite Hw. }
  split; [done|]. unfold rendered. by rewrite E, foldr_append_app.
Qed.

(** ** The status indicator *)

Lemma status_id_inj (a b : string) : "status-" +:+ a = "status-" +:+ b ↔ a = b.
Proof. split; [apply (inj (String.app "status-")) | by intros ->]. Qed.

(** Writing through the element found under [status-<sid>] is writing the
    status indicator of session [sid]. *)
Lemma status_of_setStatus sid node text cls s :
  getStatusEl ("status-" +:+ sid) (dom s) = Some node →
  status_of sid (setStatus (Some node) text cls s) = Some (text, cls).
Proof.
  unfold getStatusEl, status_of, setStatus. simpl.
  destruct (consoleArea (dom s)) as [cs|]; simpl; [|done].
  assert (∀ c, c_session (set_status_of node text cls c) = c_session c) as Hf1.
  { intros c. unfold set_status_of. by case_decide. }
  assert (∀ c, c_has_status (set_status_of node text cls c) = c_has_status c) as Hf0.
  { intros c. unfold set_status_of. by case_decide. }
  assert (∀ c, c_node c = node →
            (c_status_text (set_status_of node text cls c),
             c_status_class (set_status_of node text cls c)) = (text, cls)) as Hf2.
  { intros c Hc. unfold set_status_of. by rewrite decide_True. }
  generalize dependent (set_status_of node text cls). intros f Hf1 Hf0 Hf2.
  induction cs as [|x cs IH]; simpl; [done|].
  unfold is_session at 1. rewrite Hf1, Hf0.
  destruct (c_has_status x); simpl; [|exact IH].
  destruct (bool_decide_reflect ("status-" +:+ c_session x = "status-" +:+ sid)) as [E|E].
  - intros Hn. apply (proj1 (status_id_inj _ _)) in E. simpl in Hn. injection Hn as Hn.
    rewrite bool_decide_true by done. simpl. f_equal. by apply Hf2.
  - intros Hn. assert (c_session x ≠ sid) as N by (by rewrite <- status_id_inj).
    rewrite bool_decide_false by done. auto.
Qed.

Lemma setStatus_frame el text cls s :
  cm (setStatus el text cls s) = cm s ∧ vnc (setStatus el text cls s) = vnc s ∧
  term (setStatus el text cls s) = term s ∧ env (setStatus el text cls s) = env s.
Proof. destruct el; done. Qed.

Lemma closeTab_tab_gone sid s : Inv s → sid ∉ (tab_keys (closeTab sid s)).*1.
Proof.
  intros HI. destruct (JsMap.get sid (sessions s)) as [session|] eqn:Hget.
  - destruct (core_proj _ _ _ _ (core_closeTab sid session s Hget)) as (_ & _ & ->).
    apply remove_first_key_gone, (inv_tab_ids _ HI).
  - rewrite closeTab_absent by done. intros Hin.
    apply list_elem_of_fmap in Hin as ([k nm] & ? & Hin). simpl in *. subst.
    destruct (inv_tab_session _ HI _ _ Hin) as (x & Hx & _). congruence.
Qed.

(** ** C2: a connect that fails *)

(** C2, as the code has it.  Text session: when its WebSocket reports an
    error, the status indicator of the session shows [Connection Error] in
    the error style and [closeTab(sessionId)] is scheduled with the fixed
    delay 2000; when a [closeTab] timer fires, the session is gone from the
    registry and from the tab bar.  Graphical session: a launch that fails is
    only reported.  With a falsy port nothing is scheduled or suspended and
    the session stays in the registry; when the RFB constructor throws, the
    status indicator shows [Error] in the error style, the toast [VNC
    connection failed: ...] is raised (after the clipboard tip, if the probe
    that precedes the constructor shows it), and again no timer is added and
    the registry is unchanged. *)
Theorem C2_failed_connect (s : State) :
  reachable s →
  (∀ socket w node,
     sockets (term s) !! socket = Some w →
     ws_statusEl w = Some node →
     getStatusEl ("status-" +:+ ws_session w) (dom s) = Some node →
     let s' := step (ESocketError socket) s in
     status_of (ws_session w) s' = Some ("Connection Error", error_class) ∧
     timers (env s') = timers (env s) ++ [(2000%Z, TCloseTab (ws_session w))] ∧
     sessions s' = sessions s) ∧
  (∀ i delay sid, timers (env s) !! i = Some (delay, TCloseTab sid) →
     let s' := step (ETimer i) s in
     JsMap.get sid (sessions s') = None ∧ sid ∉ (tab_keys s').*1) ∧
  (∀ w n p ic, truthy (default_null p) = false →
     let s' := openConsole w n "vnc" p ic s in
     timers (env s') = timers (env s) ∧ pending (env s') = pending (env s) ∧
     n ∈ names (sessions s') ∧
     (findSessionByName n (sessions s) = None → is_Some (consoleArea (dom s)) →
      toasts (env s') =
        toasts (env s) ++
        [("VNC connection failed: VNC port not available for this VM", "error")])) ∧
  (∀ i sid vm p canvas node probe msg,
     pending (env s) !! i = Some (KLaunchVnc sid vm p canvas (Some node)) →
     getStatusEl ("status-" +:+ sid) (dom s) = Some node →
     let s' := step (EResume i (RfbCtor probe (Some msg))) s in
     status_of sid s' = Some ("Error", error_class) ∧
     toasts (env s') =
       toasts (env s) ++ (if shows_tip probe s then [(clipboard_tip, "info")] else [])
                      ++ [("VNC connection failed: " +:+ msg, "error")] ∧
     timers (env s') = timers (env s) ∧ sessions s' = sessions s).
Proof.
  intros Hs. pose proof (reachable_Inv s Hs) as HI. split_and!.
  - intros socket w node Hw Hel Hst s'. unfold s'. simpl. rewrite Hw, Hel.
    unfold onSocketError. split_and!; try reflexivity.
    apply (status_of_setStatus _ _ _ _ s Hst).
  - intros i delay sid Hi s'. unfold s'. simpl. rewrite Hi. simpl.
    assert (Inv (drop_timer i s)) as HI' by (eapply Inv_core; [|exact HI]; reflexivity).
    split.
    + apply closeTab_removes, (inv_keys _ HI').
    + by apply closeTab_tab_gone.
  - intros w n p ic Hp s'.
    destruct (openConsole_vnc_no_port w n p ic s Hp) as (_ & Hpend & Htim & Htoast).
    split_and!; [done..| |].
    + apply openConsole_has_session.
    + intros Hf. apply Htoast. by rewrite Hf.
  - intros i sid vm p canvas node probe msg Hk Hst s'. unfold s'. simpl. rewrite Hk. simpl.
    destruct (clipboard_probe_frame probe (drop_pending i s)) as (C & D & _ & _ & T & _).
    split_and!.
    + apply status_of_setStatus. by rewrite D.
    + transitivity (toasts (env (clipboard_probe probe (drop_pending i s)))
                    ++ [("VNC connection failed: " +:+ msg, "error")]); [reflexivity|].
      rewrite clipboard_probe_toasts. by rewrite <- app_assoc.
    + exact T.
    + transitivity (sessions (clipboard_probe probe (drop_pending i s))); [reflexivity|].
      unfold sessions. by rewrite C.

Qed.

(** ** C3: the three ways a graphical transport ends *)

Lemma cleanupVncSession_client sid s :
  rfbClients (vnc (cleanupVncSession sid s)) !! sid = None ∧
  ∀ client c, rfbClients (vnc s) !! sid = Some client →
    rfbs (vnc s) !! client = Some c →
    ∃ c', rfbs (vnc (cleanupVncSession sid s)) !! client = Some c' ∧
          rfb_disconnected c' = true.
Proof.
  unfold cleanupVncSession, VNCViewer.cleanupSession. simpl.
  destruct (rfbClients (vnc s) !! sid) as [c0|] eqn:E; simpl.
  - split; [apply lookup_delete_eq|]. intros client c ? Hc; simplify_eq.
    rewrite list_lookup_alter_eq, Hc. simpl. eauto.
  - split; [done | by intros].
Qed.

(** C3, as the code has it.  For a graphical session in the registry: a
    clean disconnect is [closeTab] at once (after the status text is set), so
    the session and its tab are gone and no toast or timer is added; an
    unclean disconnect sets the status indicator to [Disconnected] in the
    error style and changes nothing else: registry, tabs, timers and the VNC
    module are as before, so no teardown is scheduled; a security failure sets
    [Security Error] and raises a toast, again scheduling nothing; and an
    explicit [closeTab] removes the session and its tab at once, with no timer,
    and disconnects and forgets the RFB client. *)
Theorem C3_graphical_outcomes (s : State) (sid : string) (session : Session)
    (el : option nat) :
  reachable s → JsMap.get sid (sessions s) = Some session → type session = "vnc" →
  (let s' := onRfbDisconnect sid el true s in
     s' = closeTab sid (setStatus el "Clean Disconnect" error_class s) ∧
     JsMap.get sid (sessions s') = None ∧ (sid ∉ (tab_keys s').*1) ∧ env s' = env s) ∧
  (let s' := onRfbDisconnect sid el false s in
     sessions s' = sessions s ∧ tab_keys s' = tab_keys s ∧ env s' = env s ∧ vnc s' = vnc s ∧
     (∀ node, el = Some node → getStatusEl ("status-" +:+ sid) (dom s) = Some node →
        status_of sid s' = Some ("Disconnected", error_class))) ∧
  (∀ status, let s' := onRfbSecurityFailure el status s in
     sessions s' = sessions s ∧ timers (env s') = timers (env s) ∧
     toasts (env s') = toasts (env s) ++ [("VNC Security Failure: " +:+ status, "error")] ∧
     (∀ node, el = Some node → getStatusEl ("status-" +:+ sid) (dom s) = Some node →
        status_of sid s' = Some ("Security Error", error_class))) ∧
  (let s' := closeTab sid s in
     JsMap.get sid (sessions s') = None ∧ (sid ∉ (tab_keys s').*1) ∧ env s' = env s ∧
     rfbClients (vnc s') !! sid = None ∧
     ∀ client c, rfbClients (vnc s) !! sid = Some client →
       rfbs (vnc s) !! client = Some c →
       ∃ c', rfbs (vnc s') !! client = Some c' ∧ rfb_disconnected c' = true).
Proof.
  intros Hs Hget Hty. pose proof (reachable_Inv s Hs) as HI.
  destruct (setStatus_frame el "Clean Disconnect" error_class s) as (F1 & F2 & F3 & F4).
  destruct (setStatus_frame el "Disconnected" error_class s) as (G1 & G2 & G3 & G4).
  destruct (setStatus_frame el "Security Error" error_class s) as (S1 & S2 & S3 & S4).
  split_and!.
  - cbv zeta. unfold onRfbDisconnect. fold error_class.
    set (s1 := setStatus el "Clean Disconnect" error_class s).
    assert (Inv s1) as HI1 by (eapply Inv_core; [apply core_setStatus | exact HI]).
    split_and!; [done| | |].
    + apply closeTab_removes, (inv_keys _ HI1).
    + by apply closeTab_tab_gone.
    + by rewrite closeTab_env.
  - cbv zeta. unfold onRfbDisconnect. fold error_class.
    destruct (core_proj _ _ _ _ (core_setStatus el "Disconnected" error_class s))
      as (E1 & _ & E3).
    split_and!; try done.
    intros node -> Hst. by apply status_of_setStatus.
  - intros status. cbv zeta. unfold onRfbSecurityFailure. fold error_class.
    split_and!.
    + unfold sessions. simpl. by rewrite S1.
    + simpl. by rewrite S4.
    + simpl. by rewrite S4.
    + intros node -> Hst. apply (status_of_setStatus _ _ _ _ s Hst).
  - cbv zeta. split_and!.
    + apply closeTab_removes, (inv_keys _ HI).
    + by apply closeTab_tab_gone.
    + apply closeTab_env.
    + rewrite closeTab_split, Hget, rest_vnc. unfold closeTab_cleanup.
      rewrite decide_True by done. apply cleanupVncSession_client.
    + rewrite closeTab_split, Hget, rest_vnc. unfold closeTab_cleanup.
      rewrite decide_True by done. apply cleanupVncSession_client.
Qed.

(** ** Concrete runs *)

Lemma enabledb_sound e s : enabledb e s = true → enabled e s.
Proof.
  destruct e; simpl; try done.
  - by intros ?%bool_decide_eq_true.
  - unfold has_tab. destruct (tabBar (dom s)) as [tabs|]; [|done].
    intros ?%bool_decide_eq_true. eauto.
Qed.

Lemma reachable_run es s : reachable s → run_ok es s = true → reachable (run es s).
Proof.
  revert s. induction es as [|e es IH]; intros s Hs Hok; [done|].
  simpl in Hok. apply andb_prop in Hok as [He Hr].
  apply (IH (step e s)); [|done].
  apply reachable_step; [done | by apply enabledb_sound].
Qed.

Lemma reachable_state_vm1 : reachable state_vm1.
Proof. apply reachable_run; [apply reachable_initial | by vm_compute]. Qed.

Lemma reachable_state_vm1_lxc1 : reachable state_vm1_lxc1.
Proof. apply reachable_run; [apply reachable_initial | by vm_compute]. Qed.

Lemma reachable_state_vm1_launching : reachable state_vm1_launching.
Proof. apply reachable_run; [apply reachable_initial | by vm_compute]. Qed.

Example state_vm1_registry :
  JsMap.keys (sessions state_vm1) = [sid1] ∧ active state_vm1 = Some sid1 ∧
  status_of sid1 state_vm1 = Some ("Connected", "console-status console-status-connected").
Proof. by vm_compute. Qed.

Example state_vm1_lxc1_registry :
  JsMap.keys (sessions state_vm1_lxc1) = [sid1; sid2] ∧
  active state_vm1_lxc1 = Some sid2 ∧
  term_writes <$> terminals (term state_vm1_lxc1) !! 0 =
    Some ["Connected to lxc1" +:+ CRLF; CRLF].
Proof. by vm_compute. Qed.

(** ** The theorems at concrete inputs *)

Lemma C1_witness :
  reachable state_vm1_lxc1 ∧
  session_count "vm1" state_vm1_lxc1 ≤ 1 ∧ tab_count "vm1" state_vm1_lxc1 ≤ 1 ∧
  tab_count "vm1" state_vm1_lxc1 = session_count "vm1" state_vm1_lxc1 ∧
  let s1 := openConsole world3 "vm2" "vnc" (JNum 5902) JNull state_vm1_lxc1 in
  tab_count "vm2" s1 = 1 ∧
  session_count "vm2" (openConsole world2 "vm2" "terminal" JNull JNull s1) = 1 ∧
  tab_count "vm2" (openConsole world2 "vm2" "terminal" JNull JNull s1) = 1.
Proof.
  split; [exact reachable_state_vm1_lxc1|].
  assert (is_Some (tabBar (dom state_vm1_lxc1))) as Hb by (vm_compute; eexists; reflexivity).
  destruct (C1_one_session_per_target state_vm1_lxc1 "vm1" reachable_state_vm1_lxc1)
    as (H1 & H2 & H0 & _).
  destruct (H0 Hb) as [_ H0'].
  destruct (C1_one_session_per_target state_vm1_lxc1 "vm2" reachable_state_vm1_lxc1)
    as (_ & _ & _ & H3).
  destruct (H3 world3 "vnc" (JNum 5902) JNull ltac:(vm_compute; reflexivity)) as (_ & H4 & H5).
  destruct (H4 Hb) as [_ H4'].
  destruct (H5 world2 "terminal" JNull JNull)
    as (sid & session & _ & _ & _ & _ & _ & _ & _ & _ & H6 & _ & H7).
  cbv zeta. split_and!; [exact H1 | exact H2 | exact H0' | exact H4' | exact H6 | exact (H7 Hb)].
Defined.

Lemma C2_witness :
  reachable state_vm1_lxc1 ∧
  (let s' := step (ESocketError 0) state_vm1_lxc1 in
   status_of sid2 s' = Some ("Connection Error", error_class) ∧
   timers (env s') = timers (env state_vm1_lxc1) ++ [(2000%Z, TCloseTab sid2)] ∧
   JsMap.get sid2 (sessions (step (ETimer 1) s')) = None) ∧
  reachable state_vm1_launching ∧
  let s' := step (EResume 0 (RfbCtor ReadRejects (Some "WebSocket is not defined")))
              state_vm1_launching in
  status_of sid1 s' = Some ("Error", error_class) ∧
  toasts (env s') =
    [(clipboard_tip, "info"); ("VNC connection failed: WebSocket is not defined", "error")] ∧
  timers (env s') = [] ∧ sessions s' = sessions state_vm1_launching.
Proof.
  split; [exact reachable_state_vm1_lxc1|]. cbv zeta.
  destruct (C2_failed_connect state_vm1_lxc1 reachable_state_vm1_lxc1) as (H1 & _).
  destruct (H1 0 (mkWs sid2 "lxc1" 0 (Some 1) OPEN []) 1
              ltac:(vm_compute; reflexivity) eq_refl ltac:(vm_compute; reflexivity))
    as (A & B & _).
  assert (reachable (step (ESocketError 0) state_vm1_lxc1)) as Hr
    by (apply reachable_step; [exact reachable_state_vm1_lxc1 | exact I]).
  destruct (C2_failed_connect _ Hr) as (_ & H2 & _).
  destruct (H2 1 2000%Z sid2 ltac:(vm_compute; reflexivity)) as [C _].
  destruct (C2_failed_connect state_vm1_launching reachable_state_vm1_launching)
    as (_ & _ & _ & H4).
  destruct (H4 0 sid1 "vm1" (JNum 5901) 0 0 ReadRejects "WebSocket is not defined"
              ltac:(vm_compute; reflexivity) ltac:(vm_compute; reflexivity))
    as (D & E & F & G).
  split_and!; [exact A | exact B | exact C | exact reachable_state_vm1_launching
              | exact D | exact E | exact F | exact G].
Defined.

Lemma C3_witness :
  reachable state_vm1 ∧
  JsMap.get sid1 (sessions state_vm1)
    = Some (mkSession sid1 "vm1" "vnc" (JNum 5901) JNull (Some (InstRfb 0))) ∧
  JsMap.get sid1 (sessions (onRfbDisconnect sid1 (Some 0) true state_vm1)) = None ∧
  sessions (onRfbDisconnect sid1 (Some 0) false state_vm1) = sessions state_vm1 ∧
  status_of sid1 (onRfbDisconnect sid1 (Some 0) false state_vm1)
    = Some ("Disconnected", error_class) ∧
  rfbClients (vnc (closeTab sid1 state_vm1)) !! sid1 = None.
Proof.
  assert (JsMap.get sid1 (sessions state_vm1)
          = Some (mkSession sid1 "vm1" "vnc" (JNum 5901) JNull (Some (InstRfb 0)))) as Hget
    by (vm_compute; reflexivity).
  destruct (C3_graphical_outcomes state_vm1 sid1 _ (Some 0) reachable_state_vm1 Hget eq_refl)
    as ((_ & A & _) & (B & _ & _ & _ & C) & _ & (_ & _ & _ & D & _)).
  split_and!; [exact reachable_state_vm1 | exact Hget | exact A | exact B | | exact D].
  apply (C 0 eq_refl). vm_compute. reflexivity.
Defined.

Lemma C4_witness :
  ("stop" = "stop" ∨ "stop" = "destroy") ∧
  timers (env (vncControl_resume sid1 "stop" (ApiJson (JStr "success")) state_vm1))
    = timers (env state_vm1) ++ [(2000%Z, TCloseTab sid1)] ∧
  vncControl_resume sid1 "stop" (ApiJson (JStr "error")) state_vm1 = state_vm1 ∧
  terminalControl_resume sid1 "stop" ApiNull state_vm1 = state_vm1.
Proof.
  assert ("stop" = "stop" ∨ "stop" = "destroy") as Hverb by (left; reflexivity).
  destruct (C4_teardown_iff_success state_vm1 sid1 "stop" (ApiJson (JStr "success")) Hverb)
    as (_ & _ & H1).
  destruct (C4_teardown_iff_success state_vm1 sid1 "stop" (ApiJson (JStr "error")) Hverb)
    as (_ & _ & H2).
  destruct (C4_teardown_iff_success state_vm1 sid1 "stop" ApiNull Hverb) as (_ & _ & H3).
  destruct (H1 vncControl_resume (or_introl eq_refl)) as (A & _).
  destruct (H2 vncControl_resume (or_introl eq_refl)) as (_ & _ & _ & _ & _ & _ & B & _).
  destruct (H3 terminalControl_resume (or_intror eq_refl)) as (_ & _ & _ & _ & _ & _ & C & _).
  split_and!; [exact Hverb | exact A | exact (B eq_refl) | exact (C eq_refl)].
Defined.

Lemma C5_witness :
  reachable state_vm1_lxc1 ∧ is_Some (JsMap.get sid2 (sessions state_vm1_lxc1)) ∧
  (∃ k, head (JsMap.keys (sessions (closeTab sid2 state_vm1_lxc1))) = Some k ∧
        active (closeTab sid2 state_vm1_lxc1) = Some k) ∧
  active (closeTab sid1 state_vm1_lxc1) = active state_vm1_lxc1.
Proof.
  assert (is_Some (JsMap.get sid2 (sessions state_vm1_lxc1))) as H2
    by (vm_compute; eexists; reflexivity).
  assert (is_Some (JsMap.get sid1 (sessions state_vm1_lxc1))) as H1
    by (vm_compute; eexists; reflexivity).
  destruct (C5_close_picks_foreground state_vm1_lxc1 sid2 reachable_state_vm1_lxc1 H2)
    as (_ & A & _).
  destruct (C5_close_picks_foreground state_vm1_lxc1 sid1 reachable_state_vm1_lxc1 H1)
    as (_ & _ & _ & B).
  split_and!; [exact reachable_state_vm1_lxc1 | exact H2 | | ].
  - apply A; [vm_compute; reflexivity | vm_compute; lia].
  - apply B. vm_compute. discriminate.
Defined.

Lemma C6_witness :
  wf_registry state_vm1_lxc1 ∧
  closeTab sid2 (closeTab sid2 state_vm1_lxc1) = closeTab sid2 state_vm1_lxc1.
Proof.
  assert (wf_registry state_vm1_lxc1) as Hwf.
  { unfold wf_registry.
    apply (bool_decide_unpack (NoDup (JsMap.keys (sessions state_vm1_lxc1)))).
    vm_compute. exact I. }
  split; [exact Hwf | exact (C6_close_idempotent state_vm1_lxc1 sid2 Hwf)].
Defined.

Lemma C7_witness :
  (JNull = JUndefined ∨ JNull = JNull ∨ JNull = JNum 0) ∧
  let s' := openConsole world1 "vm1" "vnc" JNull JNull (initial page0) in
  vnc s' = vnc (initial page0) ∧ pending (env s') = [] ∧
  toasts (env s') = [("VNC connection failed: VNC port not available for this VM", "error")].
Proof.
  assert (JNull = JUndefined ∨ JNull = JNull ∨ JNull = JNum 0) as Hp
    by (right; left; reflexivity).
  destruct (C7_no_port_no_transport (initial page0) world1 "vm1" JNull JNull
              sid1 "vm1" "canvas" "status" Hp) as (_ & A & B & _ & C).
  split; [exact Hp|]. cbv zeta. split_and!; [exact A | exact B |].
  apply C; [reflexivity | vm_compute; eexists; reflexivity].
Defined.

Lemma C8_witness :
  sockets (term state_vm1_lxc1) !! 0 = Some (mkWs sid2 "lxc1" 0 (Some 1) OPEN []) ∧
  ∃ t', terminals (term (run (ESocketMessage 0 <$> ["ro"; "ot@"; "lxc1:~# "])
                             state_vm1_lxc1)) !! 0 = Some t' ∧
        term_writes t' =
          ["Connected to lxc1" +:+ CRLF; CRLF] ++ ["ro"; "ot@"; "lxc1:~# "].
Proof.
  assert (sockets (term state_vm1_lxc1) !! 0 = Some (mkWs sid2 "lxc1" 0 (Some 1) OPEN []))
    as Hw by (vm_compute; reflexivity).
  split; [exact Hw|].
  destruct (C8_messages_in_arrival_order state_vm1_lxc1 0 _
              (mkTerminal ["Connected to lxc1" +:+ CRLF; CRLF] false (Some 0))
              ["ro"; "ot@"; "lxc1:~# "] Hw ltac:(vm_compute; reflexivity))
    as (t' & A & B & _).
  exists t'. split; [exact A | exact B].
Defined.

Lemma C9_witness :
  JsMap.get "console-0-none" (sessions state_vm1_lxc1) = None ∧
  vncControl "console-0-none" "stop" state_vm1_lxc1 = state_vm1_lxc1 ∧
  vncControl sid2 "stop" state_vm1_lxc1 = state_vm1_lxc1 ∧
  terminalControl sid1 "destroy" state_vm1_lxc1 = state_vm1_lxc1.
Proof.
  assert (JsMap.get "console-0-none" (sessions state_vm1_lxc1) = None) as H0
    by (vm_compute; reflexivity).
  destruct (C9_wrong_kind_is_noop state_vm1_lxc1 "console-0-none" "stop") as (A & _).
  destruct (C9_wrong_kind_is_noop state_vm1_lxc1 sid2 "stop") as (_ & B).
  destruct (C9_wrong_kind_is_noop state_vm1_lxc1 sid1 "destroy") as (_ & C).
  destruct (B (mkSession sid2 "lxc1" "terminal" JNull JNull (Some (InstTerm 0)))
              ltac:(vm_compute; reflexivity)) as (B1 & _).
  destruct (C (mkSession sid1 "vm1" "vnc" (JNum 5901) JNull (Some (InstRfb 0)))
              ltac:(vm_compute; reflexivity)) as (_ & C2).
  split_and!; [exact H0 | exact (proj1 (A H0)) | apply B1; discriminate | apply C2; discriminate].
Defined.

Lemma C10_witness :
  reachable state_vm1 ∧ findSessionByName "vm1" (sessions state_vm1) = Some sid1 ∧
  let s' := openConsole world2 "vm1" "terminal" (JNum 6000) (JStr "other.png") state_vm1 in
  sessions s' = sessions state_vm1 ∧ vnc s' = vnc state_vm1 ∧ active s' = Some sid1.
Proof.
  assert (findSessionByName "vm1" (sessions state_vm1) = Some sid1) as Hf
    by (vm_compute; reflexivity).
  destruct (C10_second_open_changes_nothing state_vm1 "vm1" sid1 world2 "terminal"
              (JNum 6000) (JStr "other.png") reachable_state_vm1 Hf)
    as (_ & _ & A & B & _ & _ & C).
  split; [exact reachable_state_vm1|]. split; [exact Hf|]. cbv zeta.
  split_and!; [exact A | exact B | exact C].
Defined.

(** ** Where the claims fail as stated *)

(** C2 as stated fails for a graphical session whose connect fails for want
    of a port: the failure is raised as a toast, but the status indicator
    stays [Connecting...] in the info style, no close is scheduled, nothing is
    suspended, and the session stays in the registry. *)
Lemma C2_counterexample :
  let s' := openConsole world1 "vm1" "vnc" JNull JNull (initial page0) in
  toasts (env s') = [("VNC connection failed: VNC port not available for this VM", "error")] ∧
  JsMap.keys (sessions s') = [sid1] ∧
  status_of sid1 s' = Some ("Connecting...", "console-status console-status-info") ∧
  timers (env s') = [] ∧ pending (env s') = [] ∧
  ¬ (shows_error sid1 s' ∧ close_scheduled sid1 s').
Proof.
  cbv zeta. split_and!; try (vm_compute; reflexivity).
  intros [_ [delay Hin]]. vm_compute in Hin. by apply elem_of_nil in Hin.
Qed.

(** C3 as stated fails at an unclean disconnect of a connected graphical
    session: the error state is displayed, but no teardown is scheduled and
    the session stays in the registry. *)
Lemma C3_counterexample :
  let s' := step (ERfbDisconnect 0 false) state_vm1 in
  status_of sid1 s' = Some ("Disconnected", error_class) ∧
  JsMap.keys (sessions s') = [sid1] ∧
  timers (env s') = [] ∧ pending (env s') = [] ∧
  ¬ close_scheduled sid1 s'.
Proof.
  cbv zeta. split_and!; try (vm_compute; reflexivity).
  intros [delay Hin]. vm_compute in Hin. by apply elem_of_nil in Hin.
Qed.

(** * Further properties of the console code *)

(** ** Closing a text session releases its transport *)

Lemma cleanupTerminalSession_maps sid s :
  let s' := cleanupTerminalSession sid s in
  termSockets (term s') !! sid = None ∧ termInstances (term s') !! sid = None ∧
  termFitAddons (term s') !! sid = None ∧ termSessions (term s') !! sid = None.
Proof.
  cbv zeta. unfold cleanupTerminalSession, TerminalManager.cleanupSession. simpl.
  destruct (termSockets (term s) !! sid) eqn:E1;
    destruct (termInstances (term s) !! sid) eqn:E2; simpl;
    rewrite ?lookup_delete_eq; done.
Qed.

Lemma cleanupTerminalSession_socket sid s h w :
  termSockets (term s) !! sid = Some h → sockets (term s) !! h = Some w →
  sockets (term (cleanupTerminalSession sid s)) !! h = Some (TerminalManager.close_socket w).
Proof.
  intros E1 Hw. unfold cleanupTerminalSession, TerminalManager.cleanupSession. simpl.
  rewrite E1. destruct (termInstances (term s) !! sid); simpl;
    by rewrite list_lookup_alter_eq, Hw.
Qed.

Lemma cleanupTerminalSession_terminal sid s h t :
  termInstances (term s) !! sid = Some h → terminals (term s) !! h = Some t →
  terminals (term (cleanupTerminalSession sid s)) !! h = Some (TerminalManager.dispose t).
Proof.
  intros E1 Ht. unfold cleanupTerminalSession, TerminalManager.cleanupSession. simpl.
  rewrite E1. destruct (termSockets (term s) !! sid); simpl;
    by rewrite list_lookup_alter_eq, Ht.
Qed.

Lemma closeTab_terminal sid session s :
  JsMap.get sid (sessions s) = Some session → type session = "terminal" →
  term (closeTab sid s) = term (cleanupTerminalSession sid s) ∧
  vnc (closeTab sid s) = vnc s.
Proof.
  intros Hget Hty. rewrite closeTab_split, Hget, rest_term, rest_vnc.
  unfold closeTab_cleanup. rewrite Hty. simpl. done.
Qed.

(** X1.  Closing a text session releases its transport in the same turn:
    the session id is gone from the four maps of the terminal module, the
    socket registered for it has had [close()] called (a connecting or open
    socket is closing; what it had sent is kept), the terminal registered for
    it is disposed (what it had been written is kept), and neither a timer nor
    a toast is added.  The VNC module is not touched. *)
Theorem X1_close_releases_text_transport (s : State) (sid : string) (session : Session) :
  JsMap.get sid (sessions s) = Some session → type session = "terminal" →
  let s' := closeTab sid s in
  (termSockets (term s') !! sid = None ∧ termInstances (term s') !! sid = None ∧
   termFitAddons (term s') !! sid = None ∧ termSessions (term s') !! sid = None) ∧
  (∀ h w, termSockets (term s) !! sid = Some h → sockets (term s) !! h = Some w →
     ∃ w', sockets (term s') !! h = Some w' ∧
           ws_readyState w' = match ws_readyState w with
                              | CONNECTING | OPEN => CLOSING
                              | st => st
                              end ∧
           ws_sent w' = ws_sent w) ∧
  (∀ h t, termInstances (term s) !! sid = Some h → terminals (term s) !! h = Some t →
     ∃ t', terminals (term s') !! h = Some t' ∧ term_disposed t' = true ∧
           term_writes t' = term_writes t) ∧
  env s' = env s ∧ vnc s' = vnc s.
Proof.
  intros Hget Hty s'. destruct (closeTab_terminal sid session s Hget Hty) as [Et Ev].
  unfold s'. rewrite Et, Ev, closeTab_env. split_and!; try done.
  - apply cleanupTerminalSession_maps.
  - apply cleanupTerminalSession_maps.
  - apply cleanupTerminalSession_maps.
  - apply cleanupTerminalSession_maps.
  - intros h w E Hw. eexists. split; [by eapply cleanupTerminalSession_socket|]. done.
  - intros h t E Ht. eexists. split; [by eapply cleanupTerminalSession_terminal|]. done.
Qed.

(** ** Closing one session leaves the others alone *)

Lemma status_of_list sid s :
  status_of sid s =
  snd <$> find_first (λ p, p.1.2 && is_session sid p.1.1) (status_list s).
Proof.
  unfold status_of, status_list. destruct (consoleArea (dom s)) as [cs|]; simpl; [|done].
  induction cs as [|c cs IH]; simpl; [done|].
  destruct (c_has_status c && is_session sid (c_session c)); simpl; [done | exact IH].
Qed.

Lemma status_list_switchToTab k s : status_list (switchToTab k s) = status_list s.
Proof.
  unfold status_list, switchToTab. simpl.
  destruct (consoleArea (dom s)) as [cs|]; simpl; [|done].
  rewrite <- list_fmap_compose. by apply list_fmap_ext.
Qed.

Lemma status_list_rest sid s :
  status_list (closeTab_rest sid s) =
  remove_first (λ p, is_session sid p.1.1) (status_list s).
Proof.
  assert (∀ s4, status_list s4 = status_list
            (with_dom (map_containers
               (remove_first (λ c, is_session sid (c_session c)))) s) →
          status_list s4 = remove_first (λ p, is_session sid p.1.1) (status_list s)) as Hrm.
  { intros s4 ->. unfold status_list. simpl.
    destruct (consoleArea (dom s)) as [cs|]; simpl; [|done].
    apply (remove_first_fmap
             (λ c, ((c_session c, c_has_status c), (c_status_text c, c_status_class c)))
             (λ p, is_session sid p.1.1)). }
  unfold closeTab_rest. cbv zeta. case_decide; [|by apply Hrm].
  case_bool_decide; [|by apply Hrm].
  destruct (JsMap.first_key _); [|by apply Hrm].
  rewrite status_list_switchToTab. by apply Hrm.
Qed.

Lemma status_list_cleanup session sid s :
  status_list (closeTab_cleanup session sid s) = status_list s.
Proof. unfold status_list. by rewrite cleanup_dom. Qed.

Lemma find_first_remove_other {A} (p q : A → bool) (l : list A) :
  (∀ x, q x = true → p x = false) →
  find_first q (remove_first p l) = find_first q l.
Proof.
  intros Hpq. induction l as [|x l IH]; simpl; [done|].
  destruct (p x) eqn:Hp; simpl.
  - destruct (q x) eqn:Hq; [|done]. apply Hpq in Hq. congruence.
  - destruct (q x); [done | exact IH].
Qed.

Lemma cleanupVncSession_other sid s :
  (∀ sid', sid' ≠ sid →
     rfbClients (vnc (cleanupVncSession sid s)) !! sid' = rfbClients (vnc s) !! sid' ∧
     vncSessions (vnc (cleanupVncSession sid s)) !! sid' = vncSessions (vnc s) !! sid') ∧
  (∀ h, rfbClients (vnc s) !! sid ≠ Some h →
     rfbs (vnc (cleanupVncSession sid s)) !! h = rfbs (vnc s) !! h).
Proof.
  unfold cleanupVncSession, VNCViewer.cleanupSession. simpl.
  destruct (rfbClients (vnc s) !! sid) as [c|] eqn:E; simpl; split.
  - intros sid' Hne. by rewrite !lookup_delete_ne.
  - intros h Hh. rewrite list_lookup_alter_ne; [done | congruence].
  - intros sid' Hne. by rewrite lookup_delete_ne.
  - done.
Qed.

Lemma cleanupTerminalSession_other sid s :
  (∀ sid', sid' ≠ sid →
     termSockets (term (cleanupTerminalSession sid s)) !! sid' = termSockets (term s) !! sid' ∧
     termInstances (term (cleanupTerminalSession sid s)) !! sid'
       = termInstances (term s) !! sid' ∧
     termFitAddons (term (cleanupTerminalSession sid s)) !! sid'
       = termFitAddons (term s) !! sid' ∧
     termSessions (term (cleanupTerminalSession sid s)) !! sid'
       = termSessions (term s) !! sid') ∧
  (∀ h, termSockets (term s) !! sid ≠ Some h →
     sockets (term (cleanupTerminalSession sid s)) !! h = sockets (term s) !! h) ∧
  (∀ h, termInstances (term s) !! sid ≠ Some h →
     terminals (term (cleanupTerminalSession sid s)) !! h = terminals (term s) !! h).
Proof.
  unfold cleanupTerminalSession, TerminalManager.cleanupSession. simpl.
  destruct (termSockets (term s) !! sid) as [a|] eqn:E1;
    destruct (termInstances (term s) !! sid) as [b|] eqn:E2; simpl; split_and!;
    try (intros sid' Hne; by rewrite ?lookup_delete_ne);
    try (intros h Hh; rewrite ?list_lookup_alter_ne; [done | congruence]);
    try done.
Qed.

(** X2.  [closeTab(sid)] does not reach any other session: for every other
    id the registry entry, the entries of the six transport maps and the
    status indicator are what they were; an RFB client, socket or terminal
    that is not the one registered for [sid] is left as it is; and nothing is
    scheduled or reported. *)
Theorem X2_close_leaves_siblings (s : State) (sid sid' : string) :
  sid' ≠ sid →
  let s' := closeTab sid s in
  JsMap.get sid' (sessions s') = JsMap.get sid' (sessions s) ∧
  status_of sid' s' = status_of sid' s ∧
  (rfbClients (vnc s') !! sid' = rfbClients (vnc s) !! sid' ∧
   vncSessions (vnc s') !! sid' = vncSessions (vnc s) !! sid' ∧
   termSockets (term s') !! sid' = termSockets (term s) !! sid' ∧
   termInstances (term s') !! sid' = termInstances (term s) !! sid' ∧
   termFitAddons (term s') !! sid' = termFitAddons (term s) !! sid' ∧
   termSessions (term s') !! sid' = termSessions (term s) !! sid') ∧
  (∀ h, rfbClients (vnc s) !! sid ≠ Some h → rfbs (vnc s') !! h = rfbs (vnc s) !! h) ∧
  (∀ h, termSockets (term s) !! sid ≠ Some h →
     sockets (term s') !! h = sockets (term s) !! h) ∧
  (∀ h, termInstances (term s) !! sid ≠ Some h →
     terminals (term s') !! h = terminals (term s) !! h) ∧
  env s' = env s.
Proof.
  intros Hne s'. unfold s'.
  split; [rewrite closeTab_sessions; by apply JsMapFacts.get_delete_ne|].
  rewrite closeTab_env. rewrite closeTab_split.
  destruct (JsMap.get sid (sessions s)) as [session|] eqn:Hget; [|done].
  split.
  { rewrite !status_of_list, status_list_rest, status_list_cleanup.
    f_equal. apply find_first_remove_other. intros [[k b] st]. unfold is_session. simpl.
    intros [_ ->%bool_decide_eq_true]%andb_true_iff. by apply bool_decide_eq_false. }
  rewrite rest_vnc, rest_term. unfold closeTab_cleanup.
  destruct (cleanupVncSession_other sid s) as (V1 & V2).
  destruct (cleanupTerminalSession_other sid s) as (T1 & T2 & T3).
  destruct (decide (type session = "vnc")); [|destruct (decide (type session = "terminal"))].
  - destruct (V1 sid' Hne) as [-> ->]. split_and!; try done.
  - destruct (T1 sid' Hne) as (-> & -> & -> & ->). split_and!; try done.
  - done.
Qed.

(** ** Keystrokes go to the socket, in order, while it is open *)

Lemma step_typed_open th t sh w d s :
  terminals (term s) !! th = Some t → term_socket t = Some sh →
  sockets (term s) !! sh = Some w → ws_readyState w = OPEN →
  step (ETerminalData th d) s = with_sockets (alter (send d) sh) s.
Proof.
  intros Ht Hs Hw Ho. simpl. rewrite Ht, Hs. unfold onData. by rewrite Hw, Ho.
Qed.

Lemma step_typed_not_open th t sh w d s :
  terminals (term s) !! th = Some t → term_socket t = Some sh →
  sockets (term s) !! sh = Some w → ws_readyState w ≠ OPEN →
  step (ETerminalData th d) s = s.
Proof.
  intros Ht Hs Hw Ho. simpl. rewrite Ht, Hs. unfold onData. rewrite Hw.
  by destruct (ws_readyState w).
Qed.

Lemma run_cons e es s : run (e :: es) s = run es (step e s).
Proof. reflexivity. Qed.

Lemma run_app es es' s : run (es ++ es') s = run es' (run es s).
Proof. unfold run. apply foldl_app. Qed.

Lemma typed_cons th d keys : typed th (d :: keys) = ETerminalData th d :: typed th keys.
Proof. reflexivity. Qed.

(** X3.  What is typed into a terminal is sent on the socket its [onData]
    listener holds, one [send] per keystroke and in the order typed, as long
    as that socket is open; nothing is written to the terminal itself (no
    local echo) and nothing else changes.  While the socket is connecting,
    closing or closed the keystrokes are dropped: the state does not change at
    all. *)
Theorem X3_keystrokes_forwarded_in_order (s : State) (th sh : nat) (t : Terminal)
    (w : WebSocket) (keys : list string) :
  terminals (term s) !! th = Some t → term_socket t = Some sh →
  sockets (term s) !! sh = Some w →
  let s' := run (typed th keys) s in
  (ws_readyState w = OPEN →
     (∃ w', sockets (term s') !! sh = Some w' ∧ ws_sent w' = ws_sent w ++ keys ∧
            ws_readyState w' = OPEN) ∧
     terminals (term s') = terminals (term s) ∧
     cm s' = cm s ∧ dom s' = dom s ∧ vnc s' = vnc s ∧ env s' = env s) ∧
  (ws_readyState w ≠ OPEN → s' = s).
Proof.
  intros Ht Hs Hw. cbv zeta. split.
  - intros Ho. revert s w Ht Hw Ho.
    induction keys as [|d keys IH]; intros s w Ht Hw Ho.
    + split; [|done]. exists w. by rewrite app_nil_r.
    + rewrite typed_cons, run_cons.
      rewrite (step_typed_open th t sh w d s) by done.
      set (s1 := with_sockets (alter (send d) sh) s).
      destruct (IH s1 (send d w)) as ((w' & Hw' & Hsent & Ho') & Hterm & H1 & H2 & H3 & H4).
      * done.
      * unfold s1. simpl. by rewrite list_lookup_alter_eq, Hw.
      * done.
      * split; [|by rewrite Hterm, H1, H2, H3, H4].
        exists w'. split; [done|]. split; [|done].
        rewrite Hsent. simpl. by rewrite <- app_assoc.
  - intros Hn. induction keys as [|d keys IH]; [done|].
    rewrite typed_cons, run_cons.
    by rewrite (step_typed_not_open th t sh w d s).
Qed.

(** ** A text transport that fails and then closes *)

Lemma onSocketError_effect sid th el s :
  let s' := onSocketError sid th el s in
  cm s' = cm s ∧ vnc s' = vnc s ∧
  timers (env s') = timers (env s) ++ [(2000%Z, TCloseTab sid)] ∧
  toasts (env s') = toasts (env s) ∧ pending (env s') = pending (env s) ∧
  sockets (term s') = sockets (term s) ∧
  terminals (term s') =
    alter (λ x, mkTerminal (term_writes x ++ [error_banner]) (term_disposed x) (term_socket x))
          th (terminals (term s)).
Proof.
  destruct (setStatus_frame el "Connection Error" "console-status console-status-error" s)
    as (F1 & F2 & F3 & F4).
  cbv zeta. unfold onSocketError, setTimeout, writeln, write. simpl.
  rewrite F1, F2, F3, F4. done.
Qed.

Lemma onSocketClose_effect sid th el s :
  let s' := onSocketClose sid th el s in
  cm s' = cm s ∧ vnc s' = vnc s ∧
  timers (env s') = timers (env s) ++ [(2000%Z, TCloseTab sid)] ∧
  toasts (env s') = toasts (env s) ∧ pending (env s') = pending (env s) ∧
  sockets (term s') = sockets (term s) ∧
  terminals (term s') =
    alter (λ x, mkTerminal (term_writes x ++ [closed_banner]) (term_disposed x) (term_socket x))
          th (terminals (term s)).
Proof.
  destruct (setStatus_frame el "Disconnected" "console-status console-status-error" s)
    as (F1 & F2 & F3 & F4).
  cbv zeta. unfold onSocketClose, setTimeout, writeln, write. simpl.
  rewrite F1, F2, F3, F4. done.
Qed.

Lemma drop_nth_app_head {A} (l : list A) (x : A) (r : list A) :
  drop_nth (length l) (l ++ x :: r) = l ++ r.
Proof.
  unfold drop_nth. rewrite take_app_length.
  replace (S (length l)) with (length l + 1) by lia.
  rewrite <- drop_drop, drop_app_length. done.
Qed.

(** X4.  When the socket of a text session reports an error and then closes,
    each of the two handlers writes its banner to the terminal (error banner
    first) and schedules its own [closeTab(sessionId)] after 2000 ms; the
    socket is closed and the registry is untouched meanwhile.  The first of
    the two timers to fire removes the session; the second then changes
    nothing but the timer list. *)
Theorem X4_error_then_close (s : State) (sh : nat) (w : WebSocket) :
  wf_registry s → sockets (term s) !! sh = Some w →
  let sid := ws_session w in
  let s2 := run [ESocketError sh; ESocketClose sh] s in
  timers (env s2) = timers (env s) ++ [(2000%Z, TCloseTab sid); (2000%Z, TCloseTab sid)] ∧
  sessions s2 = sessions s ∧ toasts (env s2) = toasts (env s) ∧
  (∀ t, terminals (term s) !! ws_terminal w = Some t →
     ∃ t', terminals (term s2) !! ws_terminal w = Some t' ∧
           term_writes t' = term_writes t ++ [error_banner; closed_banner]) ∧
  (∃ w', sockets (term s2) !! sh = Some w' ∧ ws_readyState w' = CLOSED) ∧
  let n := length (timers (env s)) in
  let s3 := step (ETimer n) s2 in
  JsMap.get sid (sessions s3) = None ∧
  timers (env s3) = timers (env s) ++ [(2000%Z, TCloseTab sid)] ∧
  step (ETimer n) s3 = drop_timer n s3.
Proof.
  intros Hwf Hw sid s2.
  set (s1 := step (ESocketError sh) s).
  assert (s1 = onSocketError sid (ws_terminal w) (ws_statusEl w) s) as E1
    by (unfold s1; simpl; by rewrite Hw).
  destruct (onSocketError_effect sid (ws_terminal w) (ws_statusEl w) s)
    as (A1 & A2 & A3 & A4 & A5 & A6 & A7). rewrite <- E1 in A1, A2, A3, A4, A5, A6, A7.
  set (s1' := with_sockets (alter (set_readyState CLOSED) sh) s1).
  assert (s2 = onSocketClose sid (ws_terminal w) (ws_statusEl w) s1') as E2.
  { unfold s2. rewrite run_cons. fold s1. unfold run. simpl. by rewrite A6, Hw. }
  destruct (onSocketClose_effect sid (ws_terminal w) (ws_statusEl w) s1')
    as (B1 & B2 & B3 & B4 & B5 & B6 & B7). rewrite <- E2 in B1, B2, B3, B4, B5, B6, B7.
  assert (timers (env s2)
          = timers (env s) ++ [(2000%Z, TCloseTab sid); (2000%Z, TCloseTab sid)]) as Ht.
  { rewrite B3. unfold s1'. simpl. rewrite A3. by rewrite <- app_assoc. }
  assert (sessions s2 = sessions s) as Hs.
  { unfold sessions. rewrite B1. unfold s1'. simpl. by rewrite A1. }
  split_and!; [done | done | | | |].
  - rewrite B4. unfold s1'. simpl. by rewrite A4.
  - intros t Htm. rewrite B7. unfold s1'. simpl. rewrite A7.
    rewrite !list_lookup_alter_eq, Htm. simpl. eexists. split; [done|]. simpl.
    by rewrite <- app_assoc.
  - rewrite B6. unfold s1'. simpl. rewrite A6, list_lookup_alter_eq, Hw. simpl. eauto.
  - cbv zeta. set (n := length (timers (env s))).
    assert (timers (env s2) !! n = Some (2000%Z, TCloseTab sid)) as Hn.
    { rewrite Ht. by rewrite list_lookup_middle. }
    set (s3 := step (ETimer n) s2).
    assert (s3 = closeTab sid (drop_timer n s2)) as E3 by (unfold s3; simpl; by rewrite Hn).
    assert (timers (env s3) = timers (env s) ++ [(2000%Z, TCloseTab sid)]) as Ht3.
    { rewrite E3, closeTab_env. simpl. rewrite Ht. apply drop_nth_app_head. }
    assert (JsMap.get sid (sessions s3) = None) as Hgone.
    { rewrite E3. apply closeTab_removes. unfold wf_registry.
      change (sessions (drop_timer n s2)) with (sessions s2). by rewrite Hs. }
    split_and!; [done..|].
    simpl. rewrite Ht3, list_lookup_middle by done. simpl.
    apply closeTab_absent. exact Hgone.
Qed.

(** ** Opening a console and closing it again *)

Lemma delete_set {V} k (v : V) m : JsMap.delete k (JsMap.set k v m) = JsMap.delete k m.
Proof.
  induction m as [|[k0 v0] m IH]; simpl.
  - by rewrite decide_True.
  - destruct (decide (k = k0)) as [->|N]; simpl.
    + by rewrite decide_True.
    + rewrite decide_False by done. by rewrite IH.
Qed.

Lemma assign_instance_shape sid i s :
  active (assign_instance sid i s) = active s ∧
  tab_keys (assign_instance sid i s) = tab_keys s ∧
  JsMap.delete sid (sessions (assign_instance sid i s)) = JsMap.delete sid (sessions s).
Proof.
  split_and!; [done..|].
  change (sessions (assign_instance sid i s))
    with (match JsMap.get sid (sessions s) with
          | Some session => JsMap.set sid (set_instance i session) (sessions s)
          | None => sessions s
          end).
  destruct (JsMap.get sid (sessions s)); [apply delete_set | done].
Qed.

Lemma initVncSession_shape sid n p m s :
  active (initVncSession sid n p m s) = active s ∧
  tab_keys (initVncSession sid n p m s) = tab_keys s ∧
  JsMap.delete sid (sessions (initVncSession sid n p m s)) = JsMap.delete sid (sessions s).
Proof.
  unfold initVncSession.
  destruct (JsMap.get sid (sessions s)); [|done].
  destruct (consoleArea (dom s)); [|done].
  set (s1 := with_dom _ s).
  pose proof (core_launchVncInContainer sid n p ("canvas-" +:+ sid) ("status-" +:+ sid) s1) as E.
  destruct (launchVncInContainer _ _ _ _ _ s1) as [s2 [msg| |]];
    simpl in E; apply core_proj in E as (E1 & E2 & E3);
    unfold initVncSession_settle.
  - change (sessions s1) with (sessions s) in E1. change (active s1) with (active s) in E2.
    change (tab_keys s1) with (tab_keys s) in E3.
    rewrite <- E1, <- E2, <- E3. done.
  - change (sessions s1) with (sessions s) in E1. change (active s1) with (active s) in E2.
    change (tab_keys s1) with (tab_keys s) in E3.
    rewrite <- E1, <- E2, <- E3. done.
  - destruct (assign_instance_shape sid (InstRfb <$> VNCViewer.getRfbClient sid s2) s2)
      as (-> & -> & ->).
    change (sessions s1) with (sessions s) in E1. change (active s1) with (active s) in E2.
    change (tab_keys s1) with (tab_keys s) in E3.
    rewrite <- E1, <- E2, <- E3. done.
Qed.

Lemma initTerminalSession_shape sid n ctor m s :
  active (initTerminalSession sid n ctor m s) = active s ∧
  tab_keys (initTerminalSession sid n ctor m s) = tab_keys s ∧
  JsMap.delete sid (sessions (initTerminalSession sid n ctor m s))
    = JsMap.delete sid (sessions s).
Proof.
  unfold initTerminalSession.
  destruct (JsMap.get sid (sessions s)); [|done].
  destruct (consoleArea (dom s)); [|done].
  set (s1 := with_dom _ s).
  pose proof (core_launchTerminalInContainer sid n ("terminal-" +:+ sid)
                ("status-" +:+ sid) ctor s1) as E.
  destruct (launchTerminalInContainer _ _ _ _ _ s1) as [s2 [msg| |]];
    simpl in E; apply core_proj in E as (E1 & E2 & E3);
    unfold initTerminalSession_settle.
  - change (sessions s1) with (sessions s) in E1. change (active s1) with (active s) in E2.
    change (tab_keys s1) with (tab_keys s) in E3.
    rewrite <- E1, <- E2, <- E3. done.
  - change (sessions s1) with (sessions s) in E1. change (active s1) with (active s) in E2.
    change (tab_keys s1) with (tab_keys s) in E3.
    rewrite <- E1, <- E2, <- E3. done.
  - destruct (assign_instance_shape sid (InstTerm <$> TerminalManager.getTermInstance sid s2) s2)
      as (-> & -> & ->).
    change (sessions s1) with (sessions s) in E1. change (active s1) with (active s) in E2.
    change (tab_keys s1) with (tab_keys s) in E3.
    rewrite <- E1, <- E2, <- E3. done.
Qed.

(** The registry after [openConsole] of a target that had no session, up to
    the instance of the new session. *)
Lemma openConsole_new_shape w T ty p ic s :
  findSessionByName T (sessions s) = None →
  let s1 := openConsole w T ty p ic s in
  active s1 = Some (newSessionId w) ∧
  tab_keys s1 = (if tabBar (dom s) is Some _
                 then tab_keys s ++ [(newSessionId w, T)] else tab_keys s) ∧
  JsMap.delete (newSessionId w) (sessions s1) = JsMap.delete (newSessionId w) (sessions s).
Proof.
  intros Hf. cbv zeta. rewrite openConsole_new by (by rewrite Hf). cbv zeta.
  set (s4 := registered _ _ _ _ _ _).
  destruct (core_proj _ _ _ _ (core_registered w T ty (default_null p) (default_null ic) s))
    as (R1 & R2 & R3). fold s4 in R1, R2, R3.
  assert (JsMap.delete (newSessionId w) (sessions s4)
          = JsMap.delete (newSessionId w) (sessions s)) as R1' by (rewrite R1; apply delete_set).
  destruct (decide (ty = "vnc")); [|destruct (decide (ty = "terminal"))].
  - destruct (initVncSession_shape (newSessionId w) T (default_null p) (markup_of w T) s4)
      as (-> & -> & ->).
    done.
  - destruct (initTerminalSession_shape (newSessionId w) T (wsCtor w) (markup_of w T) s4)
      as (-> & -> & ->).
    done.
  - done.
Qed.

Lemma remove_first_app_last {B} (k : string) (l : list (string * B)) (b : B) :
  k ∉ l.*1 → remove_first (λ p, is_session k p.1) (l ++ [(k, b)]) = l.
Proof.
  induction l as [|[k0 b0] l IH]; simpl.
  - intros _. unfold is_session. simpl. by rewrite bool_decide_true.
  - rewrite not_elem_of_cons. intros [Hne Hl]. unfold is_session at 1. simpl.
    rewrite bool_decide_false by congruence. f_equal. by apply IH.
Qed.

(** X5.  In a reachable state, opening a console for a target that has no
    session and closing that session again gives back the registry and the
    tab bar exactly as they were.  The foreground does not come back: while
    the console is open it is the new session, and after the close it is the
    oldest session of the registry (none if the registry is empty), whichever
    session was in front before. *)
Theorem X5_open_then_close (s : State) (w : World) (T ty : string) (p ic : JsVal) :
  reachable s → enabled (EOpenConsole w T ty p ic) s →
  findSessionByName T (sessions s) = None →
  let s1 := openConsole w T ty p ic s in
  let s2 := closeTab (newSessionId w) s1 in
  active s1 = Some (newSessionId w) ∧
  sessions s2 = sessions s ∧ tab_keys s2 = tab_keys s ∧
  active s2 = JsMap.first_key (sessions s).
Proof.
  intros Hs Hen Hf s1 s2. pose proof (reachable_Inv s Hs) as HI. simpl in Hen.
  destruct (openConsole_new_shape w T ty p ic s Hf) as (A1 & A2 & A3). fold s1 in A1, A2, A3.
  assert (is_Some (JsMap.get (newSessionId w) (sessions s1))) as [x Hx].
  { apply JsMapFacts.get_Some_keys. unfold s1.
    rewrite openConsole_appends by done. apply elem_of_app. right. left. }
  destruct (core_proj _ _ _ _ (core_closeTab (newSessionId w) x s1 Hx)) as (C1 & C2 & C3).
  fold s2 in C1, C2, C3.
  assert (sessions s2 = sessions s) as E1.
  { rewrite C1, A3. by apply JsMapFacts.delete_absent. }
  split_and!; [done | done | |].
  - rewrite C3, A2. destruct (tabBar (dom s)) eqn:Etb.
    + apply remove_first_app_last. intros Hin.
      apply list_elem_of_fmap in Hin as ([k nm] & ? & Hin). simpl in *. subst.
      destruct (inv_tab_session _ HI _ _ Hin) as (y & Hy & _). congruence.
    + unfold tab_keys. rewrite Etb. done.
  - rewrite C2, decide_True by done. by rewrite <- C1, E1.
Qed.

(** ** Launching a text session *)

Lemma registered_frame w n ty p ic s :
  let s4 := registered w n ty p ic s in
  vnc s4 = vnc s ∧ term s4 = term s ∧ env s4 = env s ∧
  nextNode (dom s4) = nextNode (dom s) ∧
  consoleArea (dom s4) =
    fmap (M:=list) (show_container (newSessionId w)) <$> consoleArea (dom s) ∧
  sessions s4 = JsMap.set (newSessionId w) (mkSession (newSessionId w) n ty p ic None)
                          (sessions s).
Proof. cbv zeta. unfold registered, switchToTab, createTab. simpl. split_and!; done. Qed.

Lemma find_first_app_last {A} (q : A → bool) (l : list A) (x : A) :
  q x = true → is_Some (find_first q (l ++ [x])).
Proof.
  intros Hq. induction l as [|y l IH]; simpl.
  - rewrite Hq. eauto.
  - destruct (q y); eauto.
Qed.

Lemma markup_of_plain w n : plain n = true → markup_of w n = intact.
Proof. intros H. unfold markup_of. by rewrite H. Qed.

Lemma getTerminalEl_appended sid n m d :
  m_surface m = true → is_Some (consoleArea d) →
  is_Some (getTerminalEl ("terminal-" +:+ sid) (append_container sid "terminal-content" n m d)).
Proof.
  intros Hm [cs Hcs]. unfold getTerminalEl, append_container. simpl. rewrite Hcs. simpl.
  apply fmap_is_Some, find_first_app_last. simpl.
  by rewrite Hm, !bool_decide_true.
Qed.

(** The registry entry of the new session while [openConsole] initialises it. *)
Lemma registered_get w n ty p ic s :
  JsMap.get (newSessionId w) (sessions (registered w n ty p ic s))
  = Some (mkSession (newSessionId w) n ty p ic None).
Proof.
  destruct (registered_frame w n ty p ic s) as (_ & _ & _ & _ & _ & ->).
  rewrite JsMapFacts.get_set. by rewrite decide_True.
Qed.

(** X6.  A text console cannot be launched while xterm.js or its FitAddon is
    not loaded: [openConsole] of type [terminal] for a new target then
    registers the session and reports [Terminal connection failed: ...] with
    the missing library, and that is all.  No terminal and no socket is
    created, the terminal and VNC modules are untouched, nothing is scheduled
    or suspended, and the session stays in the registry without an instance. *)
Theorem X6_text_launch_needs_libraries (s : State) (w : World) (n : string) (p ic : JsVal) :
  findSessionByName n (sessions s) = None → is_Some (consoleArea (dom s)) →
  xtermLoaded (term s) = false ∨ fitAddonLoaded (term s) = false →
  let s' := openConsole w n "terminal" p ic s in
  term s' = term s ∧ vnc s' = vnc s ∧
  timers (env s') = timers (env s) ∧ pending (env s') = pending (env s) ∧
  toasts (env s') =
    toasts (env s) ++
    [("Terminal connection failed: " +:+
      (if xtermLoaded (term s) then "FitAddon not found"
       else "xterm.js Terminal class not found"), "error")] ∧
  JsMap.get (newSessionId w) (sessions s')
    = Some (mkSession (newSessionId w) n "terminal" (default_null p) (default_null ic) None).
Proof.
  intros Hf [cs Hcs] Hlib. cbv zeta.
  rewrite openConsole_new by (by rewrite Hf). cbv zeta.
  rewrite decide_False by done. rewrite decide_True by done.
  set (s4 := registered _ _ _ _ _ _).
  destruct (registered_frame w n "terminal" (default_null p) (default_null ic) s)
    as (V4 & T4 & E4 & _ & A4 & _). fold s4 in V4, T4, E4, A4.
  pose proof (registered_get w n "terminal" (default_null p) (default_null ic) s) as G4.
  fold s4 in G4.
  unfold initTerminalSession. rewrite G4, A4, Hcs. simpl.
  unfold launchTerminalInContainer.
  change (term (with_dom _ s4)) with (term s4). rewrite T4.
  destruct (xtermLoaded (term s)) eqn:X; simpl.
  - destruct Hlib as [?|F]; [done|]. rewrite F. simpl. split_and!; done.
  - split_and!; done.
Qed.

Lemma alter_app_last {A} (f : A → A) (l : list A) (x : A) :
  alter f (length l) (l ++ [x]) = l ++ [f x].
Proof. induction l as [|y l IH]; simpl; [done | by f_equal]. Qed.

(** What a launch that goes through adds to the terminal module. *)
Lemma launchTerminalInContainer_ok sid cn tid stid s node :
  xtermLoaded (term s) = true → fitAddonLoaded (term s) = true →
  getTerminalEl tid (dom s) = Some node →
  let th := length (terminals (term s)) in
  let sh := length (sockets (term s)) in
  ∃ s', launchTerminalInContainer sid cn tid stid None s = (s', Resolved) ∧
    cm s' = cm s ∧ vnc s' = vnc s ∧
    timers (env s') = timers (env s) ++ [(100%Z, TFit th)] ∧
    toasts (env s') = toasts (env s) ∧ pending (env s') = pending (env s) ∧
    termInstances (term s') = <[sid := th]> (termInstances (term s)) ∧
    termSockets (term s') = <[sid := sh]> (termSockets (term s)) ∧
    termFitAddons (term s') = <[sid := th]> (termFitAddons (term s)) ∧
    terminals (term s') = terminals (term s) ++ [mkTerminal [] false (Some sh)] ∧
    sockets (term s') =
      sockets (term s) ++ [mkWs sid cn th (getStatusEl stid (dom s)) CONNECTING []].
Proof.
  intros HX HF Hnode. cbv zeta. unfold launchTerminalInContainer.
  rewrite HX, HF, Hnode. simpl negb. cbv iota zeta.
  eexists. split; [reflexivity|].
  destruct (getStatusEl stid (dom s)) as [e|]; simpl;
    rewrite alter_app_last; split_and!; done.
Qed.

(** X7.  When the libraries are loaded, the page has a console area and the
    WebSocket constructor does not throw, [openConsole] of type [terminal] for
    a new target creates one terminal and one socket and registers them under
    the new session id: [getTermInstance] and the fit-addon map give the new
    terminal, [termSockets] the new socket; the socket is connecting, has sent
    nothing and its handlers hold this session id, this container name and
    this terminal; the terminal is empty, not disposed, and its [onData]
    listener holds this socket; the session's [instance] is the terminal; the
    only timer added is the fit after 100 ms.  Objects made earlier are not
    touched, and neither is the VNC module. *)
Theorem X7_text_open_registers (s : State) (w : World) (n : string) (p ic : JsVal) :
  plain n = true →
  findSessionByName n (sessions s) = None → is_Some (consoleArea (dom s)) →
  xtermLoaded (term s) = true → fitAddonLoaded (term s) = true → wsCtor w = None →
  let sid := newSessionId w in
  let s' := openConsole w n "terminal" p ic s in
  let th := length (terminals (term s)) in
  let sh := length (sockets (term s)) in
  TerminalManager.getTermInstance sid s' = Some th ∧
  termSockets (term s') !! sid = Some sh ∧ termFitAddons (term s') !! sid = Some th ∧
  (∃ el, sockets (term s') = sockets (term s) ++ [mkWs sid n th el CONNECTING []]) ∧
  terminals (term s') = terminals (term s) ++ [mkTerminal [] false (Some sh)] ∧
  JsMap.get sid (sessions s')
    = Some (mkSession sid n "terminal" (default_null p) (default_null ic)
                      (Some (InstTerm th))) ∧
  timers (env s') = timers (env s) ++ [(100%Z, TFit th)] ∧
  toasts (env s') = toasts (env s) ∧ pending (env s') = pending (env s) ∧
  vnc s' = vnc s.
Proof.
  intros Hn Hf [cs Hcs] HX HF HW. cbv zeta.
  rewrite openConsole_new by (by rewrite Hf). cbv zeta.
  rewrite decide_False by done. rewrite decide_True by done.
  rewrite (markup_of_plain w n Hn).
  set (s4 := registered _ _ _ _ _ _).
  destruct (registered_frame w n "terminal" (default_null p) (default_null ic) s)
    as (V4 & T4 & E4 & _ & A4 & S4). fold s4 in V4, T4, E4, A4, S4.
  pose proof (registered_get w n "terminal" (default_null p) (default_null ic) s) as G4.
  fold s4 in G4.
  unfold initTerminalSession. rewrite G4, A4, Hcs. cbn [fmap option_fmap option_map].
  set (s5 := with_dom _ s4).
  destruct (getTerminalEl_appended (newSessionId w) n intact (dom s4)) as [node Hnode].
  { done. }
  { rewrite A4, Hcs. simpl. eauto. }
  rewrite HW.
  destruct (launchTerminalInContainer_ok (newSessionId w) n
              ("terminal-" +:+ newSessionId w) ("status-" +:+ newSessionId w) s5 node)
    as (s6 & -> & L1 & L2 & L3 & L4 & L5 & L6 & L7 & L8 & L9 & L10).
  { change (term s5) with (term s4). by rewrite T4. }
  { change (term s5) with (term s4). by rewrite T4. }
  { exact Hnode. }
  change (term s5) with (term s4) in *. change (env s5) with (env s4) in *.
  change (vnc s5) with (vnc s4) in *. change (cm s5) with (cm s4) in *.
  rewrite T4 in *. rewrite E4 in *. rewrite V4 in *.
  unfold initTerminalSession_settle, TerminalManager.getTermInstance.
  rewrite L6, lookup_insert_eq. simpl.
  assert (JsMap.get (newSessionId w) (sessions s6)
          = Some (mkSession (newSessionId w) n "terminal" (default_null p)
                            (default_null ic) None)) as G6.
  { unfold sessions. rewrite L1. exact G4. }
  split_and!.
  - change (term (assign_instance _ _ s6)) with (term s6). by rewrite L6, lookup_insert_eq.
  - change (term (assign_instance _ _ s6)) with (term s6). by rewrite L7, lookup_insert_eq.
  - change (term (assign_instance _ _ s6)) with (term s6). by rewrite L8, lookup_insert_eq.
  - change (term (assign_instance _ _ s6)) with (term s6). rewrite L10. eauto.
  - change (term (assign_instance _ _ s6)) with (term s6). by rewrite L9.
  - change (sessions (assign_instance (newSessionId w)
                        (Some (InstTerm (length (terminals (term s))))) s6))
      with (match JsMap.get (newSessionId w) (sessions s6) with
            | Some session =>
                JsMap.set (newSessionId w)
                  (set_instance (Some (InstTerm (length (terminals (term s))))) session)
                  (sessions s6)
            | None => sessions s6
            end).
    rewrite G6, JsMapFacts.get_set, decide_True by done. done.
  - exact L3.
  - exact L4.
  - exact L5.
  - exact L2.
Qed.

(** ** A graphical launch that is resumed *)

Lemma step_resume_launch s i sid vm p canvas el probe ctor :
  pending (env s) !! i = Some (KLaunchVnc sid vm p canvas el) →
  step (EResume i (RfbCtor probe ctor)) s =
  initVncSession_settle sid
    (launchVncInContainer_resume sid vm p canvas el ctor
       (clipboard_probe probe (drop_pending i s))).
Proof. intros Hk. simpl. by rewrite Hk. Qed.

(** X8.  When the suspended launch of a graphical session is resumed and the
    RFB constructor succeeds, one RFB client is constructed, not yet
    disconnected, holding the session id, VM name, port and elements the
    launch had captured; [getRfbClient] returns it; and the continuation is
    gone.  The only toast of that turn is the clipboard tip, shown exactly
    when the probe's [readText()] was rejected and the notification key was
    not set, and then the key is set.  If the session is still in the registry
    its [instance] becomes that client and nothing else of it changes.  If the
    session was closed while the launch was suspended, the registry is
    unchanged, the client is registered all the same, and [closeTab] for that
    id does nothing: it will not disconnect this client. *)
Theorem X8_vnc_launch_resumed (s : State) (i : nat) (sid vm : string) (p : JsVal)
    (canvas : nat) (el : option nat) (probe : Clipboard) :
  pending (env s) !! i = Some (KLaunchVnc sid vm p canvas el) →
  let s' := step (EResume i (RfbCtor probe None)) s in
  let client := length (rfbs (vnc s)) in
  VNCViewer.getRfbClient sid s' = Some client ∧
  rfbs (vnc s') = rfbs (vnc s) ++ [mkRfb sid vm p canvas el false] ∧
  pending (env s') = drop_nth i (pending (env s)) ∧
  timers (env s') = timers (env s) ∧
  toasts (env s') =
    toasts (env s) ++ (if shows_tip probe s then [(clipboard_tip, "info")] else []) ∧
  (shows_tip probe s = true → localStorage (env s') !! notificationKey = Some "true") ∧
  (∀ session, JsMap.get sid (sessions s) = Some session →
     JsMap.get sid (sessions s') = Some (set_instance (Some (InstRfb client)) session) ∧
     JsMap.keys (sessions s') = JsMap.keys (sessions s)) ∧
  (JsMap.get sid (sessions s) = None →
     sessions s' = sessions s ∧ closeTab sid s' = s').
Proof.
  intros Hk. cbv zeta. rewrite (step_resume_launch _ _ _ _ _ _ _ _ _ Hk).
  destruct (clipboard_probe_frame probe (drop_pending i s)) as (C & _ & V & _ & Ti & P & _).
  pose proof (clipboard_probe_toasts probe (drop_pending i s)) as To.
  pose proof (clipboard_probe_key probe (drop_pending i s)) as Hkey.
  change (shows_tip probe (drop_pending i s)) with (shows_tip probe s) in To, Hkey.
  change (vnc (drop_pending i s)) with (vnc s) in V.
  change (cm (drop_pending i s)) with (cm s) in C.
  change (timers (env (drop_pending i s))) with (timers (env s)) in Ti.
  change (toasts (env (drop_pending i s))) with (toasts (env s)) in To.
  change (pending (env (drop_pending i s))) with (drop_nth i (pending (env s))) in P.
  set (s0 := clipboard_probe probe (drop_pending i s)) in *. clearbody s0.
  simpl. unfold VNCViewer.getRfbClient. simpl. rewrite lookup_insert_eq, V. simpl.
  set (s1 := with_vnc _ s0).
  assert (sessions (assign_instance sid (Some (InstRfb (length (rfbs (vnc s))))) s1)
          = match JsMap.get sid (sessions s) with
            | Some session =>
                JsMap.set sid (set_instance (Some (InstRfb (length (rfbs (vnc s))))) session)
                          (sessions s)
            | None => sessions s
            end) as Es.
  { change (sessions (assign_instance sid (Some (InstRfb (length (rfbs (vnc s))))) s1))
      with (match JsMap.get sid (sessions s0) with
            | Some session =>
                JsMap.set sid (set_instance (Some (InstRfb (length (rfbs (vnc s))))) session)
                          (sessions s0)
            | None => sessions s0
            end).
    unfold sessions. by rewrite C. }
  split_and!; try done.
  - intros session Hget. rewrite Es, Hget. split.
    + rewrite JsMapFacts.get_set. by rewrite decide_True.
    + apply JsMapFacts.keys_set_present. eauto.
  - intros Hnone. rewrite Es, Hnone. split; [done|].
    apply closeTab_absent. by rewrite Es, Hnone.
Qed.

(** ** An open that launches nothing *)

(** X9.  [openConsole] for a new target launches no transport when the page
    has no console area, or when the type is neither [vnc] nor [terminal]: the
    session is registered without an instance and made foreground, and that is
    all.  No transport object is made, nothing is reported, scheduled or
    suspended. *)
Theorem X9_open_without_launch (s : State) (w : World) (n ty : string) (p ic : JsVal) :
  findSessionByName n (sessions s) = None →
  consoleArea (dom s) = None ∨ (ty ≠ "vnc" ∧ ty ≠ "terminal") →
  let s' := openConsole w n ty p ic s in
  s' = registered w n ty (default_null p) (default_null ic) s ∧
  JsMap.get (newSessionId w) (sessions s')
    = Some (mkSession (newSessionId w) n ty (default_null p) (default_null ic) None) ∧
  active s' = Some (newSessionId w) ∧
  vnc s' = vnc s ∧ term s' = term s ∧ env s' = env s.
Proof.
  intros Hf Hcase. cbv zeta.
  assert (openConsole w n ty p ic s = registered w n ty (default_null p) (default_null ic) s)
    as ->.
  { rewrite openConsole_new by (by rewrite Hf). cbv zeta.
    set (s4 := registered _ _ _ _ _ _).
    destruct (registered_frame w n ty (default_null p) (default_null ic) s)
      as (_ & _ & _ & _ & A4 & _). fold s4 in A4.
    pose proof (registered_get w n ty (default_null p) (default_null ic) s) as G4.
    fold s4 in G4.
    destruct Hcase as [Hno|[N1 N2]].
    - unfold initVncSession, initTerminalSession. rewrite G4, A4, Hno. simpl.
      by repeat case_decide.
    - by rewrite !decide_False. }
  destruct (registered_frame w n ty (default_null p) (default_null ic) s)
    as (V4 & T4 & E4 & _ & _ & _).
  split_and!; try done. apply registered_get.
Qed.

(** ** The page follows the registry *)

Lemma View_core s s' : vcore s' = vcore s → View s → View s'.
Proof.
  unfold vcore. intros E [H1 H2 H3 H4]. injection E as E1 E2 E3 E4.
  split; rewrite ?E1, ?E2, ?E3, ?E4; assumption.
Qed.

Lemma vcore_proj s ks a tf cf :
  vcore s = (ks, a, tf, cf) →
  JsMap.keys (sessions s) = ks ∧ active s = a ∧ tab_flags s = tf ∧ container_flags s = cf.
Proof. unfold vcore. intros E. by injection E. Qed.

Lemma vcore_setStatus el text cls s : vcore (setStatus el text cls s) = vcore s.
Proof.
  destruct el as [node|]; [|done]. unfold vcore, setStatus, container_flags. simpl. f_equal.
  destruct (consoleArea (dom s)) as [cs|]; simpl; [|done].
  rewrite <- list_fmap_compose. apply list_fmap_ext. intros ? c _. simpl.
  unfold set_status_of. by destruct (decide (c_node c = node)).
Qed.

Lemma vcore_assign_instance sid i s : vcore (assign_instance sid i s) = vcore s.
Proof. unfold vcore. by rewrite keys_assign_instance. Qed.

Lemma vcore_switchToTab k s :
  vcore (switchToTab k s) =
  (JsMap.keys (sessions s), Some k,
   (λ p, (p.1, is_session k p.1)) <$> tab_flags s,
   (λ p, (p.1, negb (is_session k p.1))) <$> container_flags s).
Proof.
  unfold vcore, switchToTab, tab_flags, container_flags. simpl. f_equal; [f_equal|].
  - destruct (tabBar (dom s)) as [tabs|]; simpl; [|done].
    rewrite <- !list_fmap_compose. by apply list_fmap_ext.
  - destruct (consoleArea (dom s)) as [cs|]; simpl; [|done].
    rewrite <- !list_fmap_compose. by apply list_fmap_ext.
Qed.

Lemma is_session_active k sid : is_session k sid = bool_decide (Some k = Some sid).
Proof.
  unfold is_session. destruct (decide (sid = k)) as [->|N].
  - by rewrite !bool_decide_true.
  - rewrite !bool_decide_false; [done | congruence | done].
Qed.

(** [switchToTab] sets the classes right, whatever they were. *)
Lemma View_switchToTab k s :
  NoDup (container_flags s).*1 →
  (∀ sid, sid ∈ (container_flags s).*1 → sid ∈ JsMap.keys (sessions s)) →
  View (switchToTab k s).
Proof.
  intros Hnd Hreg.
  destruct (vcore_proj _ _ _ _ _ (vcore_switchToTab k s)) as (E1 & E2 & E3 & E4).
  assert (((λ p : string * bool, (p.1, negb (is_session k p.1))) <$> container_flags s).*1
          = (container_flags s).*1) as Eids.
  { rewrite <- list_fmap_compose. by apply list_fmap_ext. }
  split; rewrite ?E1, ?E2, ?E3, ?E4, ?Eids; try assumption.
  - intros sid a Hin. apply list_elem_of_fmap in Hin as ([sid0 a0] & Heq & _).
    simpl in Heq. injection Heq as -> ->. apply is_session_active.
  - intros sid h Hin. apply list_elem_of_fmap in Hin as ([sid0 h0] & Heq & _).
    simpl in Heq. injection Heq as -> ->. f_equal. apply is_session_active.
Qed.

Lemma vcore_cleanup session sid s : vcore (closeTab_cleanup session sid s) = vcore s.
Proof.
  unfold vcore, tab_flags, container_flags, sessions, active.
  by rewrite cleanup_cm, cleanup_dom.
Qed.

Lemma remove_first_elem_of {A} (q : A → bool) (l : list A) (x : A) :
  x ∈ remove_first q l → x ∈ l.
Proof. intros H. eapply elem_of_sublist; [exact H | apply remove_first_sublist]. Qed.

Lemma View_closeTab sid s : Inv s → View s → View (closeTab sid s).
Proof.
  intros HI HV. pose proof (Inv_closeTab sid s HI) as HI'.
  rewrite closeTab_split in *.
  destruct (JsMap.get sid (sessions s)) as [session|] eqn:Hget; [|done].
  set (s1 := closeTab_cleanup session sid s) in *.
  assert (View s1) as HV1 by (eapply View_core; [apply vcore_cleanup | done]).
  assert (sessions s1 = sessions s) as Es1
    by (unfold sessions, s1; by rewrite cleanup_cm).
  clear HV. destruct HV1 as [V1 V2 V3 V4].
  unfold closeTab_rest in *. cbv zeta in *.
  set (s4 := with_sessions (JsMap.delete sid) _) in *.
  assert (JsMap.keys (sessions s4) = JsMap.keys (JsMap.delete sid (sessions s1))) as K4
    by reflexivity.
  assert (active s4 = active s1) as A4 by reflexivity.
  assert (tab_flags s4 = remove_first (λ p, is_session sid p.1) (tab_flags s1)) as T4.
  { unfold s4, tab_flags. simpl. destruct (tabBar (dom s1)) as [tabs|]; simpl; [|done].
    apply (remove_first_fmap (λ t, (tab_session t, tab_active t))
             (λ p, is_session sid p.1)). }
  assert (container_flags s4
          = remove_first (λ p, is_session sid p.1) (container_flags s1)) as C4.
  { unfold s4, container_flags. simpl.
    destruct (consoleArea (dom s1)) as [cs|]; simpl; [|done].
    apply (remove_first_fmap (λ c, (c_session c, c_hidden c))
             (λ p, is_session sid p.1)). }
  assert (NoDup (container_flags s4).*1) as N4.
  { rewrite C4. eapply sublist_NoDup; [exact V1|].
    apply fmap_sublist, remove_first_sublist. }
  assert (∀ k, k ∈ (container_flags s4).*1 → k ∈ JsMap.keys (sessions s4)) as R4.
  { intros k Hk. rewrite K4.
    assert (k ≠ sid) as Hne.
    { intros ->. rewrite C4 in Hk. by apply (remove_first_key_gone sid _ V1). }
    apply JsMapFacts.keys_delete; [|congruence]. apply V2.
    rewrite C4 in Hk. eapply elem_of_sublist; [exact Hk|].
    apply fmap_sublist, remove_first_sublist. }
  clearbody s4.
  destruct (decide (active s4 = Some sid)) as [Ea|Na].
  - case_bool_decide as Hsz.
    + destruct (JsMap.first_key (sessions s4)) as [k|] eqn:Hk; [by apply View_switchToTab|].
      apply first_key_None in Hk. rewrite Hk in Hsz. unfold JsMap.size in Hsz.
      simpl in Hsz. lia.
    + apply JsMapFacts.size_0_nil in Hsz.
      assert (container_flags s4 = []) as Cnil.
      { apply elem_of_nil_inv. intros [k h] Hin.
        assert (k ∈ JsMap.keys (sessions s4)) as Hk
          by (apply R4, list_elem_of_fmap; by exists (k, h)).
        rewrite Hsz in Hk. by apply elem_of_nil in Hk. }
      assert (tab_keys (with_active None (with_dom hide_viewer s4)) = []) as Tnil.
      { apply elem_of_nil_inv. intros [k nm] Hin.
        destruct (inv_tab_session _ HI' _ _ Hin) as (x & Hx & _).
        change (sessions (with_active None (with_dom hide_viewer s4)))
          with (sessions s4) in Hx. by rewrite Hsz in Hx. }
      assert (tab_flags (with_active None (with_dom hide_viewer s4)) = []) as Fnil.
      { unfold tab_keys in Tnil. unfold tab_flags.
        apply fmap_nil_inv in Tnil. by rewrite Tnil. }
      split.
      * change (container_flags (with_active None (with_dom hide_viewer s4)))
          with (container_flags s4). rewrite Cnil. constructor.
      * change (container_flags (with_active None (with_dom hide_viewer s4)))
          with (container_flags s4). rewrite Cnil. intros k Hk. by apply elem_of_nil in Hk.
      * rewrite Fnil. intros k a Hk. by apply elem_of_nil in Hk.
      * change (container_flags (with_active None (with_dom hide_viewer s4)))
          with (container_flags s4). rewrite Cnil. intros k a Hk. by apply elem_of_nil in Hk.
  - split; [done | done | |].
    + rewrite T4, A4. intros k a Hin. apply V3. by eapply remove_first_elem_of.
    + rewrite C4, A4. intros k h Hin. apply V4. by eapply remove_first_elem_of.
Qed.

Lemma vcore_launchVncInContainer sid vm p cid stid s :
  vcore (launchVncInContainer sid vm p cid stid s).1 = vcore s.
Proof.
  unfold launchVncInContainer. destruct (truthy p); simpl; [|done].
  destruct (getCanvasEl cid (dom s)); simpl; [|done].
  unfold suspend.
  transitivity (vcore (setStatus (getStatusEl stid (dom s)) "Connecting..."
                         "console-status console-status-connecting"
                         (with_vnc (λ v, mkVnc (rfbClients v)
                            (<[sid := mkVncInfo vm p cid stid]> (vncSessions v)) (rfbs v)) s)));
    [reflexivity|].
  by rewrite vcore_setStatus.
Qed.

Lemma vcore_launchVncInContainer_resume sid vm p canvas el ctor s :
  vcore (launchVncInContainer_resume sid vm p canvas el ctor s).1 = vcore s.
Proof. destruct ctor; simpl; [apply vcore_setStatus | reflexivity]. Qed.

Lemma vcore_with_term f s : vcore (with_term f s) = vcore s.
Proof. reflexivity. Qed.

Lemma vcore_with_env f s : vcore (with_env f s) = vcore s.
Proof. reflexivity. Qed.

Lemma vcore_launchTerminalInContainer sid cn tid stid ctor s :
  vcore (launchTerminalInContainer sid cn tid stid ctor s).1 = vcore s.
Proof.
  unfold launchTerminalInContainer.
  destruct (xtermLoaded (term s)); simpl; [|done].
  destruct (fitAddonLoaded (term s)); simpl; [|done].
  destruct (getTerminalEl tid (dom s)); simpl; [|done].
  destruct ctor; simpl.
  - rewrite vcore_setStatus.
    unfold with_termSessions, setTimeout, with_terminals.
    rewrite !vcore_with_term, vcore_with_env, vcore_with_term, vcore_setStatus. reflexivity.
  - unfold with_terminals, with_sockets, with_termSessions, setTimeout.
    rewrite !vcore_with_term, vcore_with_env, vcore_with_term, vcore_setStatus. reflexivity.
Qed.

Lemma View_settle_vnc sid r : View r.1 → View (initVncSession_settle sid r).
Proof.
  destruct r as [s [msg| |]]; simpl; intros HV; [|done|].
  - eapply View_core; [|exact HV]. reflexivity.
  - eapply View_core; [|exact HV]. apply vcore_assign_instance.
Qed.

Lemma View_settle_terminal sid r : View r.1 → View (initTerminalSession_settle sid r).
Proof.
  destruct r as [s [msg| |]]; simpl; intros HV; [|done|].
  - eapply View_core; [|exact HV]. reflexivity.
  - eapply View_core; [|exact HV]. apply vcore_assign_instance.
Qed.

(** A container appended for the foreground session keeps the page right. *)
Lemma View_append_container sid kind n m s :
  View s → active s = Some sid → sid ∈ JsMap.keys (sessions s) →
  sid ∉ (container_flags s).*1 →
  View (with_dom (append_container sid kind n m) s).
Proof.
  intros [V1 V2 V3 V4] Ha Hk Hfresh.
  destruct (consoleArea (dom s)) as [cs|] eqn:Hcs.
  2:{ eapply View_core; [|by split]. unfold vcore, container_flags, append_container.
      simpl. by rewrite Hcs. }
  assert (container_flags (with_dom (append_container sid kind n m) s)
          = container_flags s ++ [(sid, false)]) as Ec.
  { unfold container_flags, append_container. simpl. rewrite Hcs. simpl.
    by rewrite fmap_app. }
  split; rewrite ?Ec; try assumption.
  - rewrite fmap_app. apply NoDup_app. split_and!; [done| |apply NoDup_singleton].
    intros x Hx Hx'. apply list_elem_of_singleton in Hx'. simpl in Hx'. by subst.
  - rewrite fmap_app. intros k Hin. apply elem_of_app in Hin as [Hin|Hin]; [by apply V2|].
    apply list_elem_of_singleton in Hin. simpl in Hin. by subst.
  - intros k h Hin. apply elem_of_app in Hin as [Hin|Hin]; [by apply V4|].
    apply list_elem_of_singleton in Hin. injection Hin as -> ->.
    change (active (with_dom (append_container sid kind n m) s)) with (active s).
    by rewrite Ha, bool_decide_true.
Qed.

Lemma View_initVncSession sid n p m s :
  View s → active s = Some sid → sid ∉ (container_flags s).*1 →
  View (initVncSession sid n p m s).
Proof.
  intros HV Ha Hfresh. unfold initVncSession.
  destruct (JsMap.get sid (sessions s)) as [x|] eqn:Hget; [|done].
  destruct (consoleArea (dom s)); [|done].
  apply View_settle_vnc. eapply View_core; [apply vcore_launchVncInContainer|].
  apply View_append_container; try done. apply JsMapFacts.get_Some_keys. eauto.
Qed.

Lemma View_initTerminalSession sid n ctor m s :
  View s → active s = Some sid → sid ∉ (container_flags s).*1 →
  View (initTerminalSession sid n ctor m s).
Proof.
  intros HV Ha Hfresh. unfold initTerminalSession.
  destruct (JsMap.get sid (sessions s)) as [x|] eqn:Hget; [|done].
  destruct (consoleArea (dom s)); [|done].
  apply View_settle_terminal. eapply View_core; [apply vcore_launchTerminalInContainer|].
  apply View_append_container; try done. apply JsMapFacts.get_Some_keys. eauto.
Qed.

Lemma keys_set_mono {V} k k' (v : V) m :
  k' ∈ JsMap.keys m → k' ∈ JsMap.keys (JsMap.set k v m).
Proof.
  intros [x Hx]%JsMapFacts.get_Some_keys. apply JsMapFacts.get_Some_keys.
  rewrite JsMapFacts.get_set. case_decide; eauto.
Qed.

Lemma View_openConsole w n ty p ic s :
  Inv s → View s → JsMap.get (newSessionId w) (sessions s) = None →
  View (openConsole w n ty p ic s).
Proof.
  intros HI HV Hfresh.
  destruct (truthy_id (findSessionByName n (sessions s))) eqn:Ht.
  - destruct (findSessionByName n (sessions s)) as [e|] eqn:E; [|done].
    rewrite (openConsole_existing _ _ _ _ _ _ e E).
    + apply View_switchToTab; [apply (view_container_ids _ HV) | apply (view_container_reg _ HV)].
    + simpl in Ht. by destruct (String.eqb_spec e "").
  - rewrite openConsole_new by done. cbv zeta.
    set (s4 := registered _ _ _ _ _ _).
    destruct (registered_frame w n ty (default_null p) (default_null ic) s)
      as (_ & _ & _ & _ & A4 & S4). fold s4 in A4, S4.
    assert (container_flags s4 = (λ q, (q.1, negb (is_session (newSessionId w) q.1)))
                                   <$> container_flags s) as C4.
    { unfold container_flags. rewrite A4. destruct (consoleArea (dom s)) as [cs|]; simpl; [|done].
      rewrite <- !list_fmap_compose. by apply list_fmap_ext. }
    assert ((container_flags s4).*1 = (container_flags s).*1) as Cids.
    { rewrite C4, <- list_fmap_compose. by apply list_fmap_ext. }
    assert (View s4) as HV4.
    { unfold s4, registered. apply View_switchToTab.
      - apply (view_container_ids _ HV).
      - intros k Hk. apply (view_container_reg _ HV) in Hk.
        by apply (keys_set_mono (newSessionId w)). }
    assert (active s4 = Some (newSessionId w)) as Ha4 by reflexivity.
    assert (newSessionId w ∉ (container_flags s4).*1) as Hf4.
    { rewrite Cids. intros Hin. apply (view_container_reg _ HV) in Hin.
      by apply JsMapFacts.get_None_keys in Hfresh. }
    repeat case_decide;
      [by apply View_initVncSession | by apply View_initTerminalSession | done].
Qed.

Lemma vcore_clipboard_probe c s : vcore (clipboard_probe c s) = vcore s.
Proof.
  destruct (clipboard_probe_frame c s) as (C & D & _).
  unfold vcore, tab_flags, container_flags, sessions, active. by rewrite C, D.
Qed.

Lemma View_resume k v s : View s → View (resume k v s).
Proof.
  intros HV. destruct k, v; simpl; try done.
  - apply View_settle_vnc. eapply View_core; [|exact HV].
    rewrite vcore_launchVncInContainer_resume. apply vcore_clipboard_probe.
  - eapply View_core; [|exact HV]. unfold vncControl_resume.
    destruct (reports_success result); [|done]. by destruct (_ || _).
  - eapply View_core; [|exact HV]. unfold terminalControl_resume.
    destruct (reports_success result); [|done]. by destruct (_ || _).
Qed.

Lemma View_step e s : Inv s → View s → enabled e s → View (step e s).
Proof.
  intros HI HV Hen. destruct e; simpl in *.
  - by apply View_openConsole.
  - by apply View_closeTab.
  - apply View_switchToTab; [apply (view_container_ids _ HV) | apply (view_container_reg _ HV)].
  - eapply View_core; [|exact HV]. unfold vncControl.
    destruct (JsMap.get sessionId (sessions s)); [|done]. by destruct (negb _).
  - eapply View_core; [|exact HV]. unfold terminalControl.
    destruct (JsMap.get sessionId (sessions s)); [|done]. by destruct (negb _).
  - destruct (pending (env s) !! i); [|done]. destruct (settles c v); [|done].
    apply View_resume. eapply View_core; [|exact HV]. reflexivity.
  - destruct (timers (env s) !! i) as [[d a]|]; [|done].
    destruct a; simpl; [|eapply View_core; [|exact HV]; reflexivity].
    apply View_closeTab.
    + eapply Inv_core; [|exact HI]. reflexivity.
    + eapply View_core; [|exact HV]. reflexivity.
  - destruct (rfbs (vnc s) !! client); [|done].
    eapply View_core; [|exact HV]. unfold onRfbConnect, showStatus.
    transitivity (vcore (setStatus (rfb_statusEl r) "Connected"
                           "console-status console-status-connected" s));
      [reflexivity | apply vcore_setStatus].
  - destruct (rfbs (vnc s) !! client); [|done]. unfold onRfbDisconnect.
    assert (vcore (setStatus (rfb_statusEl r)
                     (if clean then "Clean Disconnect" else "Disconnected")
                     "console-status console-status-error" s) = vcore s) as E
      by apply vcore_setStatus.
    destruct clean; [|by eapply View_core].
    apply View_closeTab.
    + eapply Inv_core; [|exact HI]. apply core_setStatus.
    + by eapply View_core.
  - destruct (rfbs (vnc s) !! client); [|done].
    eapply View_core; [|exact HV]. unfold onRfbSecurityFailure, showStatus.
    transitivity (vcore (setStatus (rfb_statusEl r) "Security Error"
                           "console-status console-status-error" s));
      [reflexivity | apply vcore_setStatus].
  - destruct (sockets (term s) !! socket); [|done].
    eapply View_core; [|exact HV]. unfold onSocketOpen, writeln, write.
    transitivity (vcore (setStatus (ws_statusEl w) "Connected"
                           "console-status console-status-connected"
                           (with_sockets (alter (set_readyState OPEN) socket) s)));
      [reflexivity | by rewrite vcore_setStatus].
  - destruct (sockets (term s) !! socket); [|done].
    eapply View_core; [|exact HV]. reflexivity.
  - destruct (sockets (term s) !! socket); [|done].
    eapply View_core; [|exact HV]. unfold onSocketError, setTimeout, writeln, write.
    transitivity (vcore (setStatus (ws_statusEl w) "Connection Error"
                           "console-status console-status-error" s));
      [reflexivity | apply vcore_setStatus].
  - destruct (sockets (term s) !! socket); [|done].
    eapply View_core; [|exact HV]. unfold onSocketClose, setTimeout, writeln, write.
    transitivity (vcore (setStatus (ws_statusEl w) "Disconnected"
                           "console-status console-status-error"
                           (with_sockets (alter (set_readyState CLOSED) socket) s)));
      [reflexivity | by rewrite vcore_setStatus].
  - destruct (terminals (term s) !! terminal) as [t|]; [|done].
    destruct (term_socket t); [|done]. unfold onData.
    destruct (sockets (term s) !! n); [|done].
    destruct (ws_readyState w); try done.
    eapply View_core; [|exact HV]. reflexivity.
Qed.

Lemma View_initial p : View (initial p).
Proof.
  split; unfold container_flags, tab_flags; simpl.
  - destruct (page_consoleArea p); simpl; constructor.
  - intros k Hk. destruct (page_consoleArea p); simpl in Hk; by apply elem_of_nil in Hk.
  - intros k a Hk. destruct (page_tabBar p); simpl in Hk; by apply elem_of_nil in Hk.
  - intros k a Hk. destruct (page_consoleArea p); simpl in Hk; by apply elem_of_nil in Hk.
Qed.

Lemma reachable_View s : reachable s → View s.
Proof.
  induction 1 as [p | e s Hs IH Hen]; [apply View_initial|].
  apply View_step; [by apply reachable_Inv | done..].
Qed.

(** X10.  In every reachable state the page shows the registry's foreground:
    a tab carries [active] exactly when its session is [activeSessionId], a
    container is visible (does not carry [hidden]) exactly when its session is
    [activeSessionId]; no two containers belong to the same session, and every
    container belongs to a session that is in the registry. *)
Theorem X10_page_shows_foreground (s : State) :
  reachable s →
  (∀ tabs t, tabBar (dom s) = Some tabs → t ∈ tabs →
     (tab_active t = true ↔ active s = Some (tab_session t))) ∧
  (∀ cs c, consoleArea (dom s) = Some cs → c ∈ cs →
     (c_hidden c = false ↔ active s = Some (c_session c)) ∧
     c_session c ∈ JsMap.keys (sessions s)) ∧
  (∀ cs, consoleArea (dom s) = Some cs → NoDup (c_session <$> cs)).
Proof.
  intros Hs. destruct (reachable_View s Hs) as [V1 V2 V3 V4]. split_and!.
  - intros tabs t Htb Hin.
    rewrite (V3 (tab_session t) (tab_active t)).
    + by rewrite bool_decide_eq_true.
    + unfold tab_flags. rewrite Htb. simpl. apply list_elem_of_fmap. by exists t.
  - intros cs c Hcs Hin.
    assert ((c_session c, c_hidden c) ∈ container_flags s) as Hc.
    { unfold container_flags. rewrite Hcs. simpl. apply list_elem_of_fmap. by exists c. }
    split.
    + rewrite (V4 _ _ Hc). rewrite negb_false_iff. by rewrite bool_decide_eq_true.
    + apply V2. apply list_elem_of_fmap. by exists (c_session c, c_hidden c).
  - intros cs Hcs. unfold container_flags in V1. rewrite Hcs in V1. simpl in V1.
    by rewrite <- list_fmap_compose in V1.
Qed.

(** ** Every registered handle is the session's own live object *)

Lemma Owned_core s s' : ocore s' = ocore s → Owned s → Owned s'.
Proof.
  unfold ocore. intros E [H1 H2 H3]. injection E as E1 E2 E3 E4 E5 E6.
  split; rewrite ?E1, ?E2, ?E3, ?E4, ?E5, ?E6; assumption.
Qed.

Lemma ocore_same_modules s s' : vnc s' = vnc s → term s' = term s → ocore s' = ocore s.
Proof.
  intros Ev Et. unfold ocore, rfb_view, socket_view, terminal_view. by rewrite Ev, Et.
Qed.

Lemma fmap_alter_same {A B} (f : A → B) (g : A → A) (i : nat) (l : list A) :
  (∀ x, f (g x) = f x) → f <$> alter g i l = f <$> l.
Proof.
  intros Hfg. revert i. induction l as [|x l IH]; intros [|i]; simpl; [done..| |].
  - by rewrite Hfg.
  - f_equal. apply IH.
Qed.

Lemma fmap_alter_comm {A B} (f : A → B) (g : A → A) (g' : B → B) (i : nat) (l : list A) :
  (∀ x, f (g x) = g' (f x)) → f <$> alter g i l = alter g' i (f <$> l).
Proof.
  intros Hfg. revert i. induction l as [|x l IH]; intros [|i]; simpl; [done..| |].
  - by rewrite Hfg.
  - f_equal. apply IH.
Qed.

Lemma ocore_setStatus el text cls s : ocore (setStatus el text cls s) = ocore s.
Proof. destruct (setStatus_frame el text cls s) as (_ & ? & ? & _). by apply ocore_same_modules. Qed.

Lemma ocore_write th d s : ocore (write th d s) = ocore s.
Proof.
  unfold ocore, rfb_view, socket_view, terminal_view, write. simpl.
  by rewrite fmap_alter_same.
Qed.

Lemma ocore_alter_socket g i s :
  (∀ w, ws_session (g w) = ws_session w ∧ ws_terminal (g w) = ws_terminal w) →
  ocore (with_sockets (alter g i) s) = ocore s.
Proof.
  intros Hg. unfold ocore, rfb_view, socket_view, terminal_view, with_sockets. simpl.
  rewrite fmap_alter_same; [done|]. intros w. by destruct (Hg w) as [-> ->].
Qed.

Lemma ocore_switchToTab k s : ocore (switchToTab k s) = ocore s.
Proof. reflexivity. Qed.

Lemma ocore_rest sid s : ocore (closeTab_rest sid s) = ocore s.
Proof. apply ocore_same_modules; [apply rest_vnc | apply rest_term]. Qed.

Lemma ocore_assign_instance sid i s : ocore (assign_instance sid i s) = ocore s.
Proof. reflexivity. Qed.

Lemma Owned_cleanupVncSession sid s : Owned s → Owned (cleanupVncSession sid s).
Proof.
  intros [H1 H2 H3].
  assert (rfbClients (vnc (cleanupVncSession sid s)) = delete sid (rfbClients (vnc s))) as Em.
  { unfold cleanupVncSession, VNCViewer.cleanupSession. simpl.
    destruct (rfbClients (vnc s) !! sid) eqn:E; simpl; [done|].
    by rewrite delete_id. }
  assert (rfb_view (cleanupVncSession sid s) =
          match rfbClients (vnc s) !! sid with
          | Some h => alter (λ q, (q.1, true)) h (rfb_view s)
          | None => rfb_view s
          end) as Ev.
  { unfold rfb_view, cleanupVncSession, VNCViewer.cleanupSession. simpl.
    destruct (rfbClients (vnc s) !! sid) eqn:E; simpl; [|done].
    by apply fmap_alter_comm. }
  split.
  - intros sid' h'. rewrite Em, Ev. intros Hl.
    apply lookup_delete_Some in Hl as [Hne Hl].
    pose proof (H1 _ _ Hl) as Hv.
    destruct (rfbClients (vnc s) !! sid) as [h|] eqn:E; [|done].
    rewrite list_lookup_alter_ne; [done|]. intros ->.
    pose proof (H1 _ _ E) as Hv'. congruence.
  - exact H2.
  - exact H3.
Qed.

Lemma Owned_cleanupTerminalSession sid s : Owned s → Owned (cleanupTerminalSession sid s).
Proof.
  intros [H1 H2 H3].
  assert (termSockets (term (cleanupTerminalSession sid s))
          = delete sid (termSockets (term s))) as Es.
  { unfold cleanupTerminalSession, TerminalManager.cleanupSession. simpl.
    destruct (termSockets (term s) !! sid) eqn:E1;
      destruct (termInstances (term s) !! sid) eqn:E2; simpl; try done;
      by rewrite delete_id. }
  assert (termInstances (term (cleanupTerminalSession sid s))
          = delete sid (termInstances (term s))) as Ei.
  { unfold cleanupTerminalSession, TerminalManager.cleanupSession. simpl.
    destruct (termSockets (term s) !! sid) eqn:E1;
      destruct (termInstances (term s) !! sid) eqn:E2; simpl; try done;
      by rewrite delete_id. }
  assert (socket_view (cleanupTerminalSession sid s) = socket_view s) as Ew.
  { unfold socket_view, cleanupTerminalSession, TerminalManager.cleanupSession. simpl.
    destruct (termSockets (term s) !! sid) eqn:E1;
      destruct (termInstances (term s) !! sid) eqn:E2; simpl; try done;
      by apply fmap_alter_same. }
  assert (terminal_view (cleanupTerminalSession sid s) =
          match termInstances (term s) !! sid with
          | Some h => alter (λ q, (true, q.2)) h (terminal_view s)
          | None => terminal_view s
          end) as Et.
  { unfold terminal_view, cleanupTerminalSession, TerminalManager.cleanupSession. simpl.
    destruct (termSockets (term s) !! sid) eqn:E1;
      destruct (termInstances (term s) !! sid) eqn:E2; simpl; try done;
      by apply fmap_alter_comm. }
  split.
  - exact H1.
  - intros sid' h'. rewrite Es, Ew. intros Hl.
    apply lookup_delete_Some in Hl as [Hne Hl]. by apply H2.
  - intros sid' h'. rewrite Ei, Es, Ew, Et. intros Hl.
    apply lookup_delete_Some in Hl as [Hne Hl].
    destruct (H3 _ _ Hl) as (sh' & A & B & C).
    exists sh'. split_and!; [|by rewrite lookup_delete_ne|done].
    destruct (termInstances (term s) !! sid) as [h|] eqn:E; [|done].
    rewrite list_lookup_alter_ne; [done|]. intros ->.
    destruct (H3 _ _ E) as (sh & A' & B' & C'). congruence.
Qed.

Lemma ocore_launchVncInContainer sid vm p cid stid s :
  ocore (launchVncInContainer sid vm p cid stid s).1 = ocore s.
Proof.
  unfold launchVncInContainer. destruct (truthy p); simpl; [|done].
  destruct (getCanvasEl cid (dom s)); simpl; [|done].
  destruct (setStatus_frame (getStatusEl stid (dom s)) "Connecting..."
              "console-status console-status-connecting"
              (with_vnc (λ v, mkVnc (rfbClients v)
                 (<[sid := mkVncInfo vm p cid stid]> (vncSessions v)) (rfbs v)) s))
    as (_ & Ev & Et & _).
  unfold ocore, rfb_view, socket_view, terminal_view, suspend. simpl.
  by rewrite Ev, Et.
Qed.

Lemma lookup_app_old {A} (l : list A) (x : A) (h : nat) (y : A) :
  l !! h = Some y → (l ++ [x]) !! h = Some y.
Proof. intros H. by apply lookup_app_l_Some. Qed.

Lemma lookup_app_new {A} (l : list A) (x : A) : (l ++ [x]) !! length l = Some x.
Proof. by rewrite list_lookup_middle. Qed.

Lemma lookup_fmap_app_new {A B} (f : A → B) (l : list A) (x : B) :
  ((f <$> l) ++ [x]) !! length l = Some x.
Proof. pose proof (lookup_app_new (f <$> l) x) as H. by rewrite length_fmap in H. Qed.

Lemma Owned_launchVncInContainer_resume sid vm p canvas el ctor s :
  Owned s → Owned (launchVncInContainer_resume sid vm p canvas el ctor s).1.
Proof.
  intros HO. destruct ctor as [msg|]; simpl.
  { eapply Owned_core; [apply ocore_setStatus | done]. }
  destruct HO as [H1 H2 H3].
  assert (rfb_view (with_vnc (λ v, mkVnc (<[sid := length (rfbs (vnc s))]> (rfbClients v))
                      (vncSessions v)
                      (rfbs v ++ [mkRfb sid vm p canvas el false])) s)
          = rfb_view s ++ [(sid, false)]) as Ev.
  { unfold rfb_view. simpl. by rewrite fmap_app. }
  split; [|exact H2|exact H3].
  intros sid' h'. rewrite Ev. simpl. intros Hl.
  apply lookup_insert_Some in Hl as [[<- <-]|[Hne Hl]].
  - unfold rfb_view. apply lookup_fmap_app_new.
  - apply lookup_app_old. by apply H1.
Qed.

Lemma Owned_launchTerminalInContainer sid cn tid stid ctor s :
  Owned s → Owned (launchTerminalInContainer sid cn tid stid ctor s).1.
Proof.
  intros HO. unfold launchTerminalInContainer.
  destruct (xtermLoaded (term s)); simpl; [|done].
  destruct (fitAddonLoaded (term s)); simpl; [|done].
  destruct (getTerminalEl tid (dom s)); simpl; [|done].
  destruct HO as [H1 H2 H3].
  destruct (getStatusEl stid (dom s)) as [e|]; destruct ctor as [msg|]; simpl.
  - split; [exact H1 | exact H2 |].
    intros sid' h' Hl. destruct (H3 _ _ Hl) as (sh & A & B & C).
    exists sh. split_and!; [| done | done].
    unfold terminal_view in *. simpl. rewrite fmap_app. by apply lookup_app_old.
  - split; [exact H1 | |].
    + intros sid' h'. unfold socket_view. simpl. rewrite fmap_app. simpl. intros Hl.
      apply lookup_insert_Some in Hl as [[<- <-]|[Hne Hl]].
      * exists (length (terminals (term s))).
        apply lookup_fmap_app_new.
      * destruct (H2 _ _ Hl) as [th Hth]. exists th. by apply lookup_app_old.
    + intros sid' h'. unfold terminal_view, socket_view. simpl.
      rewrite alter_app_last, !fmap_app. simpl. intros Hl.
      apply lookup_insert_Some in Hl as [[<- <-]|[Hne Hl]].
      * exists (length (sockets (term s))). split_and!.
        -- apply lookup_fmap_app_new.
        -- by rewrite lookup_insert_eq.
        -- apply lookup_fmap_app_new.
      * destruct (H3 _ _ Hl) as (sh & A & B & C). exists sh. split_and!.
        -- by apply lookup_app_old.
        -- by rewrite lookup_insert_ne.
        -- by apply lookup_app_old.
  - split; [exact H1 | exact H2 |].
    intros sid' h' Hl. destruct (H3 _ _ Hl) as (sh & A & B & C).
    exists sh. split_and!; [| done | done].
    unfold terminal_view in *. simpl. rewrite fmap_app. by apply lookup_app_old.
  - split; [exact H1 | |].
    + intros sid' h'. unfold socket_view. simpl. rewrite fmap_app. simpl. intros Hl.
      apply lookup_insert_Some in Hl as [[<- <-]|[Hne Hl]].
      * exists (length (terminals (term s))).
        apply lookup_fmap_app_new.
      * destruct (H2 _ _ Hl) as [th Hth]. exists th. by apply lookup_app_old.
    + intros sid' h'. unfold terminal_view, socket_view. simpl.
      rewrite alter_app_last, !fmap_app. simpl. intros Hl.
      apply lookup_insert_Some in Hl as [[<- <-]|[Hne Hl]].
      * exists (length (sockets (term s))). split_and!.
        -- apply lookup_fmap_app_new.
        -- by rewrite lookup_insert_eq.
        -- apply lookup_fmap_app_new.
      * destruct (H3 _ _ Hl) as (sh & A & B & C). exists sh. split_and!.
        -- by apply lookup_app_old.
        -- by rewrite lookup_insert_ne.
        -- by apply lookup_app_old.
Qed.

Lemma Owned_closeTab sid s : Owned s → Owned (closeTab sid s).
Proof.
  intros HO. rewrite closeTab_split.
  destruct (JsMap.get sid (sessions s)) as [session|]; [|done].
  eapply Owned_core; [apply ocore_rest|]. unfold closeTab_cleanup.
  repeat case_decide;
    [by apply Owned_cleanupVncSession | by apply Owned_cleanupTerminalSession | done].
Qed.

Lemma Owned_settle_vnc sid r : Owned r.1 → Owned (initVncSession_settle sid r).
Proof.
  destruct r as [s [msg| |]]; simpl; intros HO; [|done|];
    (eapply Owned_core; [|exact HO]); reflexivity.
Qed.

Lemma Owned_settle_terminal sid r : Owned r.1 → Owned (initTerminalSession_settle sid r).
Proof.
  destruct r as [s [msg| |]]; simpl; intros HO; [|done|];
    (eapply Owned_core; [|exact HO]); reflexivity.
Qed.

Lemma Owned_openConsole w n ty p ic s : Owned s → Owned (openConsole w n ty p ic s).
Proof.
  intros HO. unfold openConsole.
  destruct (truthy_id _).
  { destruct (findSessionByName _ _); [|done].
    eapply Owned_core; [|exact HO]. reflexivity. }
  cbv zeta.
  set (s4 := switchToTab _ _).
  assert (Owned s4) as H4 by (eapply Owned_core; [|exact HO]; reflexivity).
  clearbody s4. repeat case_decide; try done.
  - unfold initVncSession. destruct (JsMap.get _ _); [|done].
    destruct (consoleArea _); [|done].
    apply Owned_settle_vnc. eapply Owned_core; [apply ocore_launchVncInContainer|].
    eapply Owned_core; [|exact H4]. reflexivity.
  - unfold initTerminalSession. destruct (JsMap.get _ _); [|done].
    destruct (consoleArea _); [|done].
    apply Owned_settle_terminal. apply Owned_launchTerminalInContainer.
    eapply Owned_core; [|exact H4]. reflexivity.
Qed.

Lemma Owned_step e s : Owned s → Owned (step e s).
Proof.
  intros HO. destruct e; simpl.
  - by apply Owned_openConsole.
  - by apply Owned_closeTab.
  - eapply Owned_core; [|exact HO]. reflexivity.
  - eapply Owned_core; [|exact HO]. unfold vncControl.
    destruct (JsMap.get _ _); [|done]. by destruct (negb _).
  - eapply Owned_core; [|exact HO]. unfold terminalControl.
    destruct (JsMap.get _ _); [|done]. by destruct (negb _).
  - destruct (pending (env s) !! i) as [k|]; [|done]. destruct (settles k v); [|done].
    assert (Owned (drop_pending i s)) as HO'
      by (eapply Owned_core; [|exact HO]; reflexivity).
    destruct k, v; simpl; try done.
    + apply Owned_settle_vnc. apply Owned_launchVncInContainer_resume.
      eapply Owned_core; [|exact HO'].
      destruct (clipboard_probe_frame probe (drop_pending i s)) as (_ & _ & V & T & _).
      by apply ocore_same_modules.
    + eapply Owned_core; [|exact HO']. unfold vncControl_resume.
      destruct (reports_success result); [|done]. by destruct (_ || _).
    + eapply Owned_core; [|exact HO']. unfold terminalControl_resume.
      destruct (reports_success result); [|done]. by destruct (_ || _).
  - destruct (timers (env s) !! i) as [[d a]|]; [|done].
    assert (Owned (drop_timer i s)) as HO'
      by (eapply Owned_core; [|exact HO]; reflexivity).
    destruct a; simpl; [|done]. by apply Owned_closeTab.
  - destruct (rfbs (vnc s) !! client); [|done].
    eapply Owned_core; [|exact HO]. unfold onRfbConnect.
    transitivity (ocore (setStatus (rfb_statusEl r) "Connected"
                           "console-status console-status-connected" s));
      [reflexivity | apply ocore_setStatus].
  - destruct (rfbs (vnc s) !! client); [|done]. unfold onRfbDisconnect.
    assert (Owned (setStatus (rfb_statusEl r)
                     (if clean then "Clean Disconnect" else "Disconnected")
                     "console-status console-status-error" s)) as H1
      by (eapply Owned_core; [apply ocore_setStatus | done]).
    destruct clean; [by apply Owned_closeTab | done].
  - destruct (rfbs (vnc s) !! client); [|done].
    eapply Owned_core; [|exact HO]. unfold onRfbSecurityFailure.
    transitivity (ocore (setStatus (rfb_statusEl r) "Security Error"
                           "console-status console-status-error" s));
      [reflexivity | apply ocore_setStatus].
  - destruct (sockets (term s) !! socket); [|done].
    eapply Owned_core; [|exact HO]. unfold onSocketOpen, writeln.
    rewrite !ocore_write, ocore_setStatus. by apply ocore_alter_socket.
  - destruct (sockets (term s) !! socket); [|done].
    eapply Owned_core; [|exact HO]. apply ocore_write.
  - destruct (sockets (term s) !! socket); [|done].
    eapply Owned_core; [|exact HO]. unfold onSocketError, writeln.
    transitivity (ocore (write (ws_terminal w) ((CRLF +:+ ESC +:+ "[1;31mConnection error"
                            +:+ ESC +:+ "[0m" +:+ CRLF) +:+ CRLF)
                           (setStatus (ws_statusEl w) "Connection Error"
                              "console-status console-status-error" s)));
      [reflexivity|]. by rewrite ocore_write, ocore_setStatus.
  - destruct (sockets (term s) !! socket); [|done].
    eapply Owned_core; [|exact HO]. unfold onSocketClose, writeln.
    transitivity (ocore (write (ws_terminal w) ((CRLF +:+ ESC +:+ "[1;33mConnection closed"
                            +:+ ESC +:+ "[0m" +:+ CRLF) +:+ CRLF)
                           (setStatus (ws_statusEl w) "Disconnected"
                              "console-status console-status-error"
                              (with_sockets (alter (set_readyState CLOSED) socket) s))));
      [reflexivity|]. rewrite ocore_write, ocore_setStatus. by apply ocore_alter_socket.
  - destruct (terminals (term s) !! terminal) as [t|]; [|done].
    destruct (term_socket t); [|done]. unfold onData.
    destruct (sockets (term s) !! n); [|done].
    destruct (ws_readyState w); try done.
    eapply Owned_core; [|exact HO]. by apply ocore_alter_socket.
Qed.

Lemma Owned_initial p : Owned (initial p).
Proof. split; simpl; intros sid h Hl; by rewrite lookup_empty in Hl. Qed.

Lemma reachable_Owned s : reachable s → Owned s.
Proof.
  induction 1 as [p | e s Hs IH Hen]; [apply Owned_initial | by apply Owned_step].
Qed.

(** X11.  In every reachable state the transport maps point at the sessions'
    own live objects.  The client [rfbClients] holds for a session id is an
    RFB client whose listeners hold that id and on which [disconnect()] has
    not been called; the socket [termSockets] holds for it is a socket whose
    handlers hold that id; the terminal [termInstances] holds for it is not
    disposed, and it and the session's socket hold each other.  Hence two
    session ids never share a client, a socket or a terminal. *)
Theorem X11_handles_are_owned (s : State) :
  reachable s →
  (∀ sid h, rfbClients (vnc s) !! sid = Some h →
     ∃ c, rfbs (vnc s) !! h = Some c ∧ rfb_session c = sid ∧ rfb_disconnected c = false) ∧
  (∀ sid h, termSockets (term s) !! sid = Some h →
     ∃ w, sockets (term s) !! h = Some w ∧ ws_session w = sid) ∧
  (∀ sid h, termInstances (term s) !! sid = Some h →
     ∃ t sh w, terminals (term s) !! h = Some t ∧ term_disposed t = false ∧
               term_socket t = Some sh ∧ termSockets (term s) !! sid = Some sh ∧
               sockets (term s) !! sh = Some w ∧ ws_terminal w = h) ∧
  (∀ sid sid' h,
     sid ≠ sid' →
     ¬ (rfbClients (vnc s) !! sid = Some h ∧ rfbClients (vnc s) !! sid' = Some h) ∧
     ¬ (termSockets (term s) !! sid = Some h ∧ termSockets (term s) !! sid' = Some h) ∧
     ¬ (termInstances (term s) !! sid = Some h ∧ termInstances (term s) !! sid' = Some h)).
Proof.
  intros Hs. destruct (reachable_Owned s Hs) as [H1 H2 H3].
  assert (∀ sid h, rfbClients (vnc s) !! sid = Some h →
     ∃ c, rfbs (vnc s) !! h = Some c ∧ rfb_session c = sid ∧ rfb_disconnected c = false) as R1.
  { intros sid h Hl. apply H1 in Hl. unfold rfb_view in Hl.
    rewrite list_lookup_fmap in Hl. destruct (rfbs (vnc s) !! h) as [c|] eqn:Ec; [|done].
    simpl in Hl. injection Hl as <- Hd. eauto. }
  assert (∀ sid h, termSockets (term s) !! sid = Some h →
     ∃ w, sockets (term s) !! h = Some w ∧ ws_session w = sid) as R2.
  { intros sid h Hl. destruct (H2 _ _ Hl) as [th Hth]. unfold socket_view in Hth.
    rewrite list_lookup_fmap in Hth.
    destruct (sockets (term s) !! h) as [w|] eqn:Ew; [|done].
    simpl in Hth. injection Hth as <- _. eauto. }
  assert (∀ sid h, termInstances (term s) !! sid = Some h →
     ∃ t sh w, terminals (term s) !! h = Some t ∧ term_disposed t = false ∧
               term_socket t = Some sh ∧ termSockets (term s) !! sid = Some sh ∧
               sockets (term s) !! sh = Some w ∧ ws_terminal w = h) as R3.
  { intros sid h Hl. destruct (H3 _ _ Hl) as (sh & A & B & C).
    unfold terminal_view in A. unfold socket_view in C.
    rewrite list_lookup_fmap in A. rewrite list_lookup_fmap in C.
    destruct (terminals (term s) !! h) as [t|] eqn:Et; [|done].
    destruct (sockets (term s) !! sh) as [w|] eqn:Ew; [|done].
    simpl in A, C. injection A as A1 A2. injection C as C1 C2.
    exists t, sh, w. split_and!; done. }
  split_and!; [done..|].
  intros sid sid' h Hne. split_and!.
  - intros [A B]. destruct (R1 _ _ A) as (c & Hc & <- & _).
    destruct (R1 _ _ B) as (c' & Hc' & <- & _). congruence.
  - intros [A B]. destruct (R2 _ _ A) as (w & Hw & <-).
    destruct (R2 _ _ B) as (w' & Hw' & <-). congruence.
  - intros [A B]. destruct (R3 _ _ A) as (t & sh & w & Ht & _ & Hts & Hsk & Hw & _).
    destruct (R3 _ _ B) as (t' & sh' & w' & Ht' & _ & Hts' & Hsk' & Hw' & _).
    assert (sh = sh') as -> by congruence.
    destruct (R2 _ _ Hsk) as (w1 & Hw1 & <-). destruct (R2 _ _ Hsk') as (w2 & Hw2 & <-).
    congruence.
Qed.

(** ** Switching tabs *)

(** X12.  [switchToTab] does not look at what is in front: after two switches
    in a row the page is as after the second alone, so a repeated click on a
    tab changes nothing more.  A switch touches the foreground and the classes
    of the tabs and containers only: the registry, the transports, the viewer
    and what is scheduled stay as they are, and no tab or container is added
    or removed. *)
Theorem X12_switch_last_wins (s : State) (a b : string) :
  switchToTab a (switchToTab b s) = switchToTab a s ∧
  active (switchToTab a s) = Some a ∧
  sessions (switchToTab a s) = sessions s ∧
  vnc (switchToTab a s) = vnc s ∧ term (switchToTab a s) = term s ∧
  env (switchToTab a s) = env s ∧
  viewer (dom (switchToTab a s)) = viewer (dom s) ∧
  tab_keys (switchToTab a s) = tab_keys s ∧
  (container_flags (switchToTab a s)).*1 = (container_flags s).*1.
Proof.
  split_and!; try reflexivity.
  - destruct s as [c d v t e]. destruct d as [vw tb ca nn].
    unfold switchToTab, with_dom, with_active, map_containers, map_tabs. simpl.
    f_equal. f_equal.
    + destruct tb as [tabs|]; [|done]. simpl. f_equal.
      rewrite <- list_fmap_compose. apply list_fmap_ext. intros ? t0 _. reflexivity.
    + destruct ca as [cs|]; [|done]. simpl. f_equal.
      rewrite <- list_fmap_compose. apply list_fmap_ext. intros ? c0 _. reflexivity.
  - unfold tab_keys, switchToTab. simpl.
    destruct (tabBar (dom s)) as [tabs|]; [|done]. simpl.
    rewrite <- list_fmap_compose. reflexivity.
  - unfold container_flags, switchToTab. simpl.
    destruct (consoleArea (dom s)) as [cs|]; [|done]. simpl.
    rewrite <- !list_fmap_compose. reflexivity.
Qed.

(** ** api.js *)

Lemma caught_effect message s :
  API.reply_result (API.caught message s) = ApiNull ∧
  API.reply_login (API.caught message s) = false ∧
  API.reply_state (API.caught message s) =
    showStatus ("Network Error: Could not reach the API server. (" +:+ message +:+ ")")
               "error" s.
Proof. done. Qed.

Lemma settle_state endpoint f s :
  at_most_error_toast s (API.reply_state (API.settle endpoint f s)).
Proof.
  unfold at_most_error_toast, API.settle, API.finish, API.caught.
  destruct f as [m|r]; simpl; [eauto|].
  destruct (N.eqb (API.r_status r) 401); simpl; [eauto|].
  destruct (API.r_body r) as [| | |[te|m st]], (API.r_ok r), (API.reported endpoint r);
    simpl; eauto.
Qed.

Lemma settle_null endpoint f s :
  (∀ r, f = API.FetchResponds r → API.r_ok r = false ∨ API.r_status r = 401%N) →
  API.reply_result (API.settle endpoint f s) = ApiNull.
Proof.
  intros Hf. unfold API.settle, API.finish, API.caught.
  destruct f as [m|r]; simpl; [done|].
  destruct (N.eqb_spec (API.r_status r) 401) as [|Hne]; simpl; [done|].
  destruct (Hf r eq_refl) as [Hok|]; [|done]. rewrite Hok. simpl.
  destruct (API.r_body r) as [| | |[te|m st]], (API.reported endpoint r); simpl; done.
Qed.

Lemma settle_frame endpoint f s :
  let s' := API.reply_state (API.settle endpoint f s) in
  cm s' = cm s ∧ dom s' = dom s ∧ vnc s' = vnc s ∧ term s' = term s ∧
  timers (env s') = timers (env s) ∧ pending (env s') = pending (env s) ∧
  apiCalls (env s') = apiCalls (env s) ∧
  (toasts (env s') = toasts (env s) ∨
   ∃ message, toasts (env s') = toasts (env s) ++ [(message, "error")]).
Proof.
  cbv zeta. destruct (settle_state endpoint f s) as [->|[message ->]].
  - split_and!; try done. by left.
  - split_and!; try done. right. by exists message.
Qed.

Lemma settle_accepted endpoint resp s :
  API.r_ok resp = true → API.r_status resp ≠ 401%N →
  API.reply_state (API.settle endpoint (API.FetchResponds resp) s) = s ∧
  API.reply_result (API.settle endpoint (API.FetchResponds resp) s) =
    match API.r_body resp with
    | API.BodyParsed p => API.to_result p
    | _ => ApiJson JUndefined
    end.
Proof.
  intros Hok Hne. unfold API.settle, API.finish. simpl.
  destruct (N.eqb_spec (API.r_status resp) 401) as [|_]; [done|]. rewrite Hok. simpl.
  destruct (API.r_body resp) as [| | |[te|m st]]; done.
Qed.

(** X13.  [apiCall] never hands a failure to its caller as a value: it
    resolves to [null] unless the server answered with an [ok] status other
    than 401.  For such an answer it shows nothing and returns the parsed
    body, or [{}] when the body is empty or is not JSON.  The login dialog is
    opened exactly on a 401, and then nothing is reported.  So a caller that
    tests [result && result.status === 'success'] passes only on an accepted
    request whose body carries that status. *)
Theorem X13_api_result (endpoint : string) (f : API.Fetch) (s : State) :
  let r := API.settle endpoint f s in
  (API.reply_result r ≠ ApiNull →
     ∃ resp, f = API.FetchResponds resp ∧ API.r_ok resp = true ∧
             API.r_status resp ≠ 401%N) ∧
  (∀ resp, f = API.FetchResponds resp → API.r_ok resp = true →
     API.r_status resp ≠ 401%N →
     API.reply_state r = s ∧ API.reply_login r = false ∧
     API.reply_result r = match API.r_body resp with
                          | API.BodyParsed p => API.to_result p
                          | _ => ApiJson JUndefined
                          end) ∧
  (API.reply_login r = true ↔
     ∃ resp, f = API.FetchResponds resp ∧ API.r_status resp = 401%N) ∧
  (API.reply_login r = true → API.reply_state r = s) ∧
  (reports_success (API.reply_result r) = true →
     ∃ resp m, f = API.FetchResponds resp ∧ API.r_ok resp = true ∧
               API.r_status resp ≠ 401%N ∧
               API.r_body resp = API.BodyParsed (API.PValue m (JStr "success"))).
Proof.
  cbv zeta. unfold API.settle, API.finish, API.caught.
  destruct f as [m|r]; simpl.
  { split_and!; try done.
    - split; [done | by intros (? & ? & _)]. }
  destruct (N.eqb_spec (API.r_status r) 401) as [E|Hne]; simpl.
  { split_and!; try done.
    - intros resp [= <-] _ Hs. done.
    - split; [eauto | done]. }
  split_and!.
  - intros Hr. exists r. split_and!; [done| |done].
    destruct (API.r_ok r); [done|]. exfalso. apply Hr.
    destruct (API.r_body r) as [| | |[te|m st]], (API.reported endpoint r); done.
  - intros resp [= <-] Hok _. rewrite Hok. simpl.
    destruct (API.r_body r) as [| | |[te|m st]]; done.
  - split.
    + destruct (API.r_body r) as [| | |[te|m st]], (API.r_ok r), (API.reported endpoint r);
        done.
    + by intros (resp & [= <-] & ?).
  - destruct (API.r_body r) as [| | |[te|m st]], (API.r_ok r), (API.reported endpoint r);
      done.
  - intros Hr. destruct (API.r_ok r) eqn:Hok.
    + destruct (API.r_body r) as [| | |[te|m st]] eqn:Hb; simpl in Hr; try done.
      apply bool_decide_eq_true in Hr as ->. by exists r, m.
    + destruct (API.r_body r) as [| | |[te|m st]], (API.reported endpoint r); done.
Qed.

(** X14.  All [apiCall] does to the page is to show at most one toast, of
    the error kind: the registry, the page elements, the transports, the
    timers and the suspended calls are untouched.  A rejected [fetch] is
    reported as a network error with its message; an answer that is not [ok]
    (and not a 401) is reported once, unless it is a 404 on an endpoint whose
    path contains [download-progress], which is passed over in silence. *)
Theorem X14_api_effects (endpoint : string) (f : API.Fetch) (s : State) :
  let s' := API.reply_state (API.settle endpoint f s) in
  (cm s' = cm s ∧ dom s' = dom s ∧ vnc s' = vnc s ∧ term s' = term s ∧
   timers (env s') = timers (env s) ∧ pending (env s') = pending (env s) ∧
   apiCalls (env s') = apiCalls (env s)) ∧
  at_most_error_toast s s' ∧
  (∀ message, f = API.FetchRejects message →
     s' = showStatus ("Network Error: Could not reach the API server. (" +:+ message +:+ ")")
                     "error" s) ∧
  (∀ resp, f = API.FetchResponds resp → API.r_ok resp = false →
     API.r_status resp ≠ 401%N →
     if bool_decide (API.r_status resp = 404%N) && API.includes "download-progress" endpoint
     then s' = s
     else ∃ message, toasts (env s') = toasts (env s) ++ [(message, "error")]).
Proof.
  cbv zeta. split; [|split; [|split]].
  - destruct (settle_frame endpoint f s) as (? & ? & ? & ? & ? & ? & ? & _). done.
  - apply settle_state.
  - by intros message ->.
  - intros resp -> Hok Hne. unfold API.settle, API.finish, API.caught. simpl.
    destruct (N.eqb_spec (API.r_status resp) 401) as [|_]; [done|]. rewrite Hok. simpl.
    unfold API.reported.
    destruct (N.eqb_spec (API.r_status resp) 404) as [E4|N4]; simpl.
    + rewrite bool_decide_eq_true_2 by done. simpl.
      destruct (API.includes "download-progress" endpoint); simpl.
      * destruct (API.r_body resp) as [| | |[te|m st]]; done.
      * destruct (API.r_body resp) as [| | |[te|m st]]; simpl; eauto.
    + rewrite bool_decide_eq_false_2 by done. simpl.
      destruct (API.r_body resp) as [| | |[te|m st]]; simpl; eauto.
Qed.

Lemma control_endpoint_not_login n action : control_endpoint n action ≠ "/auth/login".
Proof. unfold control_endpoint. cbv [String.append]. discriminate. Qed.

Lemma control_url n action :
  API.API_BASE +:+ control_endpoint n action = "/api/vm/" +:+ n +:+ "/" +:+ action.
Proof. reflexivity. Qed.

(** X15.  A control button of a console posts to [/api/vm/<name>/<action>],
    the name being the one the session was opened with: the dispatcher of the
    session's kind records that call and suspends, and the request [apiCall]
    builds for it has no body and carries the JSON content type and, whenever
    a token is set, the bearer token (the exemption of the login endpoint never
    applies to it). *)
Theorem X15_control_request (s : State) (sid action : string) (session : Session)
    (authToken : option string) :
  JsMap.get sid (sessions s) = Some session →
  type session = "vnc" ∨ type session = "terminal" →
  let endpoint := control_endpoint (name session) action in
  let ev := if decide (type session = "vnc") then EVncControl sid action
            else ETerminalControl sid action in
  let k := if decide (type session = "vnc") then KVncControl sid action
           else KTerminalControl sid action in
  apiCalls (env (step ev s)) = apiCalls (env s) ++ [(endpoint, "POST")] ∧
  pending (env (step ev s)) = pending (env s) ++ [k] ∧
  API.request authToken endpoint "POST" None =
    inr (API.mkRequest ("/api/vm/" +:+ name session +:+ "/" +:+ action) "POST"
           (("Content-Type", "application/json") ::
            match authToken with
            | Some t => if decide (t = "") then [] else [("Authorization", "Bearer " +:+ t)]
            | None => []
            end)
           None).
Proof.
  intros Hs Hty. cbv zeta. split_and!.
  - destruct Hty as [Hty|Hty]; rewrite Hty; simpl.
    + unfold vncControl. rewrite Hs, Hty. reflexivity.
    + unfold terminalControl. rewrite Hs, Hty. reflexivity.
  - destruct Hty as [Hty|Hty]; rewrite Hty; simpl.
    + unfold vncControl. rewrite Hs, Hty. reflexivity.
    + unfold terminalControl. rewrite Hs, Hty. reflexivity.
  - unfold API.request. rewrite control_url.
    rewrite (bool_decide_eq_false_2 _ (control_endpoint_not_login _ _)). simpl.
    destruct authToken as [t|]; simpl; [|done].
    destruct (String.eqb_spec t ""), (decide (t = "")); done.
Qed.

Lemma step_resume_control i k sid action result s :
  pending (env s) !! i = Some k →
  k = KVncControl sid action ∨ k = KTerminalControl sid action →
  step (EResume i (ApiReturned result)) s =
  (if decide (k = KVncControl sid action) then vncControl_resume else terminalControl_resume)
    sid action result (drop_pending i s).
Proof.
  intros Hp [->| ->]; simpl; rewrite Hp; simpl.
  - by rewrite decide_True.
  - reflexivity.
Qed.

(** X16.  A control action the server does not accept never closes the tab.
    When [fetch] rejects, or the answer is a 401 or is not [ok], the
    dispatcher that waited for [apiCall] (of either kind) finishes without
    doing anything: it shows no toast of its own and schedules nothing.
    What remains of the whole call is at most the one error toast of
    [apiCall], and the session, its tab and its transport stay. *)
Theorem X16_refused_control_keeps_tab (s : State) (i : nat) (sid action endpoint : string)
    (k : Cont) (f : API.Fetch) :
  pending (env s) !! i = Some k →
  k = KVncControl sid action ∨ k = KTerminalControl sid action →
  (∀ resp, f = API.FetchResponds resp →
     API.r_ok resp = false ∨ API.r_status resp = 401%N) →
  let s' := answered i endpoint f s in
  s' = drop_pending i (API.reply_state (API.settle endpoint f s)) ∧
  cm s' = cm s ∧ dom s' = dom s ∧ vnc s' = vnc s ∧ term s' = term s ∧
  timers (env s') = timers (env s) ∧
  pending (env s') = drop_nth i (pending (env s)) ∧
  (toasts (env s') = toasts (env s) ∨
   ∃ message, toasts (env s') = toasts (env s) ++ [(message, "error")]).
Proof.
  intros Hp Hk Hf. cbv zeta. unfold answered. cbv zeta.
  destruct (settle_frame endpoint f s) as (C & D & V & T & Ti & P & A & To).
  rewrite (step_resume_control i k sid action) by (by rewrite ?P).
  rewrite (settle_null endpoint f s Hf).
  assert (∀ st, (if decide (k = KVncControl sid action) then vncControl_resume
                 else terminalControl_resume) sid action ApiNull st = st) as ->.
  { intros st. by destruct (decide _). }
  split_and!; simpl; try done. by rewrite P.
Qed.

(** X17.  An accepted [stop] or [destroy] closes the console two seconds
    later.  When the answer is [ok], not a 401, and its body carries the
    status [success], [apiCall] shows nothing, the dispatcher shows its
    [command sent] toast and schedules one [closeTab] for its session after
    2000 ms; when that timer fires the session is out of the registry and the
    timer is consumed. *)
Theorem X17_accepted_stop_closes (s : State) (i : nat) (sid action endpoint : string)
    (k : Cont) (resp : API.Response) (m : option string) :
  wf_registry s →
  pending (env s) !! i = Some k →
  k = KVncControl sid action ∨ k = KTerminalControl sid action →
  action = "stop" ∨ action = "destroy" →
  API.r_ok resp = true → API.r_status resp ≠ 401%N →
  API.r_body resp = API.BodyParsed (API.PValue m (JStr "success")) →
  let s' := answered i endpoint (API.FetchResponds resp) s in
  let kind := if decide (k = KVncControl sid action) then "VM " else "Container " in
  toasts (env s') = toasts (env s) ++ [(kind +:+ action +:+ " command sent", "success")] ∧
  timers (env s') = timers (env s) ++ [(2000%Z, TCloseTab sid)] ∧
  pending (env s') = drop_nth i (pending (env s)) ∧
  sessions s' = sessions s ∧
  let s'' := step (ETimer (length (timers (env s)))) s' in
  JsMap.get sid (sessions s'') = None ∧ timers (env s'') = timers (env s).
Proof.
  intros Hwf Hp Hk Ha Hok Hne Hb. cbv zeta. unfold answered. cbv zeta.
  destruct (settle_accepted endpoint resp s Hok Hne) as (-> & R).
  rewrite R, Hb. simpl API.to_result.
  rewrite (step_resume_control i k sid action) by done.
  set (s1 := (if decide (k = KVncControl sid action) then vncControl_resume
              else terminalControl_resume) sid action (ApiJson (JStr "success"))
               (drop_pending i s)).
  assert (s1 = setTimeout (TCloseTab sid) CONTROL_ACTION_DELAY
                 (showStatus ((if decide (k = KVncControl sid action) then "VM "
                               else "Container ") +:+ action +:+ " command sent")
                             "success" (drop_pending i s))) as E1.
  { unfold s1. destruct (decide _); unfold vncControl_resume, terminalControl_resume; simpl;
      destruct Ha as [-> | ->]; reflexivity. }
  clearbody s1. subst s1.
  split_and!; try reflexivity.
  - simpl. rewrite lookup_app_r by (simpl; lia).
    replace (length (timers (env s)) - length (timers (env s))) with 0 by lia. simpl.
    rewrite closeTab_sessions. apply JsMapFacts.get_delete_eq. exact Hwf.
  - simpl. rewrite lookup_app_r by (simpl; lia).
    replace (length (timers (env s)) - length (timers (env s))) with 0 by lia. simpl.
    rewrite closeTab_env. simpl.
    rewrite (drop_nth_app_head (timers (env s)) _ []). by rewrite app_nil_r.
Qed.

(** ** The clipboard probe *)

Lemma probes_cons c cs b :
  probes (c :: cs) b = probes cs (requestClipboardPermissions c b).1.
Proof. reflexivity. Qed.

Lemma probe_other c b :
  c ≠ ReadRejects → (requestClipboardPermissions c b).1 = b.
Proof. by destruct c. Qed.

Lemma probe_known b :
  truthy_id (br_localStorage b !! notificationKey) = true →
  (requestClipboardPermissions ReadRejects b).1 = b.
Proof. intros H. unfold requestClipboardPermissions. by rewrite H. Qed.

Lemma probe_first b :
  truthy_id (br_localStorage b !! notificationKey) = false →
  (requestClipboardPermissions ReadRejects b).1 =
  mkBrowser (showStatus clipboard_tip "info" (br_page b))
            (<[notificationKey := "true"]> (br_localStorage b)).
Proof. intros H. unfold requestClipboardPermissions. by rewrite H. Qed.

Lemma probes_known cs b :
  truthy_id (br_localStorage b !! notificationKey) = true → probes cs b = b.
Proof.
  intros Hk. induction cs as [|c cs IH]; [done|]. rewrite probes_cons.
  destruct (decide (c = ReadRejects)) as [->|Hc].
  - by rewrite probe_known.
  - by rewrite probe_other.
Qed.

Lemma probes_no_reject cs b : ReadRejects ∉ cs → probes cs b = b.
Proof.
  induction cs as [|c cs IH]; [done|]. rewrite not_elem_of_cons. intros [Hc Hcs].
  rewrite probes_cons, probe_other by done. by apply IH.
Qed.

Lemma probes_first cs b :
  truthy_id (br_localStorage b !! notificationKey) = false → ReadRejects ∈ cs →
  probes cs b = mkBrowser (showStatus clipboard_tip "info" (br_page b))
                          (<[notificationKey := "true"]> (br_localStorage b)).
Proof.
  intros Hk. induction cs as [|c cs IH]; intros Hin; [by apply elem_of_nil in Hin|].
  rewrite probes_cons. destruct (decide (c = ReadRejects)) as [->|Hc].
  - rewrite probe_first by done. apply probes_known. simpl. by rewrite lookup_insert_eq.
  - rewrite probe_other by done. apply IH.
    apply elem_of_cons in Hin as [E|Hin]; [by subst | done].
Qed.

(** X18.  The clipboard tip is shown at most once per browser.  Over any
    number of probes, whatever the clipboard answers, the page gets the tip
    toast exactly when the notification key was not set in [localStorage] and
    some probe's [readText()] was rejected, and then exactly once; after a
    rejected probe the key is set, and no other key is ever touched.  Nothing else of the page changes.  A probe returns [true]
    exactly when [readText()] resolves. *)
Theorem X18_clipboard_tip_once (cs : list Clipboard) (b : Browser) :
  let b' := probes cs b in
  let shown := negb (truthy_id (br_localStorage b !! notificationKey))
               && bool_decide (ReadRejects ∈ cs) in
  toasts (env (br_page b')) =
    toasts (env (br_page b)) ++ (if shown then [(clipboard_tip, "info")] else []) ∧
  (cm (br_page b') = cm (br_page b) ∧ dom (br_page b') = dom (br_page b) ∧
   vnc (br_page b') = vnc (br_page b) ∧ term (br_page b') = term (br_page b) ∧
   timers (env (br_page b')) = timers (env (br_page b)) ∧
   pending (env (br_page b')) = pending (env (br_page b))) ∧
  (ReadRejects ∈ cs → truthy_id (br_localStorage b' !! notificationKey) = true) ∧
  (∀ k, k ≠ notificationKey → br_localStorage b' !! k = br_localStorage b !! k) ∧
  (∀ c b0, (requestClipboardPermissions c b0).2 = true ↔ ∃ text, c = ReadResolves text).
Proof.
  cbv zeta.
  assert (∀ c b0, (requestClipboardPermissions c b0).2 = true ↔ ∃ text, c = ReadResolves text)
    as Hret.
  { intros c b0. destruct c; simpl.
    - split; [done | by intros [? ?]].
    - split; [eauto | done].
    - destruct (negb _); simpl; (split; [done | by intros [? ?]]). }
  destruct (truthy_id (br_localStorage b !! notificationKey)) eqn:Hk.
  - rewrite probes_known by done. simpl. rewrite app_nil_r. split_and!; done.
  - destruct (decide (ReadRejects ∈ cs)) as [Hin|Hin].
    + rewrite probes_first by done. rewrite bool_decide_eq_true_2 by done. simpl.
      split_and!; try done.
      * intros _. by rewrite lookup_insert_eq.
      * intros k Hne. by rewrite lookup_insert_ne.
    + rewrite probes_no_reject by done. rewrite bool_decide_eq_false_2 by done. simpl.
      rewrite app_nil_r. split_and!; done.
Qed.

(** ** Waiting for noVNC *)

Lemma poll_spec rfb remaining attempts :
  let r := poll rfb remaining attempts in
  attempts ≤ r.1 ≤ attempts + remaining ∧ r.2 = rfb r.1 ∧
  (∀ k, attempts ≤ k < r.1 → rfb k = false) ∧
  (r.2 = false → r.1 = attempts + remaining).
Proof.
  cbv zeta. revert attempts. induction remaining as [|n IH]; intros attempts; simpl.
  - destruct (rfb attempts) eqn:E; simpl; split_and!; try done; try lia; intros; lia.
  - destruct (rfb attempts) eqn:E; simpl.
    + split_and!; try done; try lia; intros; lia.
    + destruct (IH (S attempts)) as (A & B & C & D). split_and!; [lia | lia | done | | ].
      * intros k Hk. destruct (decide (k = attempts)) as [->|Hne]; [done|].
        apply C. lia.
      * intros H. rewrite D by done. lia.
Qed.

(** X19.  [checkNoVNCLoaded] always comes back, after at most 50 waits of
    100 ms, that is within five seconds.  It comes back as soon as
    [window.RFB] is found set: the tests before the last all found it missing,
    and if any of the first 51 tests would find it set, the library is
    reported loaded.  It gives up (and logs the failure) only after all 50
    waits. *)
Theorem X19_novnc_wait_bounded (rfb : nat → bool) :
  let r := checkNoVNCLoaded rfb in
  r.1 ≤ VNC_LOAD_MAX_ATTEMPTS ∧ (waited r.1 ≤ 5000)%Z ∧
  r.2 = rfb r.1 ∧
  (∀ k, k < r.1 → rfb k = false) ∧
  (r.2 = false → r.1 = VNC_LOAD_MAX_ATTEMPTS) ∧
  (∀ k, k ≤ VNC_LOAD_MAX_ATTEMPTS → rfb k = true → r.2 = true ∧ r.1 ≤ k).
Proof.
  cbv zeta. unfold checkNoVNCLoaded.
  destruct (poll_spec rfb VNC_LOAD_MAX_ATTEMPTS 0) as (A & B & C & D).
  set (r := poll rfb VNC_LOAD_MAX_ATTEMPTS 0) in *. clearbody r.
  unfold VNC_LOAD_MAX_ATTEMPTS in *. simpl in A, D.
  split_and!; [lia | unfold waited, VNC_LOAD_RETRY_DELAY_MS; lia | done | | done | ].
  - intros k Hk. apply C. lia.
  - intros k Hk Hr.
    assert (r.1 ≤ k) as Hle.
    { destruct (decide (r.1 ≤ k)) as [|Hgt]; [done|].
      rewrite C in Hr by lia. done. }
    split; [|done]. destruct (r.2) eqn:E; [done|].
    specialize (D eq_refl). assert (k = r.1) as -> by lia. congruence.
Qed.

(** ** The Take Over button *)

Lemma set_instance_same (x : Session) : set_instance (instance x) x = x.
Proof. by destruct x. Qed.

Lemma get_assign_instance sid i s k :
  JsMap.get k (sessions (assign_instance sid i s)) =
  if decide (sid = k) then set_instance i <$> JsMap.get sid (sessions s)
  else JsMap.get k (sessions s).
Proof.
  change (sessions (assign_instance sid i s))
    with (match JsMap.get sid (sessions s) with
          | Some session => JsMap.set sid (set_instance i session) (sessions s)
          | None => sessions s
          end).
  destruct (JsMap.get sid (sessions s)) as [x|] eqn:E.
  - rewrite JsMapFacts.get_set. by destruct (decide (sid = k)).
  - destruct (decide (sid = k)) as [<-|]; [by rewrite E | done].
Qed.

(** The launches leave every registry entry as it is, but for its
    [instance]. *)
Lemma entry_assign_instance sid i s k x :
  JsMap.get k (sessions s) = Some x →
  ∃ j, JsMap.get k (sessions (assign_instance sid i s)) = Some (set_instance j x).
Proof.
  intros E. rewrite get_assign_instance. destruct (decide (sid = k)) as [->|].
  - rewrite E. by exists i.
  - exists (instance x). by rewrite set_instance_same.
Qed.

Lemma entry_same s s' k x :
  sessions s' = sessions s → JsMap.get k (sessions s) = Some x →
  ∃ j, JsMap.get k (sessions s') = Some (set_instance j x).
Proof. intros -> E. exists (instance x). by rewrite set_instance_same. Qed.

Lemma entry_initVncSession sid n p m s k x :
  JsMap.get k (sessions s) = Some x →
  ∃ j, JsMap.get k (sessions (initVncSession sid n p m s)) = Some (set_instance j x).
Proof.
  intros E. unfold initVncSession.
  destruct (JsMap.get sid (sessions s)); [|by apply (entry_same s)].
  destruct (consoleArea (dom s)); [|by apply (entry_same s)].
  set (s1 := with_dom _ s).
  pose proof (core_launchVncInContainer sid n p ("canvas-" +:+ sid) ("status-" +:+ sid) s1) as C.
  destruct (launchVncInContainer _ _ _ _ _ s1) as [s2 [msg| |]];
    simpl in C; apply core_proj in C as (C & _ & _); change (sessions s1) with (sessions s) in C;
    unfold initVncSession_settle.
  - by apply (entry_same s).
  - by apply (entry_same s).
  - apply entry_assign_instance. by rewrite C.
Qed.

Lemma entry_initTerminalSession sid n ctor m s k x :
  JsMap.get k (sessions s) = Some x →
  ∃ j, JsMap.get k (sessions (initTerminalSession sid n ctor m s)) = Some (set_instance j x).
Proof.
  intros E. unfold initTerminalSession.
  destruct (JsMap.get sid (sessions s)); [|by apply (entry_same s)].
  destruct (consoleArea (dom s)); [|by apply (entry_same s)].
  set (s1 := with_dom _ s).
  pose proof (core_launchTerminalInContainer sid n ("terminal-" +:+ sid)
                ("status-" +:+ sid) ctor s1) as C.
  destruct (launchTerminalInContainer _ _ _ _ _ s1) as [s2 [msg| |]];
    simpl in C; apply core_proj in C as (C & _ & _); change (sessions s1) with (sessions s) in C;
    unfold initTerminalSession_settle.
  - by apply (entry_same s).
  - by apply (entry_same s).
  - apply entry_assign_instance. by rewrite C.
Qed.

(** The entry a new [openConsole] leaves in the registry. *)
Lemma openConsole_new_entry w n ty p ic s :
  findSessionByName n (sessions s) = None →
  ∃ j, JsMap.get (newSessionId w) (sessions (openConsole w n ty p ic s)) =
       Some (mkSession (newSessionId w) n ty (default_null p) (default_null ic) j).
Proof.
  intros Hf. rewrite openConsole_new by (by rewrite Hf). cbv zeta.
  pose proof (registered_get w n ty (default_null p) (default_null ic) s) as R.
  set (s4 := registered _ _ _ _ _ _) in *.
  destruct (decide (ty = "vnc")); [|destruct (decide (ty = "terminal"))].
  - destruct (entry_initVncSession (newSessionId w) n (default_null p) (markup_of w n) s4 _ _ R) as [j ->].
    by exists j.
  - destruct (entry_initTerminalSession (newSessionId w) n (wsCtor w) (markup_of w n) s4 _ _ R) as [j ->].
    by exists j.
  - rewrite R. by exists None.
Qed.

Lemma vnc_launchTerminalInContainer sid cn tid stid ctor s :
  vnc (launchTerminalInContainer sid cn tid stid ctor s).1 = vnc s.
Proof.
  unfold launchTerminalInContainer.
  destruct (xtermLoaded (term s)); simpl; [|done].
  destruct (fitAddonLoaded (term s)); simpl; [|done].
  destruct (getTerminalEl tid (dom s)); simpl; [|done].
  destruct (getStatusEl stid (dom s)); destruct ctor; reflexivity.
Qed.

Lemma vnc_initTerminalSession sid n ctor m s : vnc (initTerminalSession sid n ctor m s) = vnc s.
Proof.
  unfold initTerminalSession.
  destruct (JsMap.get sid (sessions s)); [|done].
  destruct (consoleArea (dom s)); [|done].
  set (s1 := with_dom _ s).
  pose proof (vnc_launchTerminalInContainer sid n ("terminal-" +:+ sid)
                ("status-" +:+ sid) ctor s1) as C.
  destruct (launchTerminalInContainer _ _ _ _ _ s1) as [s2 [msg| |]]; simpl in C;
    unfold initTerminalSession_settle; exact C.
Qed.

Lemma term_launchVncInContainer sid vm p cid stid s :
  term (launchVncInContainer sid vm p cid stid s).1 = term s.
Proof.
  unfold launchVncInContainer. destruct (truthy p); simpl; [|done].
  destruct (getCanvasEl cid (dom s)); simpl; [|done].
  destruct (getStatusEl stid (dom s)); reflexivity.
Qed.

Lemma term_initVncSession sid n p m s : term (initVncSession sid n p m s) = term s.
Proof.
  unfold initVncSession.
  destruct (JsMap.get sid (sessions s)); [|done].
  destruct (consoleArea (dom s)); [|done].
  set (s1 := with_dom _ s).
  pose proof (term_launchVncInContainer sid n p ("canvas-" +:+ sid) ("status-" +:+ sid) s1) as C.
  destruct (launchVncInContainer _ _ _ _ _ s1) as [s2 [msg| |]]; simpl in C;
    unfold initVncSession_settle; exact C.
Qed.

Lemma findSessionByName_elem n m k (x : Session) :
  NoDup (names m) → (k, x) ∈ m → name x = n → findSessionByName n m = Some k.
Proof.
  unfold names. induction m as [|[k0 x0] m IH]; simpl; intros Hnd Hin Hn.
  - by apply elem_of_nil in Hin.
  - apply NoDup_cons in Hnd as [Hx0 Hm].
    apply elem_of_cons in Hin as [E|Hin].
    + simplify_eq. by rewrite decide_True.
    + destruct (decide (name x0 = n)) as [E|_]; [|by apply IH].
      exfalso. apply Hx0. apply list_elem_of_fmap. exists (k, x). split; [simpl; congruence | done].
Qed.

Lemma takeOver_openConsole w vm s :
  takeOver w vm s =
  openConsole w (vm_name vm)
    (if bool_decide (vm_type vm = JStr "lxc") then "terminal" else "vnc")
    (if bool_decide (vm_type vm = JStr "lxc") then JNull else vm_vnc_port vm)
    (vm_icon vm) s.
Proof.
  unfold takeOver. destruct (decide (vm_type vm = JStr "lxc")) as [E|N].
  - by rewrite bool_decide_eq_true_2.
  - by rewrite bool_decide_eq_false_2.
Qed.

Lemma openConsole_frame_by_type w n ty p ic s :
  Inv s →
  (ty = "terminal" → vnc (openConsole w n ty p ic s) = vnc s) ∧
  (ty = "vnc" → term (openConsole w n ty p ic s) = term s).
Proof.
  intros HI.
  destruct (findSessionByName n (sessions s)) as [e|] eqn:Hf.
  - assert (e ≠ "") as Hne.
    { destruct (findSessionByName_Some _ _ _ Hf) as (x & Hx & _).
      by apply elem_keys, (inv_truthy _ HI) in Hx. }
    rewrite (openConsole_existing _ _ _ _ _ _ e Hf Hne). done.
  - rewrite openConsole_new by (by rewrite Hf). cbv zeta.
    destruct (registered_frame w n ty (default_null p) (default_null ic) s)
      as (V & T & _).
    split; intros ->.
    + rewrite decide_False by done. rewrite decide_True by done.
      by rewrite vnc_initTerminalSession.
    + rewrite decide_True by done. by rewrite term_initVncSession.
Qed.

(** X20.  [Take Over] always ends with the console of that machine in
    front.  In a reachable state, after the click the foreground session is in
    the registry, carries the machine's name, and is the one
    [findSessionByName] gives for it.  If the machine had no console, the
    session is new, of type [terminal] with no port for a container
    ([vm.type === 'lxc']) and of type [vnc] with the machine's VNC port
    otherwise; if it had one, that session comes to the front whatever its
    type, and the registry and both transport modules stay as they are.  A
    click on a container never touches the VNC module, a click on a virtual
    machine never the terminal module. *)
Theorem X20_take_over_brings_console (s : State) (w : World) (vm : Vm) :
  reachable s → JsMap.get (newSessionId w) (sessions s) = None →
  let s' := takeOver w vm s in
  let lxc := bool_decide (vm_type vm = JStr "lxc") in
  (∃ sid session,
     active s' = Some sid ∧ JsMap.get sid (sessions s') = Some session ∧
     name session = vm_name vm ∧
     findSessionByName (vm_name vm) (sessions s') = Some sid ∧
     (findSessionByName (vm_name vm) (sessions s) = None →
        sid = newSessionId w ∧
        type session = (if lxc then "terminal" else "vnc") ∧
        port session = (if lxc then JNull else default_null (vm_vnc_port vm))) ∧
     (∀ e, findSessionByName (vm_name vm) (sessions s) = Some e →
        sid = e ∧ sessions s' = sessions s ∧ vnc s' = vnc s ∧ term s' = term s)) ∧
  (lxc = true → vnc s' = vnc s) ∧
  (lxc = false → term s' = term s).
Proof.
  intros Hs Hfresh. cbv zeta. rewrite takeOver_openConsole.
  set (n := vm_name vm).
  set (ty := if bool_decide (vm_type vm = JStr "lxc") then "terminal" else "vnc").
  set (p := if bool_decide (vm_type vm = JStr "lxc") then JNull else vm_vnc_port vm).
  pose proof (reachable_Inv s Hs) as HI.
  assert (reachable (openConsole w n ty p (vm_icon vm) s)) as Hs'.
  { exact (reachable_step (EOpenConsole w n ty p (vm_icon vm)) s Hs Hfresh). }
  pose proof (reachable_Inv _ Hs') as HI'.
  destruct (openConsole_frame_by_type w n ty p (vm_icon vm) s HI) as [FV FT].
  split; [|split].
  - destruct (findSessionByName n (sessions s)) as [e|] eqn:Hf.
    + destruct (findSessionByName_Some _ _ _ Hf) as (x & Hx & Hn).
      assert (e ≠ "") as Hne by (by apply elem_keys, (inv_truthy _ HI) in Hx).
      rewrite (openConsole_existing _ _ _ _ _ _ e Hf Hne).
      exists e, x. split_and!; try done.
      * apply elem_get; [apply (inv_keys _ HI) | done].
      * by intros e' [= ->].
    + destruct (openConsole_new_entry w n ty p (vm_icon vm) s Hf) as [j Hj].
      destruct (openConsole_new_shape w n ty p (vm_icon vm) s Hf) as (Ha & _ & _).
      set (x := mkSession (newSessionId w) n ty (default_null p)
                          (default_null (vm_icon vm)) j) in *.
      exists (newSessionId w), x.
      split_and!; try done.
      * apply (findSessionByName_elem n _ (newSessionId w) x);
          [apply (inv_names _ HI') | by apply JsMapFacts.get_Some_elem | reflexivity].
      * intros _. split_and!; [done | done |]. simpl. unfold p.
        by destruct (bool_decide _).
  - intros E. apply FV. unfold ty. by rewrite E.
  - intros E. apply FT. unfold ty. by rewrite E.
Qed.

(** ** The registry's [instance] *)

Lemma linked_core s s' : lcore s' = lcore s → linked s → linked s'.
Proof.
  unfold lcore, linked. intros E HL. injection E as E1 E2 E3.
  rewrite E1, E2, E3. exact HL.
Qed.

Lemma lcore_setStatus el text cls s : lcore (setStatus el text cls s) = lcore s.
Proof. by destruct el. Qed.

Lemma closeTab_other_maps sid k s :
  k ≠ sid →
  rfbClients (vnc (closeTab sid s)) !! k = rfbClients (vnc s) !! k ∧
  termInstances (term (closeTab sid s)) !! k = termInstances (term s) !! k.
Proof.
  intros Hne. rewrite closeTab_split.
  destruct (JsMap.get sid (sessions s)) as [session|]; [|done].
  rewrite rest_vnc, rest_term. unfold closeTab_cleanup.
  destruct (cleanupVncSession_other sid s) as (V1 & _).
  destruct (cleanupTerminalSession_other sid s) as (T1 & _).
  destruct (decide (type session = "vnc")); [|destruct (decide (type session = "terminal"))].
  - by destruct (V1 k Hne) as [-> _].
  - by destruct (T1 k Hne) as (_ & -> & _).
  - done.
Qed.

Lemma linked_closeTab sid s : Inv s → linked s → linked (closeTab sid s).
Proof.
  intros HI HL k x Hget. rewrite closeTab_sessions in Hget.
  destruct (decide (sid = k)) as [->|Hne].
  - rewrite JsMapFacts.get_delete_eq in Hget; [done | apply (inv_keys _ HI)].
  - rewrite JsMapFacts.get_delete_ne in Hget by done.
    destruct (closeTab_other_maps sid k s) as [-> ->]; [done|]. by apply HL.
Qed.

(** Setting the [instance] of the session [sid] to what its module now holds
    for [sid], after a launch that touched no other session's entries. *)
Lemma linked_settle sid i s s2 :
  sessions s2 = sessions s →
  (∀ k, k ≠ sid → rfbClients (vnc s2) !! k = rfbClients (vnc s) !! k ∧
                  termInstances (term s2) !! k = termInstances (term s) !! k) →
  match i with
  | Some (InstRfb h) => rfbClients (vnc s2) !! sid = Some h
  | Some (InstTerm h) =>
      (∀ x, JsMap.get sid (sessions s) = Some x → type x = "terminal") ∧
      termInstances (term s2) !! sid = Some h
  | None => True
  end →
  linked s → linked (assign_instance sid i s2).
Proof.
  intros Es Hk Hi HL k x. rewrite get_assign_instance.
  change (rfbClients (vnc (assign_instance sid i s2))) with (rfbClients (vnc s2)).
  change (termInstances (term (assign_instance sid i s2))) with (termInstances (term s2)).
  destruct (decide (sid = k)) as [<-|Hne].
  - rewrite Es. destruct (JsMap.get sid (sessions s)) as [y|] eqn:Ey; [|done].
    simpl. intros [= <-]. simpl.
    destruct i as [[h|h]|]; [done | | done].
    destruct Hi as [Hty Hm]. split; [by apply Hty | done].
  - rewrite Es. intros Hget. destruct (Hk k) as [-> ->]; [done|]. by apply HL.
Qed.

Lemma linked_registered w n ty p ic s : linked s → linked (registered w n ty p ic s).
Proof.
  intros HL k x.
  destruct (registered_frame w n ty p ic s) as (V & T & _ & _ & _ & Es).
  rewrite Es, V, T, JsMapFacts.get_set.
  destruct (decide (newSessionId w = k)) as [<-|Hne]; [by intros [= <-] | apply HL].
Qed.

Lemma linked_settle_vnc sid s : linked s →
  linked (assign_instance sid (InstRfb <$> VNCViewer.getRfbClient sid s) s).
Proof.
  intros HL. apply (linked_settle sid _ s s); [done | done | | done].
  unfold VNCViewer.getRfbClient. by destruct (rfbClients (vnc s) !! sid).
Qed.

Lemma lcore_launchVncInContainer sid vm p cid stid s :
  lcore (launchVncInContainer sid vm p cid stid s).1 = lcore s.
Proof.
  unfold launchVncInContainer. destruct (truthy p); simpl; [|done].
  destruct (getCanvasEl cid (dom s)); simpl; [|done].
  by destruct (getStatusEl stid (dom s)).
Qed.

Lemma linked_initVncSession sid n p m s : linked s → linked (initVncSession sid n p m s).
Proof.
  intros HL. unfold initVncSession.
  destruct (JsMap.get sid (sessions s)); [|done].
  destruct (consoleArea (dom s)); [|done].
  set (s1 := with_dom _ s).
  pose proof (lcore_launchVncInContainer sid n p ("canvas-" +:+ sid) ("status-" +:+ sid) s1) as C.
  destruct (launchVncInContainer _ _ _ _ _ s1) as [s2 [msg| |]]; simpl in C;
    unfold initVncSession_settle.
  - eapply linked_core; [|exact HL]. exact C.
  - eapply linked_core; [|exact HL]. exact C.
  - apply linked_settle_vnc. eapply linked_core; [|exact HL]. exact C.
Qed.

Lemma launchTerminalInContainer_maps sid cn tid stid ctor s :
  let r := launchTerminalInContainer sid cn tid stid ctor s in
  sessions r.1 = sessions s ∧ rfbClients (vnc r.1) = rfbClients (vnc s) ∧
  (termInstances (term r.1) = termInstances (term s) ∨
   r.2 = Resolved ∧
   termInstances (term r.1) = <[sid := length (terminals (term s))]> (termInstances (term s))).
Proof.
  cbv zeta. unfold launchTerminalInContainer.
  destruct (xtermLoaded (term s)); simpl; [|by eauto].
  destruct (fitAddonLoaded (term s)); simpl; [|by eauto].
  destruct (getTerminalEl tid (dom s)); simpl; [|by eauto].
  destruct (getStatusEl stid (dom s)); destruct ctor; simpl; split_and!; try done;
    first [by left | right; split; reflexivity].
Qed.

Lemma linked_initTerminalSession sid n ctor m s :
  (∀ x, JsMap.get sid (sessions s) = Some x → type x = "terminal") →
  linked s → linked (initTerminalSession sid n ctor m s).
Proof.
  intros Hty HL. unfold initTerminalSession.
  destruct (JsMap.get sid (sessions s)) eqn:Hget; [|done].
  destruct (consoleArea (dom s)); [|done].
  set (s1 := with_dom _ s).
  destruct (launchTerminalInContainer_maps sid n ("terminal-" +:+ sid)
              ("status-" +:+ sid) ctor s1) as (Es & Ev & Et).
  destruct (launchTerminalInContainer _ _ _ _ _ s1) as [s2 r]; simpl in Es, Ev, Et.
  assert (r ≠ Resolved → linked s2) as Hsame.
  { intros Hr. destruct Et as [Et|[? _]]; [|done].
    eapply linked_core; [|exact HL]. unfold lcore. by rewrite Es, Ev, Et. }
  destruct r as [msg| |]; unfold initTerminalSession_settle.
  - eapply linked_core; [|by apply Hsame]. reflexivity.
  - by apply Hsame.
  - apply (linked_settle sid _ s s2); [done | | | done].
    + intros k Hne. rewrite Ev. split; [done|].
      destruct Et as [->|[_ ->]]; [done|]. by rewrite lookup_insert_ne.
    + unfold TerminalManager.getTermInstance.
      destruct (termInstances (term s2) !! sid) eqn:E; simpl; [|done].
      split; [|done]. intros x Hx. apply Hty. by rewrite <- Hget.
Qed.

Lemma linked_openConsole w n ty p ic s : linked s → linked (openConsole w n ty p ic s).
Proof.
  intros HL. unfold openConsole.
  destruct (truthy_id _).
  { destruct (findSessionByName _ _); [|done].
    eapply linked_core; [|exact HL]. reflexivity. }
  cbv zeta.
  pose proof (linked_registered w n ty (default_null p) (default_null ic) s HL) as H4.
  pose proof (registered_get w n ty (default_null p) (default_null ic) s) as R.
  unfold registered in H4, R. cbv zeta in H4, R.
  set (s4 := switchToTab _ _) in *. clearbody s4.
  destruct (decide (ty = "vnc")); [|destruct (decide (ty = "terminal"))].
  - by apply linked_initVncSession.
  - apply linked_initTerminalSession; [|done]. intros x Hx. rewrite R in Hx.
    by injection Hx as <-.
  - done.
Qed.

Lemma linked_launchVncInContainer_resume sid vm p canvas el ctor s :
  linked s →
  linked (initVncSession_settle sid (launchVncInContainer_resume sid vm p canvas el ctor s)).
Proof.
  intros HL. destruct ctor as [msg|]; simpl.
  - eapply linked_core; [|exact HL].
    transitivity (lcore (setStatus el "Error" "console-status console-status-error" s));
      [reflexivity | apply lcore_setStatus].
  - set (s2 := with_vnc _ s).
    apply (linked_settle sid _ s s2); [done | | | done].
    + intros k Hne. split; [|done]. unfold s2. simpl. by rewrite lookup_insert_ne.
    + unfold VNCViewer.getRfbClient, s2. simpl. by rewrite lookup_insert_eq.
Qed.

Lemma linked_step e s : Inv s → linked s → linked (step e s).
Proof.
  intros HI HL. destruct e; simpl.
  - by apply linked_openConsole.
  - by apply linked_closeTab.
  - eapply linked_core; [|exact HL]. reflexivity.
  - eapply linked_core; [|exact HL]. unfold vncControl.
    destruct (JsMap.get _ _); [|done]. by destruct (negb _).
  - eapply linked_core; [|exact HL]. unfold terminalControl.
    destruct (JsMap.get _ _); [|done]. by destruct (negb _).
  - destruct (pending (env s) !! i) as [k|]; [|done]. destruct (settles k v); [|done].
    assert (linked (drop_pending i s)) as HL'
      by (eapply linked_core; [|exact HL]; reflexivity).
    destruct k, v; simpl; try done.
    + apply linked_launchVncInContainer_resume.
      eapply linked_core; [|exact HL'].
      destruct (clipboard_probe_frame probe (drop_pending i s)) as (C & _ & V & T & _).
      unfold lcore, sessions. by rewrite C, V, T.
    + eapply linked_core; [|exact HL']. unfold vncControl_resume.
      destruct (reports_success result); [|done]. by destruct (_ || _).
    + eapply linked_core; [|exact HL']. unfold terminalControl_resume.
      destruct (reports_success result); [|done]. by destruct (_ || _).
  - destruct (timers (env s) !! i) as [[d a]|]; [|done].
    assert (linked (drop_timer i s)) as HL'
      by (eapply linked_core; [|exact HL]; reflexivity).
    destruct a; simpl; [|done]. apply linked_closeTab; [|done].
    eapply Inv_core; [|exact HI]. reflexivity.
  - destruct (rfbs (vnc s) !! client) as [c|]; [|done].
    eapply linked_core; [|exact HL]. unfold onRfbConnect. by destruct (rfb_statusEl c).
  - destruct (rfbs (vnc s) !! client) as [c|]; [|done]. unfold onRfbDisconnect.
    set (s1 := setStatus _ _ _ s).
    assert (linked s1) as H1 by (eapply linked_core; [apply lcore_setStatus | done]).
    destruct clean; [|done]. apply linked_closeTab; [|done].
    eapply Inv_core; [|exact HI]. apply core_setStatus.
  - destruct (rfbs (vnc s) !! client) as [c|]; [|done].
    eapply linked_core; [|exact HL]. unfold onRfbSecurityFailure. by destruct (rfb_statusEl c).
  - destruct (sockets (term s) !! socket) as [w|]; [|done].
    eapply linked_core; [|exact HL]. unfold onSocketOpen. by destruct (ws_statusEl w).
  - destruct (sockets (term s) !! socket) as [w|]; [|done].
    eapply linked_core; [|exact HL]. reflexivity.
  - destruct (sockets (term s) !! socket) as [w|]; [|done].
    eapply linked_core; [|exact HL]. unfold onSocketError. by destruct (ws_statusEl w).
  - destruct (sockets (term s) !! socket) as [w|]; [|done].
    eapply linked_core; [|exact HL]. unfold onSocketClose. by destruct (ws_statusEl w).
  - destruct (terminals (term s) !! terminal) as [t|]; [|done].
    destruct (term_socket t); [|done]. unfold onData.
    destruct (sockets (term s) !! n) as [w|]; [|done].
    by destruct (ws_readyState w).
Qed.

Lemma linked_initial p : linked (initial p).
Proof. intros sid x Hget. done. Qed.

Lemma reachable_linked s : reachable s → linked s.
Proof.
  induction 1 as [p | e s Hs IH Hen]; [apply linked_initial|].
  apply linked_step; [by apply reachable_Inv | done].
Qed.

(** X21.  In every reachable state a session's [instance], once set, is the
    object its transport module holds for the session id.  For an RFB client
    it is what [getRfbClient] returns, a client on which [disconnect()] has
    not been called and whose listeners hold this session id; a terminal is
    the [instance] of sessions of type [terminal] only, and then it is what
    [getTermInstance] returns, and is not disposed. *)
Theorem X21_instance_is_transport (s : State) (sid : string) (session : Session) :
  reachable s → JsMap.get sid (sessions s) = Some session →
  (∀ h, instance session = Some (InstRfb h) →
     VNCViewer.getRfbClient sid s = Some h ∧
     ∃ c, rfbs (vnc s) !! h = Some c ∧ rfb_session c = sid ∧ rfb_disconnected c = false) ∧
  (∀ h, instance session = Some (InstTerm h) →
     type session = "terminal" ∧ TerminalManager.getTermInstance sid s = Some h ∧
     ∃ t, terminals (term s) !! h = Some t ∧ term_disposed t = false).
Proof.
  intros Hs Hget.
  pose proof (reachable_linked s Hs sid session Hget) as HL.
  destruct (reachable_Owned s Hs) as [O1 _ O3].
  split; intros h Hi; rewrite Hi in HL.
  - split; [exact HL|]. specialize (O1 sid h HL). unfold rfb_view in O1.
    rewrite list_lookup_fmap in O1.
    destruct (rfbs (vnc s) !! h) as [c|] eqn:Ec; [|done].
    simpl in O1. injection O1 as E1 E2. by exists c.
  - destruct HL as [Hty Hm]. split_and!; [done | done |].
    destruct (O3 sid h Hm) as (sh & A & _). unfold terminal_view in A.
    rewrite list_lookup_fmap in A.
    destruct (terminals (term s) !! h) as [t|] eqn:Et; [|done].
    simpl in A. injection A as A1 A2. by exists t.
Qed.

Lemma kept_refl s : clients_kept s s.
Proof. intros h sid d H. by exists d. Qed.

Lemma kept_trans s1 s2 s3 : clients_kept s1 s2 → clients_kept s2 s3 → clients_kept s1 s3.
Proof.
  intros H12 H23 h sid d H. destruct (H12 h sid d H) as (d2 & H2 & I2).
  destruct (H23 h sid d2 H2) as (d3 & H3 & I3). exists d3. split; [done|]. auto.
Qed.

Lemma kept_view s s' : rfb_view s' = rfb_view s → clients_kept s s'.
Proof. intros E h sid d H. exists d. by rewrite E. Qed.

Lemma kept_core s s' : ocore s' = ocore s → clients_kept s s'.
Proof. unfold ocore. intros E. injection E as _ E _ _ _ _. by apply kept_view. Qed.

Lemma kept_cleanupVncSession sid s : clients_kept s (cleanupVncSession sid s).
Proof.
  assert (rfb_view (cleanupVncSession sid s) =
          match rfbClients (vnc s) !! sid with
          | Some h => alter (λ q, (q.1, true)) h (rfb_view s)
          | None => rfb_view s
          end) as Ev.
  { unfold rfb_view, cleanupVncSession, VNCViewer.cleanupSession. simpl.
    destruct (rfbClients (vnc s) !! sid) eqn:E; simpl; [|done].
    by apply fmap_alter_comm. }
  intros h sid' d H. rewrite Ev.
  destruct (rfbClients (vnc s) !! sid) as [h0|]; [|by exists d].
  destruct (decide (h = h0)) as [->|Hne].
  - exists true. rewrite list_lookup_alter_eq, H. done.
  - exists d. by rewrite list_lookup_alter_ne.
Qed.

Lemma kept_closeTab sid s : clients_kept s (closeTab sid s).
Proof.
  rewrite closeTab_split.
  destruct (JsMap.get sid (sessions s)) as [session|]; [|apply kept_refl].
  eapply kept_trans; [|apply kept_core, ocore_rest]. unfold closeTab_cleanup.
  repeat case_decide; [apply kept_cleanupVncSession | by apply kept_view | apply kept_refl].
Qed.

Lemma kept_launchVncInContainer_resume sid vm p canvas el ctor s :
  clients_kept s (launchVncInContainer_resume sid vm p canvas el ctor s).1.
Proof.
  destruct ctor as [msg|]; simpl.
  { apply kept_core, ocore_setStatus. }
  intros h sid' d H. exists d. split; [|done].
  unfold rfb_view. simpl. rewrite fmap_app. by apply lookup_app_old.
Qed.

Lemma kept_settle_vnc sid r s : clients_kept s r.1 → clients_kept s (initVncSession_settle sid r).
Proof.
  destruct r as [s1 [msg| |]]; simpl; intros H; [|done|];
    (eapply kept_trans; [exact H|]); by apply kept_view.
Qed.

Lemma kept_settle_terminal sid r s :
  clients_kept s r.1 → clients_kept s (initTerminalSession_settle sid r).
Proof.
  destruct r as [s1 [msg| |]]; simpl; intros H; [|done|];
    (eapply kept_trans; [exact H|]); by apply kept_view.
Qed.

Lemma kept_openConsole w n ty p ic s : clients_kept s (openConsole w n ty p ic s).
Proof.
  unfold openConsole.
  destruct (truthy_id _).
  { destruct (findSessionByName _ _); [|apply kept_refl]. by apply kept_view. }
  cbv zeta.
  set (s4 := switchToTab _ _).
  assert (clients_kept s s4) as H4 by (by apply kept_view).
  clearbody s4. repeat case_decide; try done.
  - unfold initVncSession. destruct (JsMap.get _ _); [|done].
    destruct (consoleArea _); [|done].
    apply kept_settle_vnc. eapply kept_trans; [exact H4|].
    eapply kept_trans; [|apply kept_core, ocore_launchVncInContainer]. by apply kept_view.
  - unfold initTerminalSession. destruct (JsMap.get _ _); [|done].
    destruct (consoleArea _); [|done].
    apply kept_settle_terminal. eapply kept_trans; [exact H4|].
    apply kept_view. unfold rfb_view. by rewrite vnc_launchTerminalInContainer.
Qed.

Lemma kept_step e s : clients_kept s (step e s).
Proof.
  destruct e; simpl.
  - apply kept_openConsole.
  - apply kept_closeTab.
  - by apply kept_view.
  - apply kept_view. unfold vncControl.
    destruct (JsMap.get _ _); [|done]. by destruct (negb _).
  - apply kept_view. unfold terminalControl.
    destruct (JsMap.get _ _); [|done]. by destruct (negb _).
  - destruct (pending (env s) !! i) as [k|]; [|apply kept_refl].
    destruct (settles k v); [|apply kept_refl].
    destruct k, v; simpl; try (by apply kept_view).
    + apply kept_settle_vnc.
      eapply kept_trans; [|apply kept_launchVncInContainer_resume].
      apply kept_view. unfold rfb_view.
      destruct (clipboard_probe_frame probe (drop_pending i s)) as (_ & _ & V & _).
      by rewrite V.
    + apply kept_view. unfold vncControl_resume.
      destruct (reports_success result); [|done]. by destruct (_ || _).
    + apply kept_view. unfold terminalControl_resume.
      destruct (reports_success result); [|done]. by destruct (_ || _).
  - destruct (timers (env s) !! i) as [[d a]|]; [|apply kept_refl].
    destruct a; simpl; [|by apply kept_view].
    eapply kept_trans; [|apply kept_closeTab]. by apply kept_view.
  - destruct (rfbs (vnc s) !! client); [|apply kept_refl].
    apply kept_core. unfold onRfbConnect.
    transitivity (ocore (setStatus (rfb_statusEl r) "Connected"
                           "console-status console-status-connected" s));
      [reflexivity | apply ocore_setStatus].
  - destruct (rfbs (vnc s) !! client); [|apply kept_refl]. unfold onRfbDisconnect.
    assert (clients_kept s (setStatus (rfb_statusEl r)
                     (if clean then "Clean Disconnect" else "Disconnected")
                     "console-status console-status-error" s)) as H1
      by apply kept_core, ocore_setStatus.
    destruct clean; [|done]. eapply kept_trans; [exact H1 | apply kept_closeTab].
  - destruct (rfbs (vnc s) !! client); [|apply kept_refl].
    apply kept_core. unfold onRfbSecurityFailure.
    transitivity (ocore (setStatus (rfb_statusEl r) "Security Error"
                           "console-status console-status-error" s));
      [reflexivity | apply ocore_setStatus].
  - destruct (sockets (term s) !! socket); [|apply kept_refl].
    apply kept_core. unfold onSocketOpen, writeln.
    rewrite !ocore_write, ocore_setStatus. by apply ocore_alter_socket.
  - destruct (sockets (term s) !! socket); [|apply kept_refl].
    apply kept_core, ocore_write.
  - destruct (sockets (term s) !! socket); [|apply kept_refl].
    apply kept_core. unfold onSocketError, writeln.
    transitivity (ocore (write (ws_terminal w) ((CRLF +:+ ESC +:+ "[1;31mConnection error"
                            +:+ ESC +:+ "[0m" +:+ CRLF) +:+ CRLF)
                           (setStatus (ws_statusEl w) "Connection Error"
                              "console-status console-status-error" s)));
      [reflexivity|]. by rewrite ocore_write, ocore_setStatus.
  - destruct (sockets (term s) !! socket); [|apply kept_refl].
    apply kept_core. unfold onSocketClose, writeln.
    transitivity (ocore (write (ws_terminal w) ((CRLF +:+ ESC +:+ "[1;33mConnection closed"
                            +:+ ESC +:+ "[0m" +:+ CRLF) +:+ CRLF)
                           (setStatus (ws_statusEl w) "Disconnected"
                              "console-status console-status-error"
                              (with_sockets (alter (set_readyState CLOSED) socket) s))));
      [reflexivity|]. rewrite ocore_write, ocore_setStatus. by apply ocore_alter_socket.
  - destruct (terminals (term s) !! terminal) as [t|]; [|apply kept_refl].
    destruct (term_socket t); [|apply kept_refl]. unfold onData.
    destruct (sockets (term s) !! n); [|apply kept_refl].
    destruct (ws_readyState w); try apply kept_refl.
    apply kept_core. by apply ocore_alter_socket.
Qed.

Lemma kept_run es s : clients_kept s (run es s).
Proof.
  revert s. induction es as [|e es IH]; intros s; [apply kept_refl|].
  eapply kept_trans; [apply kept_step | apply IH].
Qed.

(** X22.  The Paste button pastes into the client the session had when the
    button was pressed, whatever has happened to it since.  In a reachable
    state, when [handleVncPaste] gets past its guard, the session is in the
    registry, is of type [vnc], and the object the continuation holds is the
    RFB client [getRfbClient] returns for that session at that moment, not
    disconnected, with listeners holding this session id.  Behind the
    [await], on whatever the page is by then: a non-empty clipboard text is
    pasted to that client, once, with the toast [Text pasted to VNC]; an
    empty text does nothing at all; a refused or missing clipboard pastes
    nothing and shows an error.  After any run of events during the wait that
    object is still a client made for this session, and it is live if it is
    still the one [getRfbClient] returns.  It need not be: after a [closeTab]
    of the session during the wait the client is disconnected and forgotten
    and the session is gone, and a non-empty text is pasted into it all the
    same, with the success toast. *)
Theorem X22_paste_targets_guard_client (s : State) (sid : string) (inst : Instance) :
  reachable s → handleVncPaste sid s = Some inst →
  ∃ session h c,
    JsMap.get sid (sessions s) = Some session ∧ type session = "vnc" ∧
    inst = InstRfb h ∧ VNCViewer.getRfbClient sid s = Some h ∧
    rfbs (vnc s) !! h = Some c ∧ rfb_session c = sid ∧ rfb_disconnected c = false ∧
    (∀ b text, text ≠ "" →
       handleVncPaste_resume inst (ReadResolves text) b =
       mkPasting (showStatus "Text pasted to VNC" "success" (pa_page b))
                 (pa_pasted b ++ [(h, text)])) ∧
    (∀ b, handleVncPaste_resume inst (ReadResolves "") b = b) ∧
    (∀ b clip, (∀ text, clip ≠ ReadResolves text) →
       pa_pasted (handleVncPaste_resume inst clip b) = pa_pasted b ∧
       toasts (env (pa_page (handleVncPaste_resume inst clip b))) =
         toasts (env (pa_page b)) ++
         [("Failed to read clipboard. Please grant permission.", "error")]) ∧
    (∀ es, run_ok es s = true →
       ∃ c', rfbs (vnc (run es s)) !! h = Some c' ∧ rfb_session c' = sid ∧
             (VNCViewer.getRfbClient sid (run es s) = Some h →
              rfb_disconnected c' = false)) ∧
    (let s' := closeTab sid s in
     JsMap.get sid (sessions s') = None ∧ VNCViewer.getRfbClient sid s' = None ∧
     (∃ c', rfbs (vnc s') !! h = Some c' ∧ rfb_session c' = sid ∧
            rfb_disconnected c' = true) ∧
     ∀ l text, text ≠ "" →
       handleVncPaste_resume inst (ReadResolves text) (mkPasting s' l) =
       mkPasting (showStatus "Text pasted to VNC" "success" s') (l ++ [(h, text)])).
Proof.
  intros Hs Hg. unfold handleVncPaste in Hg.
  destruct (JsMap.get sid (sessions s)) as [session|] eqn:Hget; [|done].
  destruct (bool_decide_reflect (type session = "vnc")) as [Hty|]; [|done].
  simpl in Hg.
  pose proof (reachable_linked s Hs sid session Hget) as HL. rewrite Hg in HL.
  destruct inst as [h|h]; [|destruct HL as [Ht _]; congruence].
  destruct (reachable_Owned s Hs) as [O1 _ _].
  pose proof (O1 sid h HL) as Hv.
  assert (∀ s1 d, rfb_view s1 !! h = Some (sid, d) →
            ∃ c', rfbs (vnc s1) !! h = Some c' ∧ rfb_session c' = sid ∧
                  rfb_disconnected c' = d) as Hread.
  { intros s1 d H1. unfold rfb_view in H1. rewrite list_lookup_fmap in H1.
    destruct (rfbs (vnc s1) !! h) as [c1|]; [|done].
    simpl in H1. injection H1 as E1 E2. by exists c1. }
  destruct (Hread s false Hv) as (c & Ec & E1 & E2).
  assert (∀ b text, text ≠ "" →
            handleVncPaste_resume (InstRfb h) (ReadResolves text) b =
            mkPasting (showStatus "Text pasted to VNC" "success" (pa_page b))
                      (pa_pasted b ++ [(h, text)])) as Hpaste.
  { intros b text Hne. simpl. by destruct (String.eqb_spec text ""). }
  exists session, h, c.
  split; [done|]. split; [done|]. split; [done|]. split; [exact HL|].
  split; [done|]. split; [done|]. split; [done|]. split; [exact Hpaste|].
  split; [done|].
  split; [intros b clip Hc; destruct clip as [|text|];
            [done | by destruct (Hc text) | done]|].
  split.
  - intros es Hok.
    destruct (kept_run es s h sid false Hv) as (d' & Hv' & _).
    destruct (Hread _ _ Hv') as (c' & Ec' & E1' & E2').
    exists c'. split; [done|]. split; [done|]. intros Hreg.
    destruct (reachable_Owned _ (reachable_run es s Hs Hok)) as [O1' _ _].
    pose proof (O1' sid h Hreg) as Hv''. rewrite Hv' in Hv''. congruence.
  - cbv zeta. split; [apply closeTab_removes, (inv_keys s), reachable_Inv, Hs|].
    assert (vnc (closeTab sid s) = vnc (cleanupVncSession sid s)) as Ecl.
    { rewrite closeTab_split, Hget, rest_vnc. unfold closeTab_cleanup.
      by rewrite decide_True. }
    destruct (cleanupVncSession_client sid s) as [Hnone Hdis].
    split; [unfold VNCViewer.getRfbClient; by rewrite Ecl|].
    split; [|intros l text Hne; exact (Hpaste (mkPasting (closeTab sid s) l) text Hne)].
    destruct (kept_closeTab sid s h sid false Hv) as (d' & Hv' & _).
    destruct (Hread _ _ Hv') as (c' & Ec' & E1' & E2').
    destruct (Hdis h c HL Ec) as (c'' & Ec'' & Ed). rewrite Ecl in Ec'.
    exists c'. rewrite Ecl. split; [done|]. split; [done|]. congruence.
Qed.

(** ** A container whose markup has lost the surface *)

Lemma find_first_all_false {A} (q : A → bool) (l : list A) :
  (∀ x, x ∈ l → q x = false) → find_first q l = None.
Proof.
  induction l as [|x l IH]; intros H; simpl; [done|].
  rewrite (H x) by (apply elem_of_cons; by left).
  apply IH. intros y Hy. apply H. apply elem_of_cons. by right.
Qed.

(** No container of the page belongs to a session id that is not in the
    registry. *)
Lemma shown_containers_registered k sid s cs x :
  View s → JsMap.get sid (sessions s) = None → consoleArea (dom s) = Some cs →
  x ∈ (show_container k <$> cs) → c_session x ≠ sid.
Proof.
  intros [_ Hreg _ _] Hget Hcs Hx. apply list_elem_of_fmap in Hx as (c & -> & Hc).
  simpl. intros E. apply JsMapFacts.get_None_keys in Hget. apply Hget.
  apply Hreg. unfold container_flags. rewrite Hcs. simpl.
  apply list_elem_of_fmap. exists (c_session c, c_hidden c). split; [by rewrite <- E|].
  apply list_elem_of_fmap. by exists c.
Qed.

Lemma no_surface_appended (pre kind kind' n : string) (m : Markup) sid d cs :
  consoleArea d = Some cs → (∀ x, x ∈ cs → c_session x ≠ sid) → m_surface m = false →
  find_first (λ c, c_has_surface c && bool_decide (c_kind c = kind')
                   && bool_decide (pre +:+ c_session c = pre +:+ sid))
    <$> consoleArea (append_container sid kind n m d)
  = Some None.
Proof.
  intros Hcs Hne Hm. unfold append_container. simpl. rewrite Hcs. simpl. f_equal.
  apply find_first_all_false. intros x Hx.
  apply elem_of_app in Hx as [Hx|Hx].
  - rewrite (bool_decide_false (pre +:+ c_session x = pre +:+ sid)).
    + by rewrite andb_false_r.
    + intros E. apply (Hne x Hx). by apply (inj (String.app pre)) in E.
  - apply list_elem_of_singleton in Hx as ->. simpl. by rewrite Hm.
Qed.

Lemma getTerminalEl_no_surface n m sid d cs :
  consoleArea d = Some cs → (∀ x, x ∈ cs → c_session x ≠ sid) → m_surface m = false →
  getTerminalEl ("terminal-" +:+ sid) (append_container sid "terminal-content" n m d) = None.
Proof.
  intros Hcs Hne Hm. unfold getTerminalEl.
  pose proof (no_surface_appended "terminal-" "terminal-content" "terminal-content"
                n m sid d cs Hcs Hne Hm) as H.
  destruct (consoleArea (append_container sid "terminal-content" n m d)); [|done].
  simpl in *. by injection H as ->.
Qed.

Lemma getCanvasEl_no_surface n m sid d cs :
  consoleArea d = Some cs → (∀ x, x ∈ cs → c_session x ≠ sid) → m_surface m = false →
  getCanvasEl ("canvas-" +:+ sid) (append_container sid "vnc-content" n m d) = None.
Proof.
  intros Hcs Hne Hm. unfold getCanvasEl.
  pose proof (no_surface_appended "canvas-" "vnc-content" "vnc-content"
                n m sid d cs Hcs Hne Hm) as H.
  destruct (consoleArea (append_container sid "vnc-content" n m d)); [|done].
  simpl in *. by injection H as ->.
Qed.

Lemma launchTerminalInContainer_no_surface sid cn tid stid ctor s :
  xtermLoaded (term s) = true → fitAddonLoaded (term s) = true →
  getTerminalEl tid (dom s) = None →
  launchTerminalInContainer sid cn tid stid ctor s = (s, Threw "Terminal container not found").
Proof. intros HX HF Hn. unfold launchTerminalInContainer. by rewrite HX, HF, Hn. Qed.

Lemma launchVncInContainer_no_surface sid vm p cid stid s :
  truthy p = true → getCanvasEl cid (dom s) = None →
  launchVncInContainer sid vm p cid stid s
  = (s, Threw "VNC canvas container element not found").
Proof. intros Hp Hn. unfold launchVncInContainer. by rewrite Hp, Hn. Qed.

(** X23.  A launch needs the element the container's markup was to give.
    In a reachable state, for a new target and a fresh session id, when the
    parse of the markup has not produced the surface ([terminal-<id>] or
    [canvas-<id>]; possible only for a name that is not plain text),
    [openConsole] registers the session and then the launch throws before it
    has touched either transport module: a text console, with the libraries
    loaded, reports [Terminal connection failed: Terminal container not
    found], a graphical one with a port reports [VNC connection failed: VNC
    canvas container element not found].  Nothing is scheduled or suspended,
    and the session stays in the registry without an instance. *)
Theorem X23_launch_needs_surface (s : State) (w : World) (n : string) (p ic : JsVal) :
  reachable s → findSessionByName n (sessions s) = None →
  JsMap.get (newSessionId w) (sessions s) = None →
  is_Some (consoleArea (dom s)) → m_surface (markup_of w n) = false →
  plain n = false ∧
  (xtermLoaded (term s) = true → fitAddonLoaded (term s) = true →
   let s' := openConsole w n "terminal" p ic s in
   term s' = term s ∧ vnc s' = vnc s ∧
   timers (env s') = timers (env s) ∧ pending (env s') = pending (env s) ∧
   toasts (env s') =
     toasts (env s) ++ [("Terminal connection failed: Terminal container not found", "error")] ∧
   JsMap.get (newSessionId w) (sessions s')
     = Some (mkSession (newSessionId w) n "terminal" (default_null p) (default_null ic)
                       None)) ∧
  (truthy p = true →
   let s' := openConsole w n "vnc" p ic s in
   term s' = term s ∧ vnc s' = vnc s ∧
   timers (env s') = timers (env s) ∧ pending (env s') = pending (env s) ∧
   toasts (env s') =
     toasts (env s) ++
     [("VNC connection failed: VNC canvas container element not found", "error")] ∧
   JsMap.get (newSessionId w) (sessions s')
     = Some (mkSession (newSessionId w) n "vnc" (default_null p) (default_null ic) None)).
Proof.
  intros Hs Hf Hfresh [cs Hcs] Hm.
  pose proof (reachable_View s Hs) as HV.
  split.
  { unfold markup_of in Hm. by destruct (plain n). }
  assert (∀ ty, let s4 := registered w n ty (default_null p) (default_null ic) s in
            consoleArea (dom s4) = Some (show_container (newSessionId w) <$> cs) ∧
            ∀ x, x ∈ (show_container (newSessionId w) <$> cs) →
                 c_session x ≠ newSessionId w) as Hreg.
  { intros ty s4.
    destruct (registered_frame w n ty (default_null p) (default_null ic) s)
      as (_ & _ & _ & _ & A4 & _). fold s4 in A4. split; [by rewrite A4, Hcs|].
    intros x Hx. by eapply shown_containers_registered. }
  split.
  - intros HX HF. cbv zeta.
    rewrite openConsole_new by (by rewrite Hf). cbv zeta.
    rewrite decide_False by done. rewrite decide_True by done.
    destruct (Hreg "terminal") as [A4 Hne].
    set (s4 := registered _ _ _ _ _ _) in *.
    destruct (registered_frame w n "terminal" (default_null p) (default_null ic) s)
      as (V4 & T4 & E4 & _). fold s4 in V4, T4, E4.
    pose proof (registered_get w n "terminal" (default_null p) (default_null ic) s) as G4.
    fold s4 in G4.
    unfold initTerminalSession. rewrite G4, A4. cbv zeta.
    rewrite launchTerminalInContainer_no_surface;
      [| change (term (with_dom _ s4)) with (term s4); by rewrite T4
       | change (term (with_dom _ s4)) with (term s4); by rewrite T4
       | by apply (getTerminalEl_no_surface n _ _ (dom s4) _ A4 Hne) ].
    unfold initTerminalSession_settle.
    change (term (showStatus _ _ (with_dom _ s4))) with (term s4).
    change (vnc (showStatus _ _ (with_dom _ s4))) with (vnc s4).
    change (timers (env (showStatus _ _ (with_dom _ s4)))) with (timers (env s4)).
    change (pending (env (showStatus _ _ (with_dom _ s4)))) with (pending (env s4)).
    change (sessions (showStatus _ _ (with_dom _ s4))) with (sessions s4).
    rewrite T4, V4, E4, G4. split_and!; done.
  - intros Hp. cbv zeta.
    rewrite openConsole_new by (by rewrite Hf). cbv zeta.
    rewrite decide_True by done.
    destruct (Hreg "vnc") as [A4 Hne].
    set (s4 := registered _ _ _ _ _ _) in *.
    destruct (registered_frame w n "vnc" (default_null p) (default_null ic) s)
      as (V4 & T4 & E4 & _). fold s4 in V4, T4, E4.
    pose proof (registered_get w n "vnc" (default_null p) (default_null ic) s) as G4.
    fold s4 in G4.
    unfold initVncSession. rewrite G4, A4. cbv zeta.
    rewrite launchVncInContainer_no_surface;
      [| by destruct p
       | by apply (getCanvasEl_no_surface n _ _ (dom s4) _ A4 Hne) ].
    unfold initVncSession_settle.
    change (term (showStatus _ _ (with_dom _ s4))) with (term s4).
    change (vnc (showStatus _ _ (with_dom _ s4))) with (vnc s4).
    change (timers (env (showStatus _ _ (with_dom _ s4)))) with (timers (env s4)).
    change (pending (env (showStatus _ _ (with_dom _ s4)))) with (pending (env s4)).
    change (sessions (showStatus _ _ (with_dom _ s4))) with (sessions s4).
    rewrite T4, V4, E4, G4. split_and!; done.
Qed.

(** ** The further properties at concrete inputs *)

Lemma X1_witness :
  JsMap.get sid2 (sessions state_vm1_lxc1) = Some session_lxc1 ∧
  type session_lxc1 = "terminal" ∧
  termSockets (term (closeTab sid2 state_vm1_lxc1)) !! sid2 = None ∧
  termInstances (term (closeTab sid2 state_vm1_lxc1)) !! sid2 = None ∧
  (∃ w', sockets (term (closeTab sid2 state_vm1_lxc1)) !! 0 = Some w' ∧
         ws_readyState w' = CLOSING ∧ ws_sent w' = []) ∧
  env (closeTab sid2 state_vm1_lxc1) = env state_vm1_lxc1.
Proof.
  assert (JsMap.get sid2 (sessions state_vm1_lxc1) = Some session_lxc1) as H1
    by (vm_compute; reflexivity).
  assert (type session_lxc1 = "terminal") as H2 by reflexivity.
  destruct (X1_close_releases_text_transport state_vm1_lxc1 sid2 session_lxc1 H1 H2)
    as ((A & B & _) & C & _ & E & _).
  destruct (C 0 socket_lxc1 ltac:(vm_compute; reflexivity) ltac:(vm_compute; reflexivity))
    as (w' & C1 & C2 & C3).
  split_and!; [exact H1 | exact H2 | exact A | exact B | | exact E].
  exists w'. split_and!; [exact C1 | exact C2 | exact C3].
Defined.

Lemma X2_witness :
  sid1 ≠ sid2 ∧
  JsMap.get sid1 (sessions (closeTab sid2 state_vm1_lxc1))
    = JsMap.get sid1 (sessions state_vm1_lxc1) ∧
  status_of sid1 (closeTab sid2 state_vm1_lxc1) = status_of sid1 state_vm1_lxc1 ∧
  rfbs (vnc (closeTab sid2 state_vm1_lxc1)) !! 0 = rfbs (vnc state_vm1_lxc1) !! 0.
Proof.
  assert (sid1 ≠ sid2) as Hne by (vm_compute; discriminate).
  destruct (X2_close_leaves_siblings state_vm1_lxc1 sid2 sid1 Hne)
    as (A & B & _ & C & _).
  split_and!; [exact Hne | exact A | exact B |].
  apply C. vm_compute. discriminate.
Defined.

Lemma X3_witness :
  terminals (term state_vm1_lxc1) !! 0 = Some terminal_lxc1 ∧
  term_socket terminal_lxc1 = Some 0 ∧
  sockets (term state_vm1_lxc1) !! 0 = Some socket_lxc1 ∧
  ∃ w', sockets (term (run (typed 0 ["l"; "s"; CRLF]) state_vm1_lxc1)) !! 0 = Some w' ∧
        ws_sent w' = ["l"; "s"; CRLF].
Proof.
  assert (terminals (term state_vm1_lxc1) !! 0 = Some terminal_lxc1) as H1
    by (vm_compute; reflexivity).
  assert (term_socket terminal_lxc1 = Some 0) as H2 by reflexivity.
  assert (sockets (term state_vm1_lxc1) !! 0 = Some socket_lxc1) as H3
    by (vm_compute; reflexivity).
  destruct (X3_keystrokes_forwarded_in_order state_vm1_lxc1 0 0 terminal_lxc1 socket_lxc1
              ["l"; "s"; CRLF] H1 H2 H3) as (A & _).
  destruct (A eq_refl) as ((w' & B1 & B2 & _) & _).
  split_and!; [exact H1 | exact H2 | exact H3 |].
  exists w'. split; [exact B1 | exact B2].
Defined.

Lemma X4_witness :
  wf_registry state_vm1_lxc1 ∧
  sockets (term state_vm1_lxc1) !! 0 = Some socket_lxc1 ∧
  let s2 := run [ESocketError 0; ESocketClose 0] state_vm1_lxc1 in
  timers (env s2) = timers (env state_vm1_lxc1)
                    ++ [(2000%Z, TCloseTab sid2); (2000%Z, TCloseTab sid2)] ∧
  JsMap.get sid2 (sessions (step (ETimer (length (timers (env state_vm1_lxc1)))) s2)) = None.
Proof.
  assert (wf_registry state_vm1_lxc1) as Hwf.
  { unfold wf_registry.
    apply (bool_decide_unpack (NoDup (JsMap.keys (sessions state_vm1_lxc1)))).
    vm_compute. exact I. }
  assert (sockets (term state_vm1_lxc1) !! 0 = Some socket_lxc1) as Hw
    by (vm_compute; reflexivity).
  destruct (X4_error_then_close state_vm1_lxc1 0 socket_lxc1 Hwf Hw)
    as (A & _ & _ & _ & _ & B & _).
  cbv zeta. split_and!; [exact Hwf | exact Hw | exact A | exact B].
Defined.

Lemma X5_witness :
  reachable state_vm1 ∧
  enabled (EOpenConsole world2 "lxc1" "terminal" JUndefined JNull) state_vm1 ∧
  findSessionByName "lxc1" (sessions state_vm1) = None ∧
  let s2 := closeTab sid2 (openConsole world2 "lxc1" "terminal" JUndefined JNull state_vm1) in
  sessions s2 = sessions state_vm1 ∧ tab_keys s2 = tab_keys state_vm1 ∧
  active s2 = Some sid1.
Proof.
  assert (enabled (EOpenConsole world2 "lxc1" "terminal" JUndefined JNull) state_vm1) as He
    by (vm_compute; reflexivity).
  assert (findSessionByName "lxc1" (sessions state_vm1) = None) as Hf
    by (vm_compute; reflexivity).
  destruct (X5_open_then_close state_vm1 world2 "lxc1" "terminal" JUndefined JNull
              reachable_state_vm1 He Hf) as (_ & A & B & C).
  cbv zeta. split_and!; [exact reachable_state_vm1 | exact He | exact Hf | exact A | exact B | exact C].
Defined.

Lemma X6_witness :
  findSessionByName "lxc1" (sessions (initial page_no_xterm)) = None ∧
  is_Some (consoleArea (dom (initial page_no_xterm))) ∧
  (xtermLoaded (term (initial page_no_xterm)) = false ∨
   fitAddonLoaded (term (initial page_no_xterm)) = false) ∧
  let s' := openConsole world1 "lxc1" "terminal" JUndefined JNull (initial page_no_xterm) in
  term s' = term (initial page_no_xterm) ∧
  toasts (env s') = [("Terminal connection failed: xterm.js Terminal class not found", "error")] ∧
  JsMap.get sid1 (sessions s') = Some (mkSession sid1 "lxc1" "terminal" JNull JNull None).
Proof.
  assert (findSessionByName "lxc1" (sessions (initial page_no_xterm)) = None) as Hf
    by reflexivity.
  assert (is_Some (consoleArea (dom (initial page_no_xterm)))) as Ha
    by (vm_compute; eexists; reflexivity).
  assert (xtermLoaded (term (initial page_no_xterm)) = false ∨
          fitAddonLoaded (term (initial page_no_xterm)) = false) as Hl
    by (left; reflexivity).
  destruct (X6_text_launch_needs_libraries (initial page_no_xterm) world1 "lxc1"
              JUndefined JNull Hf Ha Hl) as (A & _ & _ & _ & B & C).
  cbv zeta. split_and!; [exact Hf | exact Ha | exact Hl | exact A | exact B | exact C].
Defined.

Lemma X7_witness :
  plain "lxc1" = true ∧
  findSessionByName "lxc1" (sessions state_vm1) = None ∧
  is_Some (consoleArea (dom state_vm1)) ∧
  xtermLoaded (term state_vm1) = true ∧ fitAddonLoaded (term state_vm1) = true ∧
  wsCtor world2 = None ∧
  let s' := openConsole world2 "lxc1" "terminal" JUndefined JNull state_vm1 in
  TerminalManager.getTermInstance sid2 s' = Some 0 ∧
  termSockets (term s') !! sid2 = Some 0 ∧
  terminals (term s') = [mkTerminal [] false (Some 0)] ∧
  timers (env s') = [(100%Z, TFit 0)] ∧ vnc s' = vnc state_vm1.
Proof.
  assert (findSessionByName "lxc1" (sessions state_vm1) = None) as Hf
    by (vm_compute; reflexivity).
  assert (is_Some (consoleArea (dom state_vm1))) as Ha
    by (vm_compute; eexists; reflexivity).
  assert (xtermLoaded (term state_vm1) = true) as Hx by (vm_compute; reflexivity).
  assert (fitAddonLoaded (term state_vm1) = true) as Hfit by (vm_compute; reflexivity).
  assert (wsCtor world2 = None) as Hw by reflexivity.
  assert (plain "lxc1" = true) as Hn by reflexivity.
  destruct (X7_text_open_registers state_vm1 world2 "lxc1" JUndefined JNull
              Hn Hf Ha Hx Hfit Hw)
    as (A & B & _ & _ & C & _ & D & _ & _ & E).
  cbv zeta. split_and!; [exact Hn | exact Hf | exact Ha | exact Hx | exact Hfit | exact Hw
              | exact A | exact B | exact C | exact D | exact E].
Defined.

Lemma X8_witness :
  pending (env state_vm1_closed_early) !! 0 = Some (KLaunchVnc sid1 "vm1" (JNum 5901) 0 (Some 0)) ∧
  let s' := step (EResume 0 (RfbCtor ReadRejects None)) state_vm1_closed_early in
  VNCViewer.getRfbClient sid1 s' = Some 0 ∧
  rfbs (vnc s') = [mkRfb sid1 "vm1" (JNum 5901) 0 (Some 0) false] ∧
  pending (env s') = [] ∧
  toasts (env s') = [(clipboard_tip, "info")] ∧
  sessions s' = [] ∧ closeTab sid1 s' = s'.
Proof.
  assert (pending (env state_vm1_closed_early) !! 0
          = Some (KLaunchVnc sid1 "vm1" (JNum 5901) 0 (Some 0))) as Hp
    by (vm_compute; reflexivity).
  destruct (X8_vnc_launch_resumed state_vm1_closed_early 0 sid1 "vm1" (JNum 5901) 0 (Some 0)
              ReadRejects Hp) as (A & B & C & _ & T & _ & _ & D).
  destruct (D ltac:(vm_compute; reflexivity)) as (D1 & D2).
  cbv zeta. split_and!; [exact Hp | exact A | exact B | exact C | exact T | exact D1 | exact D2].
Defined.

Lemma X9_witness :
  findSessionByName "vm1" (sessions (initial page_bare)) = None ∧
  (consoleArea (dom (initial page_bare)) = None ∨ ("vnc" ≠ "vnc" ∧ "vnc" ≠ "terminal")) ∧
  let s' := openConsole world1 "vm1" "vnc" (JNum 5901) JNull (initial page_bare) in
  JsMap.get sid1 (sessions s') = Some (mkSession sid1 "vm1" "vnc" (JNum 5901) JNull None) ∧
  active s' = Some sid1 ∧
  vnc s' = vnc (initial page_bare) ∧ term s' = term (initial page_bare) ∧
  env s' = env (initial page_bare).
Proof.
  assert (findSessionByName "vm1" (sessions (initial page_bare)) = None) as Hf by reflexivity.
  assert (consoleArea (dom (initial page_bare)) = None ∨ ("vnc" ≠ "vnc" ∧ "vnc" ≠ "terminal"))
    as Ha by (left; reflexivity).
  destruct (X9_open_without_launch (initial page_bare) world1 "vm1" "vnc" (JNum 5901) JNull
              Hf Ha) as (_ & A & B & C & D & E).
  cbv zeta. split_and!; [exact Hf | exact Ha | exact A | exact B | exact C | exact D | exact E].
Defined.

Lemma X10_witness :
  reachable state_vm1_lxc1 ∧
  (∀ tabs t, tabBar (dom state_vm1_lxc1) = Some tabs → t ∈ tabs →
     (tab_active t = true ↔ tab_session t = sid2)) ∧
  (∀ cs, consoleArea (dom state_vm1_lxc1) = Some cs → NoDup (c_session <$> cs)).
Proof.
  destruct (X10_page_shows_foreground state_vm1_lxc1 reachable_state_vm1_lxc1)
    as (A & _ & C).
  split_and!; [exact reachable_state_vm1_lxc1 | | exact C].
  intros tabs t Ht Hin. rewrite (A tabs t Ht Hin).
  change (active state_vm1_lxc1) with (Some sid2).
  split; [intros [= ->]; reflexivity | intros ->; reflexivity].
Defined.

Lemma X11_witness :
  reachable state_vm1_lxc1 ∧
  (∀ sid h, rfbClients (vnc state_vm1_lxc1) !! sid = Some h →
     ∃ c, rfbs (vnc state_vm1_lxc1) !! h = Some c ∧ rfb_session c = sid ∧
          rfb_disconnected c = false) ∧
  (∀ sid h, termSockets (term state_vm1_lxc1) !! sid = Some h →
     ∃ w, sockets (term state_vm1_lxc1) !! h = Some w ∧ ws_session w = sid).
Proof.
  destruct (X11_handles_are_owned state_vm1_lxc1 reachable_state_vm1_lxc1) as (A & B & _).
  split_and!; [exact reachable_state_vm1_lxc1 | exact A | exact B].
Defined.

Lemma X12_witness :
  switchToTab sid1 (switchToTab sid2 state_vm1_lxc1) = switchToTab sid1 state_vm1_lxc1 ∧
  active (switchToTab sid1 state_vm1_lxc1) = Some sid1 ∧
  tab_keys (switchToTab sid1 state_vm1_lxc1) = tab_keys state_vm1_lxc1.
Proof.
  destruct (X12_switch_last_wins state_vm1_lxc1 sid1 sid2) as (A & B & _ & _ & _ & _ & _ & C & _).
  split_and!; [exact A | exact B | exact C].
Defined.

Lemma X13_witness :
  API.r_ok response_accepted = true ∧ API.r_status response_accepted ≠ 401%N ∧
  let r := API.settle (control_endpoint "vm1" "stop") (API.FetchResponds response_accepted)
             state_vm1_stopping in
  API.reply_state r = state_vm1_stopping ∧ API.reply_login r = false ∧
  API.reply_result r = ApiJson (JStr "success").
Proof.
  assert (API.r_ok response_accepted = true) as Hok by reflexivity.
  assert (API.r_status response_accepted ≠ 401%N) as Hne by (vm_compute; discriminate).
  destruct (X13_api_result (control_endpoint "vm1" "stop")
              (API.FetchResponds response_accepted) state_vm1_stopping) as (_ & A & _).
  destruct (A response_accepted eq_refl Hok Hne) as (A1 & A2 & A3).
  cbv zeta. split_and!; [exact Hok | exact Hne | exact A1 | exact A2 | exact A3].
Defined.

Lemma X14_witness :
  API.r_ok response_no_progress = false ∧ API.r_status response_no_progress ≠ 401%N ∧
  API.reply_state (API.settle "/appstore/download-progress/debian"
                     (API.FetchResponds response_no_progress) state_vm1) = state_vm1 ∧
  ∃ message,
    toasts (env (API.reply_state (API.settle "/vm/vm1/stop"
                                    (API.FetchResponds response_no_progress) state_vm1)))
    = toasts (env state_vm1) ++ [(message, "error")].
Proof.
  assert (API.r_ok response_no_progress = false) as Hok by reflexivity.
  assert (API.r_status response_no_progress ≠ 401%N) as Hne by (vm_compute; discriminate).
  destruct (X14_api_effects "/appstore/download-progress/debian"
              (API.FetchResponds response_no_progress) state_vm1) as (_ & _ & _ & A).
  destruct (X14_api_effects "/vm/vm1/stop"
              (API.FetchResponds response_no_progress) state_vm1) as (_ & _ & _ & B).
  split_and!; [exact Hok | exact Hne | exact (A response_no_progress eq_refl Hok Hne)
              | exact (B response_no_progress eq_refl Hok Hne)].
Defined.

Lemma X15_witness :
  JsMap.get sid1 (sessions state_vm1) = Some session_vm1 ∧
  (type session_vm1 = "vnc" ∨ type session_vm1 = "terminal") ∧
  apiCalls (env (step (EVncControl sid1 "stop") state_vm1))
    = apiCalls (env state_vm1) ++ [("/vm/vm1/stop", "POST")] ∧
  API.request (Some "t0k3n") (control_endpoint "vm1" "stop") "POST" None =
    inr (API.mkRequest "/api/vm/vm1/stop" "POST"
           [("Content-Type", "application/json"); ("Authorization", "Bearer t0k3n")] None).
Proof.
  assert (JsMap.get sid1 (sessions state_vm1) = Some session_vm1) as Hs
    by (vm_compute; reflexivity).
  assert (type session_vm1 = "vnc" ∨ type session_vm1 = "terminal") as Hty
    by (left; reflexivity).
  destruct (X15_control_request state_vm1 sid1 "stop" session_vm1 (Some "t0k3n") Hs Hty)
    as (A & _ & B).
  split_and!; [exact Hs | exact Hty | exact A | exact B].
Defined.

Lemma X16_witness :
  pending (env state_vm1_stopping) !! 0 = Some (KVncControl sid1 "stop") ∧
  (∀ resp, API.FetchResponds response_refused = API.FetchResponds resp →
     API.r_ok resp = false ∨ API.r_status resp = 401%N) ∧
  let s' := answered 0 (control_endpoint "vm1" "stop") (API.FetchResponds response_refused)
              state_vm1_stopping in
  cm s' = cm state_vm1_stopping ∧ timers (env s') = timers (env state_vm1_stopping) ∧
  pending (env s') = [].
Proof.
  assert (pending (env state_vm1_stopping) !! 0 = Some (KVncControl sid1 "stop")) as Hp
    by (vm_compute; reflexivity).
  assert (∀ resp, API.FetchResponds response_refused = API.FetchResponds resp →
            API.r_ok resp = false ∨ API.r_status resp = 401%N) as Hf.
  { intros resp E. injection E as <-. left. reflexivity. }
  destruct (X16_refused_control_keeps_tab state_vm1_stopping 0 sid1 "stop"
              (control_endpoint "vm1" "stop") (KVncControl sid1 "stop")
              (API.FetchResponds response_refused) Hp (or_introl eq_refl) Hf)
    as (_ & A & _ & _ & _ & B & C & _).
  cbv zeta. split_and!; [exact Hp | exact Hf | exact A | exact B | exact C].
Defined.

Lemma X17_witness :
  wf_registry state_vm1_stopping ∧
  pending (env state_vm1_stopping) !! 0 = Some (KVncControl sid1 "stop") ∧
  ("stop" = "stop" ∨ "stop" = "destroy") ∧
  API.r_ok response_accepted = true ∧ API.r_status response_accepted ≠ 401%N ∧
  API.r_body response_accepted = API.BodyParsed (API.PValue None (JStr "success")) ∧
  let s' := answered 0 (control_endpoint "vm1" "stop") (API.FetchResponds response_accepted)
              state_vm1_stopping in
  timers (env s') = timers (env state_vm1_stopping) ++ [(2000%Z, TCloseTab sid1)] ∧
  JsMap.get sid1 (sessions (step (ETimer (length (timers (env state_vm1_stopping)))) s'))
    = None.
Proof.
  assert (wf_registry state_vm1_stopping) as Hwf.
  { unfold wf_registry.
    apply (bool_decide_unpack (NoDup (JsMap.keys (sessions state_vm1_stopping)))).
    vm_compute. exact I. }
  assert (pending (env state_vm1_stopping) !! 0 = Some (KVncControl sid1 "stop")) as Hp
    by (vm_compute; reflexivity).
  assert ("stop" = "stop" ∨ "stop" = "destroy") as Ha by (left; reflexivity).
  assert (API.r_ok response_accepted = true) as Hok by reflexivity.
  assert (API.r_status response_accepted ≠ 401%N) as Hne by (vm_compute; discriminate).
  assert (API.r_body response_accepted = API.BodyParsed (API.PValue None (JStr "success")))
    as Hb by reflexivity.
  destruct (X17_accepted_stop_closes state_vm1_stopping 0 sid1 "stop"
              (control_endpoint "vm1" "stop") (KVncControl sid1 "stop") response_accepted None
              Hwf Hp (or_introl eq_refl) Ha Hok Hne Hb) as (_ & A & _ & _ & B & _).
  cbv zeta. split_and!; [exact Hwf | exact Hp | exact Ha | exact Hok | exact Hne | exact Hb
                        | exact A | exact B].
Defined.

Lemma X18_witness :
  toasts (env (br_page (probes [ReadRejects; NoClipboardApi; ReadRejects]
                          (mkBrowser state_vm1 ∅))))
    = toasts (env state_vm1) ++ [(clipboard_tip, "info")] ∧
  toasts (env (br_page (probes [ReadRejects; ReadRejects]
                          (mkBrowser state_vm1 {[notificationKey := "true"]}))))
    = toasts (env state_vm1) ++ [].
Proof.
  destruct (X18_clipboard_tip_once [ReadRejects; NoClipboardApi; ReadRejects]
              (mkBrowser state_vm1 ∅)) as (A & _).
  destruct (X18_clipboard_tip_once [ReadRejects; ReadRejects]
              (mkBrowser state_vm1 {[notificationKey := "true"]})) as (B & _).
  split; [exact A | exact B].
Defined.

Lemma X19_witness :
  3 ≤ VNC_LOAD_MAX_ATTEMPTS ∧ rfb_after_three 3 = true ∧
  (checkNoVNCLoaded rfb_after_three).2 = true ∧ (checkNoVNCLoaded rfb_after_three).1 ≤ 3 ∧
  (waited (checkNoVNCLoaded rfb_after_three).1 ≤ 5000)%Z.
Proof.
  assert (3 ≤ VNC_LOAD_MAX_ATTEMPTS) as Hk by (unfold VNC_LOAD_MAX_ATTEMPTS; lia).
  assert (rfb_after_three 3 = true) as Hr by reflexivity.
  destruct (X19_novnc_wait_bounded rfb_after_three) as (_ & W & _ & _ & _ & A).
  destruct (A 3 Hk Hr) as [A1 A2].
  split_and!; [exact Hk | exact Hr | exact A1 | exact A2 | exact W].
Defined.

Lemma X20_witness :
  reachable state_vm1 ∧ JsMap.get (newSessionId world2) (sessions state_vm1) = None ∧
  (∃ sid session,
     active (takeOver world2 vm_lxc1 state_vm1) = Some sid ∧
     JsMap.get sid (sessions (takeOver world2 vm_lxc1 state_vm1)) = Some session ∧
     name session = "lxc1") ∧
  vnc (takeOver world2 vm_lxc1 state_vm1) = vnc state_vm1.
Proof.
  assert (JsMap.get (newSessionId world2) (sessions state_vm1) = None) as Hf
    by (vm_compute; reflexivity).
  destruct (X20_take_over_brings_console state_vm1 world2 vm_lxc1 reachable_state_vm1 Hf)
    as ((sid & session & A & B & C & _) & D & _).
  split_and!; [exact reachable_state_vm1 | exact Hf | | exact (D eq_refl)].
  exists sid, session. split_and!; [exact A | exact B | exact C].
Defined.

Lemma X21_witness :
  reachable state_vm1_lxc1 ∧
  JsMap.get sid2 (sessions state_vm1_lxc1) = Some session_lxc1 ∧
  type session_lxc1 = "terminal" ∧
  TerminalManager.getTermInstance sid2 state_vm1_lxc1 = Some 0 ∧
  ∃ t, terminals (term state_vm1_lxc1) !! 0 = Some t ∧ term_disposed t = false.
Proof.
  assert (JsMap.get sid2 (sessions state_vm1_lxc1) = Some session_lxc1) as Hg
    by (vm_compute; reflexivity).
  destruct (X21_instance_is_transport state_vm1_lxc1 sid2 session_lxc1
              reachable_state_vm1_lxc1 Hg) as (_ & A).
  destruct (A 0 eq_refl) as (A1 & A2 & A3).
  split_and!; [exact reachable_state_vm1_lxc1 | exact Hg | exact A1 | exact A2 | exact A3].
Defined.

Lemma X22_witness :
  reachable state_vm1 ∧ handleVncPaste sid1 state_vm1 = Some (InstRfb 0) ∧
  (∃ h c, InstRfb 0 = InstRfb h ∧ VNCViewer.getRfbClient sid1 state_vm1 = Some h ∧
          rfbs (vnc state_vm1) !! h = Some c ∧ rfb_disconnected c = false) ∧
  JsMap.get sid1 (sessions (closeTab sid1 state_vm1)) = None ∧
  rfbs (vnc (closeTab sid1 state_vm1)) !! 0
    = Some (mkRfb sid1 "vm1" (JNum 5901) 0 (Some 0) true) ∧
  handleVncPaste_resume (InstRfb 0) (ReadResolves "ls") (mkPasting (closeTab sid1 state_vm1) [])
    = mkPasting (showStatus "Text pasted to VNC" "success" (closeTab sid1 state_vm1))
                [(0, "ls")].
Proof.
  assert (handleVncPaste sid1 state_vm1 = Some (InstRfb 0)) as Hg
    by (vm_compute; reflexivity).
  destruct (X22_paste_targets_guard_client state_vm1 sid1 (InstRfb 0) reachable_state_vm1 Hg)
    as (session & h & c & _ & _ & A & B & C & _ & D & _ & _ & _ & _ & E & _ & _ & F).
  injection A as <-.
  split; [exact reachable_state_vm1|]. split; [exact Hg|].
  split; [exists 0, c; split; [reflexivity|]; split; [exact B|]; split; [exact C | exact D]|].
  split; [exact E|]. split; [vm_compute; reflexivity|].
  exact (F [] "ls" ltac:(discriminate)).
Defined.

Lemma X23_witness :
  reachable state_vm1 ∧ findSessionByName "lxc<!--" (sessions state_vm1) = None ∧
  JsMap.get (newSessionId world_comment) (sessions state_vm1) = None ∧
  is_Some (consoleArea (dom state_vm1)) ∧
  m_surface (markup_of world_comment "lxc<!--") = false ∧
  xtermLoaded (term state_vm1) = true ∧ fitAddonLoaded (term state_vm1) = true ∧
  let s' := openConsole world_comment "lxc<!--" "terminal" JUndefined JNull state_vm1 in
  term s' = term state_vm1 ∧
  toasts (env s') =
    [("VNC connected to vm1", "success");
     ("Terminal connection failed: Terminal container not found", "error")] ∧
  JsMap.get sid2 (sessions s')
    = Some (mkSession sid2 "lxc<!--" "terminal" JNull JNull None).
Proof.
  assert (findSessionByName "lxc<!--" (sessions state_vm1) = None) as Hf
    by (vm_compute; reflexivity).
  assert (JsMap.get (newSessionId world_comment) (sessions state_vm1) = None) as Hn
    by (vm_compute; reflexivity).
  assert (is_Some (consoleArea (dom state_vm1))) as Ha
    by (vm_compute; eexists; reflexivity).
  assert (m_surface (markup_of world_comment "lxc<!--") = false) as Hm
    by (vm_compute; reflexivity).
  assert (xtermLoaded (term state_vm1) = true) as Hx by (vm_compute; reflexivity).
  assert (fitAddonLoaded (term state_vm1) = true) as Hfit by (vm_compute; reflexivity).
  destruct (X23_launch_needs_surface state_vm1 world_comment "lxc<!--" JUndefined JNull
              reachable_state_vm1 Hf Hn Ha Hm) as (_ & A & _).
  destruct (A Hx Hfit) as (A1 & _ & _ & _ & A2 & A3).
  cbv zeta. split_and!; [exact reachable_state_vm1 | exact Hf | exact Hn | exact Ha | exact Hm
              | exact Hx | exact Hfit | exact A1
              | exact A2 | exact A3].
Defined.
